(** * Form lifecycle, bulk import and form-builder numbering

  A shallow embedding of the school-management application's form
  lifecycle (server routes and storage), student bulk import, public
  routing, and the client-side form builder, together with the properties
  stated about them in the specification. *)

From Stdlib Require Import ZArith Ascii String Lia.
From stdpp Require Import base option list strings gmap fin_maps pretty infinite sorting.

Local Open Scope Z_scope.
Local Open Scope string_scope.
Local Open Scope list_scope.

(* ===================================================================== *)
(** ** JavaScript values and string primitives *)
(* ===================================================================== *)

Module JS.

(** JSON values as they travel in request bodies and [jsonb] columns.
    [JNull] also stands for an SQL NULL read back by the driver. *)
#[local] Unset Elimination Schemes.
Inductive Json : Type :=
| JNull
| JBool (b : bool)
| JNum (n : Z)
| JStr (s : string)
| JArr (l : list Json)
| JObj (l : list (string * Json)).
#[local] Set Elimination Schemes.

(** Values of objects built inside a handler: JSON from the request or
    the database, or a [Date] made with [new Date()]. *)
Inductive JsVal : Type :=
| VJson (j : Json)
| VDate (t : Z).

(** ToBoolean on JSON values. *)
Definition truthy (j : Json) : bool :=
  match j with
  | JNull => false
  | JBool b => b
  | JNum n => negb (Z.eqb n 0)
  | JStr s => negb (String.eqb s "")
  | JArr _ => true
  | JObj _ => true
  end.

(** [a || b] on JSON values. *)
Definition or_else (a b : Json) : Json := if truthy a then a else b.

(** [a || b] on possibly-undefined strings: the empty string is falsy. *)
Definition str_truthy (s : option string) : bool :=
  match s with
  | Some s => negb (String.eqb s "")
  | None => false
  end.

Definition is_upper (c : ascii) : bool :=
  let n := nat_of_ascii c in (Nat.leb 65 n && Nat.leb n 90)%bool.

Definition lower_char (c : ascii) : ascii :=
  if is_upper c then ascii_of_nat (nat_of_ascii c + 32) else c.

(** [String.prototype.toLowerCase], on the ASCII range. *)
Fixpoint toLowerCase (s : string) : string :=
  match s with
  | EmptyString => EmptyString
  | String c s' => String (lower_char c) (toLowerCase s')
  end.

(** White space as [trim] and the regular-expression class [\s] see it,
    on the ASCII range: TAB, LF, VT, FF, CR and SPACE. *)
Definition is_space (c : ascii) : bool :=
  let n := nat_of_ascii c in
  ((Nat.leb 9 n && Nat.leb n 13) || Nat.eqb n 32)%bool.

Fixpoint trimStart (s : string) : string :=
  match s with
  | EmptyString => EmptyString
  | String c s' => if is_space c then trimStart s' else s
  end.

Fixpoint trimEnd (s : string) : string :=
  match s with
  | EmptyString => EmptyString
  | String c s' =>
      match trimEnd s' with
      | EmptyString => if is_space c then EmptyString else String c EmptyString
      | t => String c t
      end
  end.

(** [String.prototype.trim]. *)
Definition trim (s : string) : string := trimEnd (trimStart s).

(** The strings of the model are sequences of 8-bit characters.  Below
    128 [toLowerCase] and [trim] above are the functions of the language;
    beyond that range the language follows Unicode (it lowers U+212A to
    [k], and trims U+00A0, U+FEFF, U+2028 and the space separators), which
    they do not.  Statements that depend on what either function does to
    a string are made for strings of this range; the character 0, which
    the database refuses in a text, is left out as well. *)
Fixpoint ascii_only (s : string) : bool :=
  match s with
  | EmptyString => true
  | String c s' =>
      (Nat.ltb 0 (nat_of_ascii c) && Nat.ltb (nat_of_ascii c) 128
       && ascii_only s')%bool
  end.

(** [s.startsWith(p)]. *)
Definition startsWith (s p : string) : bool := String.prefix p s.

(** [s.includes(p)] on strings: [p] occurs in [s]. *)
Fixpoint str_includes (s p : string) : bool :=
  if String.prefix p s then true
  else match s with
       | EmptyString => false
       | String _ s' => str_includes s' p
       end.

(** The names every plain object inherits from [Object.prototype]:
    reading one of them from an object with no such key of its own gives
    a function (or, for [__proto__], the prototype), not [undefined], and
    assigning a string to [__proto__] creates no key. *)
Definition Object_prototype_names : list string :=
  ["constructor"; "__proto__"; "hasOwnProperty"; "isPrototypeOf";
   "propertyIsEnumerable"; "toLocaleString"; "toString"; "valueOf";
   "__defineGetter__"; "__defineSetter__"; "__lookupGetter__";
   "__lookupSetter__"].

Definition inherited (key : string) : bool :=
  bool_decide (key ∈ Object_prototype_names).

(** [arr.includes(x)] on arrays of strings. *)
Definition includes (l : list string) (x : string) : bool :=
  bool_decide (x ∈ l).

End JS.

Import JS.

(* ===================================================================== *)
(** ** shared/schema.ts: tables and insert schemas *)
(* ===================================================================== *)

Module Schema.

(** A row of the [forms] table. *)
Record Form : Type := mkForm {
  id : string;
  name : string;
  description : option string;
  formType : string;
  formUrl : option string;
  status : string;
  createdBy : string;
  settings : Json;
  questions : Json;
  sections : Json;
  previewQuestions : Json;
  previewSections : Json;
  publishedQuestions : Json;
  publishedSections : Json;
  lastSavedAt : option Z;
  lastPublishedAt : option Z;
  createdAt : option Z;
  updatedAt : option Z
}.

(** The output of a [Partial<InsertForm>] parse: [None] is an absent key,
    [Some None] on a nullable column is an explicit null. *)
Record PartialForm : Type := mkPartialForm {
  p_name : option string;
  p_description : option (option string);
  p_formType : option string;
  p_formUrl : option (option string);
  p_status : option string;
  p_createdBy : option string;
  p_settings : option Json;
  p_questions : option Json;
  p_sections : option Json;
  p_previewQuestions : option Json;
  p_previewSections : option Json;
  p_publishedQuestions : option Json;
  p_publishedSections : option Json;
  p_lastSavedAt : option (option Z);
  p_lastPublishedAt : option (option Z)
}.

(** Field validators of the generated zod schema.  The outer [option] is
    the parse result ([None]: ZodError), the inner one the presence of the
    key. *)
Definition zString (v : option JsVal) : option (option string) :=
  match v with
  | None => Some None
  | Some (VJson (JStr s)) => Some (Some s)
  | Some _ => None
  end.

Definition zStringNullable (v : option JsVal) : option (option (option string)) :=
  match v with
  | None => Some None
  | Some (VJson JNull) => Some (Some None)
  | Some (VJson (JStr s)) => Some (Some (Some s))
  | Some _ => None
  end.

Definition zJson (v : option JsVal) : option (option Json) :=
  match v with
  | None => Some None
  | Some (VJson j) => Some (Some j)
  | Some (VDate _) => None
  end.

Definition zDateNullable (v : option JsVal) : option (option (option Z)) :=
  match v with
  | None => Some None
  | Some (VJson JNull) => Some (Some None)
  | Some (VDate t) => Some (Some (Some t))
  | Some _ => None
  end.

(** [insertFormSchema.partial()]: every column of the insert schema
    ([id], [createdAt], [updatedAt] are omitted) is optional; unknown keys
    are stripped. *)
Definition insertFormSchema_partial_parse (o : gmap string JsVal) : option PartialForm :=
  nm ← zString (o !! "name");
  de ← zStringNullable (o !! "description");
  ft ← zString (o !! "formType");
  fu ← zStringNullable (o !! "formUrl");
  st ← zString (o !! "status");
  cb ← zString (o !! "createdBy");
  se ← zJson (o !! "settings");
  qs ← zJson (o !! "questions");
  ss ← zJson (o !! "sections");
  pq ← zJson (o !! "previewQuestions");
  ps ← zJson (o !! "previewSections");
  bq ← zJson (o !! "publishedQuestions");
  bs ← zJson (o !! "publishedSections");
  ls ← zDateNullable (o !! "lastSavedAt");
  lp ← zDateNullable (o !! "lastPublishedAt");
  Some (mkPartialForm nm de ft fu st cb se qs ss pq ps bq bs ls lp).

(** [insertFormSchema.partial().omit({ createdBy: true })]: the
    [createdBy] key is no longer part of the schema, so it is stripped
    like any unknown key, whatever its value. *)
Definition insertFormSchema_partial_omit_createdBy_parse
    (o : gmap string JsVal) : option PartialForm :=
  insertFormSchema_partial_parse (delete "createdBy" o).

(** [insertFormSchema.parse]: [name] and [createdBy] are required. *)
Definition insertFormSchema_parse (o : gmap string JsVal) : option PartialForm :=
  p ← insertFormSchema_partial_parse o;
  if (bool_decide (is_Some (p_name p)) && bool_decide (is_Some (p_createdBy p)))%bool
  then Some p else None.

(** A row of the [studentsDB] table. *)
Record Student : Type := mkStudent {
  s_id : string;
  student_BC : option string;
  fullName : option string;
  dateOfBirth : option string;
  gender : option string;
  level : option string;
  class : option string;
  centre : option string;
  guardianName : option string;
  guardianEmail : option string;
  guardianPhone : option string;
  address : option string;
  emergencyContact : option string;
  emergencyPhone : option string;
  medicalInfo : option string;
  s_status : string;
  additionalData : option (gmap string string);
  s_createdBy : option string;
  s_createdAt : option Z;
  s_updatedAt : option Z
}.

(** [Partial<InsertStudent>]: the typed payload of an import row.  Every
    key is optional; [None] is an absent key.  The additional-data bag is
    the flat string-keyed object the importer builds. *)
Record InsertStudent : Type := mkInsertStudent {
  i_student_BC : option string;
  i_fullName : option string;
  i_dateOfBirth : option string;
  i_gender : option string;
  i_level : option string;
  i_class : option string;
  i_centre : option string;
  i_guardianName : option string;
  i_guardianEmail : option string;
  i_guardianPhone : option string;
  i_address : option string;
  i_emergencyContact : option string;
  i_emergencyPhone : option string;
  i_medicalInfo : option string;
  i_status : option string;
  i_additionalData : option (gmap string string);
  i_createdBy : option string
}.

End Schema.

Import Schema.

(* ===================================================================== *)
(** ** server/storage.ts: the storage-access component (forms) *)
(* ===================================================================== *)

Module Storage.

(** [getFormById]: [select().from(forms).where(eq(forms.id, id))], first row. *)
Definition getFormById (fid : string) (tbl : list Form) : option Form :=
  head (filter (λ f, id f = fid) tbl).

(** [getForm] is the same query under another name. *)
Definition getForm (fid : string) (tbl : list Form) : option Form :=
  getFormById fid tbl.

(** [getFormByUrl]: first row whose [form_url] equals the slug. *)
Definition getFormByUrl (url : string) (tbl : list Form) : option Form :=
  head (filter (λ f, formUrl f = Some url) tbl).

(** The [UNIQUE] constraint on [form_url]: no row other than [self] holds
    the slug (NULLs never conflict). *)
Definition formUrl_free (self : string) (u : option string) (tbl : list Form) : bool :=
  match u with
  | None => true
  | Some _ => bool_decide (Forall (λ f, id f = self ∨ formUrl f ≠ u) tbl)
  end.

(** [createForm]: [insert(forms).values(form).returning()].  The database
    fills [id] with a key no row holds yet ([gen_random_uuid()]), the column
    defaults ([formType = 'survey'], [status = 'draft']) and both
    timestamps.  [None] is a rejected statement: a NOT NULL column left
    out or a duplicate [form_url]. *)
Definition createForm (now : Z) (p : PartialForm)
    (tbl : list Form) : option (Form * list Form) :=
  nm ← p_name p;
  cb ← p_createdBy p;
  let newId : string := fresh (id <$> tbl) in
  let row :=
    mkForm newId nm
      (default None (p_description p))
      (default "survey" (p_formType p))
      (default None (p_formUrl p))
      (default "draft" (p_status p))
      cb
      (default JNull (p_settings p))
      (default JNull (p_questions p))
      (default JNull (p_sections p))
      (default JNull (p_previewQuestions p))
      (default JNull (p_previewSections p))
      (default JNull (p_publishedQuestions p))
      (default JNull (p_publishedSections p))
      (default None (p_lastSavedAt p))
      (default None (p_lastPublishedAt p))
      (Some now) (Some now) in
  if formUrl_free newId (formUrl row) tbl
  then Some (row, tbl ++ [row]) else None.

(** The effect of [.set({ ...updates, updatedAt: new Date() })] on one row:
    a key that is present overwrites its column, an absent key leaves it. *)
Definition set_form (p : PartialForm) (now : Z) (f : Form) : Form :=
  mkForm (id f)
    (default (name f) (p_name p))
    (default (description f) (p_description p))
    (default (formType f) (p_formType p))
    (default (formUrl f) (p_formUrl p))
    (default (status f) (p_status p))
    (default (createdBy f) (p_createdBy p))
    (default (settings f) (p_settings p))
    (default (questions f) (p_questions p))
    (default (sections f) (p_sections p))
    (default (previewQuestions f) (p_previewQuestions p))
    (default (previewSections f) (p_previewSections p))
    (default (publishedQuestions f) (p_publishedQuestions p))
    (default (publishedSections f) (p_publishedSections p))
    (default (lastSavedAt f) (p_lastSavedAt p))
    (default (lastPublishedAt f) (p_lastPublishedAt p))
    (createdAt f)
    (Some now).

(** [updateForm]: [update(forms).set(...).where(eq(forms.id, id)).returning()],
    first returned row.  [None] is a rejected statement (duplicate
    [form_url]) or an empty result.  The values of the [jsonb] columns
    are kept as they are written; the driver returns a string among them
    as what it parses to, so that the rows describe what is read for
    values that are not strings of JSON text. *)
Definition updateForm (fid : string) (p : PartialForm) (now : Z)
    (tbl : list Form) : option (Form * list Form) :=
  f ← getFormById fid tbl;
  let f' := set_form p now f in
  if formUrl_free fid (formUrl f') tbl
  then Some (f', (λ g, if bool_decide (id g = fid) then set_form p now g else g) <$> tbl)
  else None.

(** *** Students *)

(** [getStudentByStudentId]: first row whose [student_BC] equals the
    argument.  An undefined argument reaches the driver as NULL, and
    [student_BC = NULL] selects no row. *)
Definition getStudentByStudentId (studentBC : option string)
    (tbl : list Student) : option Student :=
  match studentBC with
  | None => None
  | Some bc => head (filter (λ s, student_BC s = Some bc) tbl)
  end.

(** The [UNIQUE] constraint on [student_BC]. *)
Definition student_BC_free (self : string) (u : option string)
    (tbl : list Student) : bool :=
  match u with
  | None => true
  | Some _ => bool_decide (Forall (λ s, s_id s = self ∨ student_BC s ≠ u) tbl)
  end.

(** [a ?? b] for an absent key of an insert or update object. *)
Definition or_keep {A : Type} (new : option A) (old : option A) : option A :=
  match new with
  | Some v => Some v
  | None => old
  end.

(** [createStudent]: [insert(studentsDB).values(student).returning()]. *)
Definition createStudent (now : Z) (r : InsertStudent)
    (tbl : list Student) : option (Student * list Student) :=
  let newId : string := fresh (s_id <$> tbl) in
  let row :=
    mkStudent newId (i_student_BC r) (i_fullName r) (i_dateOfBirth r)
      (i_gender r) (i_level r) (i_class r) (i_centre r)
      (i_guardianName r) (i_guardianEmail r) (i_guardianPhone r)
      (i_address r) (i_emergencyContact r) (i_emergencyPhone r)
      (i_medicalInfo r)
      (default "active" (i_status r))
      (i_additionalData r) (i_createdBy r)
      (Some now) (Some now) in
  if student_BC_free newId (student_BC row) tbl
  then Some (row, tbl ++ [row]) else None.

(** The effect of [.set(updates)] on one student row. *)
Definition set_student (r : InsertStudent) (s : Student) : Student :=
  mkStudent (s_id s)
    (or_keep (i_student_BC r) (student_BC s))
    (or_keep (i_fullName r) (fullName s))
    (or_keep (i_dateOfBirth r) (dateOfBirth s))
    (or_keep (i_gender r) (gender s))
    (or_keep (i_level r) (level s))
    (or_keep (i_class r) (class s))
    (or_keep (i_centre r) (centre s))
    (or_keep (i_guardianName r) (guardianName s))
    (or_keep (i_guardianEmail r) (guardianEmail s))
    (or_keep (i_guardianPhone r) (guardianPhone s))
    (or_keep (i_address r) (address s))
    (or_keep (i_emergencyContact r) (emergencyContact s))
    (or_keep (i_emergencyPhone r) (emergencyPhone s))
    (or_keep (i_medicalInfo r) (medicalInfo s))
    (default (s_status s) (i_status r))
    (or_keep (i_additionalData r) (additionalData s))
    (or_keep (i_createdBy r) (s_createdBy s))
    (s_createdAt s)
    (s_updatedAt s).

(** The update object has no value for any column. *)
Definition noColumns (r : InsertStudent) : bool :=
  (negb (bool_decide (is_Some (i_student_BC r)))
   && negb (bool_decide (is_Some (i_fullName r)))
   && negb (bool_decide (is_Some (i_dateOfBirth r)))
   && negb (bool_decide (is_Some (i_gender r)))
   && negb (bool_decide (is_Some (i_level r)))
   && negb (bool_decide (is_Some (i_class r)))
   && negb (bool_decide (is_Some (i_centre r)))
   && negb (bool_decide (is_Some (i_guardianName r)))
   && negb (bool_decide (is_Some (i_guardianEmail r)))
   && negb (bool_decide (is_Some (i_guardianPhone r)))
   && negb (bool_decide (is_Some (i_address r)))
   && negb (bool_decide (is_Some (i_emergencyContact r)))
   && negb (bool_decide (is_Some (i_emergencyPhone r)))
   && negb (bool_decide (is_Some (i_medicalInfo r)))
   && negb (bool_decide (is_Some (i_status r)))
   && negb (bool_decide (is_Some (i_additionalData r)))
   && negb (bool_decide (is_Some (i_createdBy r))))%bool.

(** [updateStudent]: [update(studentsDB).set(updates).where(eq(id))
    .returning()], first returned row.  [None] is a thrown error: [set]
    refuses an object without values, and the database a duplicate
    [student_BC]. *)
Definition updateStudent (sid : string) (r : InsertStudent)
    (tbl : list Student) : option (Student * list Student) :=
  if noColumns r then None
  else
    s ← head (filter (λ s, s_id s = sid) tbl);
    let s' := set_student r s in
    if student_BC_free sid (student_BC s') tbl
    then Some (s', (λ g, if bool_decide (s_id g = sid) then set_student r g else g) <$> tbl)
    else None.

(** The body of the [try] block of [bulkCreateStudents] for one row:
    update the student that already carries this BC number, create one
    otherwise.  [None] is a thrown error. *)
Definition upsertStudent (now : Z) (student : InsertStudent)
    (tbl : list Student) : option (Student * list Student) :=
  match getStudentByStudentId (i_student_BC student) tbl with
  | Some existingStudent => updateStudent (s_id existingStudent) student tbl
  | None => createStudent now student tbl
  end.

(** The [for ... of] loop of [bulkCreateStudents].  [fault i] tells whether
    the database fails while row [i] is processed (a lost connection, a
    rejected statement); a failed statement changes nothing.  The [catch]
    logs the error and the loop goes on. *)
Fixpoint bulkLoop (fault : nat → bool) (now : Z) (i : nat)
    (studentData : list InsertStudent) (results : list Student)
    (tbl : list Student) : list Student * list Student :=
  match studentData with
  | [] => (results, tbl)
  | student :: rest =>
      let attempt := if fault i then None else upsertStudent now student tbl in
      match attempt with
      | Some (s, tbl') => bulkLoop fault now (S i) rest (results ++ [s]) tbl'
      | None => bulkLoop fault now (S i) rest results tbl
      end
  end.

(** [bulkCreateStudents]. *)
Definition bulkCreateStudents (fault : nat → bool) (now : Z)
    (studentData : list InsertStudent) (tbl : list Student)
    : list Student * list Student :=
  match studentData with
  | [] => ([], tbl)
  | _ => bulkLoop fault now 0 studentData [] tbl
  end.

End Storage.

(* ===================================================================== *)
(** ** server/routes.ts: the form routes *)
(* ===================================================================== *)

Module Routes.

(** What a handler sends back: a JSON body, or an error status. *)
Inductive Result (A : Type) : Type :=
| Ok (a : A)
| Err (code : Z).
Arguments Ok {A} a.
Arguments Err {A} code.

(** [POST /api/forms].  [userId] is [req.user.claims.sub]. *)
Definition createFormRoute (userId : string) (now : Z)
    (body : gmap string Json) (tbl : list Form) : Result Form * list Form :=
  (* const { title, ...rest } = req.body *)
  let rest : gmap string JsVal := VJson <$> delete "title" body in
  (* { ...rest, name: title, createdBy: userId } *)
  let named :=
    match body !! "title" with
    | Some t => <["name" := VJson t]> rest
    | None => delete "name" rest
    end in
  let mappedData := <["createdBy" := VJson (JStr userId)]> named in
  match insertFormSchema_parse mappedData with
  | None => (Err 400, tbl)
  | Some formData =>
      match Storage.createForm now formData tbl with
      | Some (form, tbl') => (Ok form, tbl')
      | None => (Err 500, tbl)
      end
  end.

(** The request is a publish when [status === 'active']. *)
Definition isPublishOperation (body : gmap string Json) : bool :=
  match body !! "status" with
  | Some (JStr s) => String.eqb s "active"
  | _ => false
  end.

(** [const { title, questions, sections, status, ...rest } = req.body;
     const mappedData = ('title' in req.body) ? { ...rest, name: title } : rest] *)
Definition mappedData (body : gmap string Json) : gmap string JsVal :=
  let rest : gmap string JsVal :=
    VJson <$> delete "status" (delete "sections" (delete "questions" (delete "title" body))) in
  match body !! "title" with
  | Some t => <["name" := VJson t]> rest
  | None => rest
  end.

(** The update object of the publish branch. *)
Definition publishUpdates (existingForm : Form) (now : Z)
    (body : gmap string Json) : gmap string JsVal :=
  <["lastPublishedAt" := VDate now]>
  (<["publishedSections" :=
       VJson (or_else (previewSections existingForm) (sections existingForm))]>
  (<["publishedQuestions" :=
       VJson (or_else (previewQuestions existingForm) (questions existingForm))]>
  (<["status" := VJson (JStr "active")]> (mappedData body)))).

(** [questions || existingForm.questions] where [questions] may be absent. *)
Definition or_existing (v : option Json) (existing : Json) : Json :=
  match v with
  | Some j => or_else j existing
  | None => existing
  end.

(** The update object of the save branch. *)
Definition saveUpdates (existingForm : Form) (now : Z)
    (body : gmap string Json) : gmap string JsVal :=
  <["lastSavedAt" := VDate now]>
  (<["sections" := VJson (or_existing (body !! "sections") (sections existingForm))]>
  (<["questions" := VJson (or_existing (body !! "questions") (questions existingForm))]>
  (mappedData body))).

(** [PUT /api/forms/:id]: publish when the body asks for [status: 'active'],
    save otherwise. *)
Definition updateFormRoute (userId fid : string) (now : Z)
    (body : gmap string Json) (tbl : list Form) : Result Form * list Form :=
  match Storage.getFormById fid tbl with
  | None => (Err 404, tbl)
  | Some existingForm =>
      if negb (String.eqb (createdBy existingForm) userId) then (Err 403, tbl)
      else
        let updates :=
          if isPublishOperation body
          then publishUpdates existingForm now body
          else saveUpdates existingForm now body in
        match insertFormSchema_partial_omit_createdBy_parse updates with
        | None => (Err 400, tbl)
        | Some parsed =>
            match Storage.updateForm fid parsed now tbl with
            | Some (form, tbl') => (Ok form, tbl')
            | None => (Err 500, tbl)
            end
        end
  end.

(** [POST /api/forms/:id/prepare-preview]. *)
Definition preparePreviewRoute (userId fid : string) (now : Z)
    (tbl : list Form) : Result unit * list Form :=
  match Storage.getFormById fid tbl with
  | None => (Err 404, tbl)
  | Some existingForm =>
      if negb (String.eqb (createdBy existingForm) userId) then (Err 403, tbl)
      else
        let updates : gmap string JsVal :=
          <["lastSavedAt" := VDate now]>
          (<["previewSections" := VJson (sections existingForm)]>
          (<["previewQuestions" := VJson (questions existingForm)]> ∅)) in
        (* a ZodError is not special-cased here: every failure is a 500 *)
        match insertFormSchema_partial_omit_createdBy_parse updates with
        | None => (Err 500, tbl)
        | Some parsed =>
            match Storage.updateForm fid parsed now tbl with
            | Some (_, tbl') => (Ok tt, tbl')
            | None => (Err 500, tbl)
            end
        end
  end.

(** [GET /api/public/forms/:url]: the handler's 404 test.  The projection
    sent on success is every public field of the resolved row; the row
    itself stands for it here. *)
Definition publicFormRoute (url : string) (tbl : list Form) : Result Form :=
  match Storage.getFormByUrl url tbl with
  | None => Err 404
  | Some form => Ok form
  end.

(** *** Student routes *)

(** [{ ...student, createdBy: userId }]. *)
Definition withCreator (userId : string) (r : InsertStudent) : InsertStudent :=
  mkInsertStudent (i_student_BC r) (i_fullName r) (i_dateOfBirth r)
    (i_gender r) (i_level r) (i_class r) (i_centre r)
    (i_guardianName r) (i_guardianEmail r) (i_guardianPhone r)
    (i_address r) (i_emergencyContact r) (i_emergencyPhone r)
    (i_medicalInfo r) (i_status r) (i_additionalData r) (Some userId).

(** The JSON body answered by [POST /api/students/bulk]. *)
Record BulkResponse : Type := mkBulkResponse {
  message : string;
  students : list Student
}.

(** [POST /api/students/bulk].  The rows are typed payloads, on which
    [insertStudentSchema.parse] (every column optional) succeeds. *)
Definition studentsBulkRoute (fault : nat → bool) (userId : string) (now : Z)
    (studentData : list InsertStudent) (tbl : list Student)
    : Result BulkResponse * list Student :=
  match studentData with
  | [] => (Err 400, tbl)
  | _ =>
      let validatedStudents := withCreator userId <$> studentData in
      let '(createdStudents, tbl') :=
        Storage.bulkCreateStudents fault now validatedStudents tbl in
      (Ok (mkBulkResponse
             ("Successfully imported " +:+ pretty (length createdStudents) +:+ " students")
             createdStudents),
       tbl')
  end.

(** The projection of a student pushed by the lookup route. *)
Record StudentSummary : Type := mkStudentSummary {
  ss_student_BC : option string;
  ss_fullName : option string;
  ss_level : option string;
  ss_class : option string
}.

Definition summary (s : Student) : StudentSummary :=
  mkStudentSummary (student_BC s) (fullName s) (level s) (class s).

(** The JSON body answered by the lookup route; [notSelectedStudents] is
    [undefined] when the list is empty. *)
Record LookupResponse : Type := mkLookupResponse {
  foundStudents : list StudentSummary;
  notFoundBCNumbers : list string;
  notSelectedStudents : option (list StudentSummary)
}.

(** The three arrays the lookup loop pushes to. *)
Record LookupAcc : Type := mkLookupAcc {
  acc_found : list StudentSummary;
  acc_notFound : list string;
  acc_notSelected : list StudentSummary
}.

(** Property access [obj[key]] on a JSON value. *)
Definition json_get (key : string) (j : Json) : option Json :=
  match j with
  | JObj l => snd <$> head (filter (λ kv, fst kv = key) l)
  | _ => None
  end.

(** [x > 0] for a JSON value [x].  The comparison turns [x] into a
    number: [null] is 0, [true] is 1, and a string, an array or an object
    goes through the numeric-literal grammar and [toString], which may
    also throw.  For these three the outcome is left to [compare]; [None]
    is an exception. *)
Definition gt0 (compare : Json → option bool) (x : Json) : option bool :=
  match x with
  | JNull => Some false
  | JBool b => Some b
  | JNum n => Some (Z.ltb 0 n)
  | _ => compare x
  end.

(** [(settings as any).selectedRespondents || []].  The builder stores
    [Array.from(selectedRespondents)] there, but [settings] is any JSON
    the owner of the form has saved: every truthy value is kept. *)
Definition selectedRespondentsOf (settings : Json) : Json :=
  match json_get "selectedRespondents" settings with
  | Some v => if truthy v then v else JArr []
  | None => JArr []
  end.

(** [selectedRespondents.length > 0].  An array and a string have a
    length; a number and [true] have none, and [undefined > 0] is false;
    an object has the [length] it was saved with, if any. *)
Definition respondents_nonempty (compare : Json → option bool)
    (selectedRespondents : Json) : option bool :=
  match selectedRespondents with
  | JArr l => Some (Nat.ltb 0 (length l))
  | JStr s => Some (Nat.ltb 0 (String.length s))
  | JObj _ =>
      match json_get "length" selectedRespondents with
      | Some x => gt0 compare x
      | None => Some false
      end
  | _ => Some false
  end.

(** [selectedRespondents.includes(trimmedBC)]: on an array, strict
    equality of an element with the string; on a string, the substring
    test; any other value has no function [includes], and the call
    throws ([None]). *)
Definition respondents_include (selectedRespondents : Json) (bc : string)
    : option bool :=
  match selectedRespondents with
  | JArr l =>
      Some (existsb (λ j, match j with JStr s => String.eqb s bc | _ => false end) l)
  | JStr s => Some (str_includes s bc)
  | _ => None
  end.

(** The form-dependent part of the lookup: the allow-list and the form
    kind, left at their defaults unless a form with settings is found. *)
Definition lookupContext (formId : option string) (forms : list Form)
    : Json * string :=
  if str_truthy formId then
    match Storage.getForm (default "" formId) forms with
    | Some form =>
        if truthy (settings form) then
          (selectedRespondentsOf (settings form),
           if str_truthy (Some (formType form)) then formType form else "general")
        else (JArr [], "general")
    | None => (JArr [], "general")
    end
  else (JArr [], "general").

(** One turn of the [for (const bcNumber of bcNumbers)] loop; [None] is an
    exception.  [bcNumber.trim()] throws unless the element is a string. *)
Definition lookupStep (compare : Json → option bool)
    (selectedRespondents : Json) (formType : string)
    (tbl : list Student) (acc : LookupAcc) (bcNumber : Json)
    : option LookupAcc :=
  match bcNumber with
  | JStr bcNumber =>
      let trimmedBC := trim bcNumber in
      if negb (String.eqb trimmedBC "") then
        match Storage.getStudentByStudentId (Some trimmedBC) tbl with
        | Some student =>
            match (if String.eqb formType "parents_survey"
                   then respondents_nonempty compare selectedRespondents
                   else Some false) with
            | Some true =>
                match respondents_include selectedRespondents trimmedBC with
                | Some true =>
                    Some (mkLookupAcc (acc_found acc ++ [summary student])
                            (acc_notFound acc) (acc_notSelected acc))
                | Some false =>
                    Some (mkLookupAcc (acc_found acc) (acc_notFound acc)
                            (acc_notSelected acc ++ [summary student]))
                | None => None
                end
            | Some false =>
                Some (mkLookupAcc (acc_found acc ++ [summary student])
                        (acc_notFound acc) (acc_notSelected acc))
            | None => None
            end
        | None =>
            Some (mkLookupAcc (acc_found acc) (acc_notFound acc ++ [trimmedBC])
                    (acc_notSelected acc))
        end
      else Some acc
  | _ => None
  end.

(** The loop: an exception ends it. *)
Fixpoint lookupLoop (compare : Json → option bool)
    (selectedRespondents : Json) (formType : string) (tbl : list Student)
    (bcNumbers : list Json) (acc : LookupAcc) : option LookupAcc :=
  match bcNumbers with
  | [] => Some acc
  | bcNumber :: rest =>
      match lookupStep compare selectedRespondents formType tbl acc bcNumber with
      | Some acc' =>
          lookupLoop compare selectedRespondents formType tbl rest acc'
      | None => None
      end
  end.

(** [POST /api/public/students/lookup-bc].  [bcNumbers = None] is a body
    whose [bcNumbers] is falsy or not an array; the elements of the array
    are any JSON.  An exception in the loop is caught and answered 500. *)
Definition lookupBcRoute (compare : Json → option bool)
    (bcNumbers : option (list Json))
    (formId : option string) (forms : list Form) (tbl : list Student)
    : Result LookupResponse :=
  match bcNumbers with
  | None => Err 400
  | Some bcNumbers =>
      let '(selectedRespondents, formType) := lookupContext formId forms in
      match lookupLoop compare selectedRespondents formType tbl bcNumbers
              (mkLookupAcc [] [] []) with
      | Some acc =>
          Ok (mkLookupResponse (acc_found acc) (acc_notFound acc)
                (if Nat.ltb 0 (length (acc_notSelected acc))
                 then Some (acc_notSelected acc) else None))
      | None => Err 500
      end
  end.

End Routes.

(* ===================================================================== *)
(** ** client App: public form routing *)
(* ===================================================================== *)

Module App.

(** Reserved slugs that should not be treated as form URLs. *)
Definition RESERVED_SLUGS : list string :=
  ["apps"; "settings"; "dashboards"; "preview"; "api"; "assets";
   "vite"; "favicon.ico"; "login"; "logout"; "auth"].

(** What the route [/:url] renders. *)
Inductive Page : Type :=
| NotFound
| PublicForm (isPreview : bool).

(** [PublicFormRoute]. *)
Definition PublicFormRoute (url : string) : Page :=
  if includes RESERVED_SLUGS (toLowerCase url) then NotFound
  else PublicForm false.

(** What a visitor of the public form URL [/:url] is served: nothing on the
    not-found page; on the [PublicForm] page (not in preview mode) the
    answer of [/api/public/forms/:url], whose failure shows the page's own
    "Form Not Found" screen. *)
Definition servePublicUrl (url : string) (forms : list Form) : option Form :=
  match PublicFormRoute url with
  | NotFound => None
  | PublicForm _ =>
      match Routes.publicFormRoute url forms with
      | Routes.Ok form => Some form
      | Routes.Err _ => None
      end
  end.

End App.

(* ===================================================================== *)
(** ** client StudentCSVUploader: header mapping and row validation *)
(* ===================================================================== *)

Module StudentCSV.

Record ParsedStudentRow : Type := mkParsedStudentRow {
  index : nat;
  data : InsertStudent;
  valid : bool;
  errors : list string
}.

(** The typed columns a header can be mapped to. *)
Inductive Field : Type :=
| F_student_BC | F_fullName | F_dateOfBirth | F_gender | F_level | F_class
| F_centre | F_guardianName | F_guardianEmail | F_guardianPhone | F_address
| F_emergencyContact | F_emergencyPhone | F_medicalInfo | F_status.

#[global] Instance Field_eq_dec : EqDecision Field.
Proof. solve_decision. Defined.

(** [rowData.field = value]. *)
Definition setField (f : Field) (v : string) (r : InsertStudent) : InsertStudent :=
  let u (g : Field) (old : option string) : option string :=
    if bool_decide (f = g) then Some v else old in
  mkInsertStudent
    (u F_student_BC (i_student_BC r)) (u F_fullName (i_fullName r))
    (u F_dateOfBirth (i_dateOfBirth r)) (u F_gender (i_gender r))
    (u F_level (i_level r)) (u F_class (i_class r)) (u F_centre (i_centre r))
    (u F_guardianName (i_guardianName r)) (u F_guardianEmail (i_guardianEmail r))
    (u F_guardianPhone (i_guardianPhone r)) (u F_address (i_address r))
    (u F_emergencyContact (i_emergencyContact r))
    (u F_emergencyPhone (i_emergencyPhone r)) (u F_medicalInfo (i_medicalInfo r))
    (u F_status (i_status r))
    (i_additionalData r) (i_createdBy r).

(** [rowData.additionalData = bag]. *)
Definition setBag (bag : option (gmap string string)) (r : InsertStudent)
    : InsertStudent :=
  mkInsertStudent (i_student_BC r) (i_fullName r) (i_dateOfBirth r)
    (i_gender r) (i_level r) (i_class r) (i_centre r)
    (i_guardianName r) (i_guardianEmail r) (i_guardianPhone r)
    (i_address r) (i_emergencyContact r) (i_emergencyPhone r)
    (i_medicalInfo r) (i_status r) bag (i_createdBy r).

(** [if (!rowData.additionalData) rowData.additionalData = {}]. *)
Definition ensureBag (r : InsertStudent) : InsertStudent :=
  match i_additionalData r with
  | Some _ => r
  | None => setBag (Some ∅) r
  end.

(** [(rowData.additionalData as any)[key] = value] on the plain object
    that [ensureBag] leaves.  The key [__proto__] is the inherited
    accessor: assigning a string to it sets nothing, and the object gets
    no key. *)
Definition setExtra (key v : string) (r : InsertStudent) : InsertStudent :=
  if String.eqb key "__proto__"
  then setBag (Some (default ∅ (i_additionalData r))) r
  else setBag (Some (<[key := v]> (default ∅ (i_additionalData r)))) r.

(** [rowData.additionalData?.[key]], for a key that is the object's own
    or is not inherited. *)
Definition getExtra (key : string) (r : InsertStudent) : option string :=
  bag ← i_additionalData r; bag !! key.

(** [row[colIndex] ? String(row[colIndex]).trim() : ''] on text cells. *)
Definition cellValue (row : list string) (colIndex : nat) : string :=
  match row !! colIndex with
  | Some c => if str_truthy (Some c) then trim c else ""
  | None => ""
  end.

(** The [switch (normalizedHeader)] of the first pass over the headers. *)
Definition mapHeader (row : list string) (rowData : InsertStudent)
    (colIndex : nat) (header : string) : InsertStudent :=
  let value := cellValue row colIndex in
  let has := str_truthy (Some value) in
  let normalizedHeader := toLowerCase header in
  let rowData := ensureBag rowData in
  let oneOf (cases : list string) := includes cases normalizedHeader in
  if oneOf ["bc no"; "bc no."; "bc_no"; "bc_no."; "bcno"; "bcno."; "studentid";
         "student_id"; "id"] then
    if has then setExtra "bcNo" value (setField F_student_BC value rowData)
    else rowData
  else if oneOf ["firstname"; "first_name"; "lastname"; "last_name"] then
    if has then setExtra header value rowData else rowData
  else if oneOf ["center"; "centre"; "learning_center"; "learning center"; "branch";
              "campus"; "location"; "center name"; "centre name"] then
    if (has && negb (str_truthy (i_centre rowData)))%bool
    then setExtra "center" value (setField F_centre value rowData)
    else rowData
  else if oneOf ["level"; "std"; "standard"; "year"; "year_level"; "student_level";
              "class level"; "grade level"] then
    if (has && negb (str_truthy (i_level rowData)))%bool
    then setField F_level value rowData
    else rowData
  else if oneOf ["session"; "timing"; "time_slot"; "time slot"; "session time";
              "schedule"; "batch"] then
    if (has && negb (str_truthy (getExtra "session" rowData)))%bool
    then setExtra "session_info" value (setExtra "session" value rowData)
    else rowData
  else if oneOf ["admission date"; "admission_date"; "admissiondate"] then
    if has then setExtra "admissionDate" value rowData else rowData
  else if oneOf ["start date"; "start_date"; "startdate"] then
    if has then setExtra "startDate" value rowData else rowData
  else if oneOf ["end date"; "end_date"; "enddate"] then
    if has then setExtra "endDate" value rowData else rowData
  else if oneOf ["birthdate"; "birth_date"; "date_of_birth"; "dateofbirth"; "dob"] then
    if has then setField F_dateOfBirth value rowData else rowData
  else if oneOf ["enrolment status"; "enrolment_status"; "enrollment_status";
              "enrollment"; "status"] then
    if has
    then setExtra "enrollment" value (setField F_status (toLowerCase value) rowData)
    else rowData
  else if oneOf ["fullname"; "full_name"; "name"] then
    if has then setField F_fullName value rowData else rowData
  else if oneOf ["email"; "email_address"; "phonenumber"; "phone_number"; "phone"] then
    if has then setExtra header value rowData else rowData
  else if oneOf ["gender"] then
    if has then setField F_gender value rowData else rowData
  else if oneOf ["grade"; "class_level"] then
    if has then setField F_level value rowData else rowData
  else if oneOf ["class"; "classroom"] then
    if has then setField F_class value rowData else rowData
  else if oneOf ["section"] then
    if has then setExtra "section" value rowData else rowData
  else if oneOf ["guardianname"; "guardian_name"; "parent_name"] then
    if has then setField F_guardianName value rowData else rowData
  else if oneOf ["guardianemail"; "guardian_email"; "parent_email"] then
    if has then setField F_guardianEmail value rowData else rowData
  else if oneOf ["guardianphone"; "guardian_phone"; "parent_phone"] then
    if has then setField F_guardianPhone value rowData else rowData
  else if oneOf ["address"] then
    if has then setField F_address value rowData else rowData
  else if oneOf ["emergencycontact"; "emergency_contact"] then
    if has then setField F_emergencyContact value rowData else rowData
  else if oneOf ["emergencyphone"; "emergency_phone"] then
    if has then setField F_emergencyPhone value rowData else rowData
  else if oneOf ["medicalinfo"; "medical_info"; "medical_information"] then
    if has then setField F_medicalInfo value rowData else rowData
  else rowData.

(** The list inside [isKnownField]. *)
Definition knownFields : list string :=
  ["bc no"; "bc_no"; "bcno"; "studentid"; "student_id"; "id";
   "firstname"; "first_name"; "lastname"; "last_name";
   "fullname"; "full_name"; "name"; "center"; "centre"; "learning_center";
   "learning center"; "branch"; "campus"; "location"; "center name";
   "centre name";
   "level"; "std"; "standard"; "year"; "year_level"; "student_level";
   "class level"; "grade level";
   "session"; "timing"; "time_slot"; "time slot"; "session time"; "schedule";
   "batch";
   "admission date"; "admission_date"; "admissiondate";
   "start date"; "start_date"; "startdate";
   "end date"; "end_date"; "enddate";
   "birthdate"; "birth_date"; "date_of_birth"; "dateofbirth"; "dob";
   "enrolment status"; "enrolment_status"; "enrollment_status"; "enrollment";
   "status";
   "email"; "email_address"; "phonenumber"; "phone_number"; "phone";
   "gender"; "grade"; "class_level"; "class"; "classroom"; "section";
   "guardianname"; "guardian_name"; "parent_name";
   "guardianemail"; "guardian_email"; "parent_email";
   "guardianphone"; "guardian_phone"; "parent_phone";
   "address"; "emergencycontact"; "emergency_contact";
   "emergencyphone"; "emergency_phone"; "medicalinfo"; "medical_info";
   "medical_information"].

(** [isKnownField]. *)
Definition isKnownField (header : string) : bool :=
  includes knownFields (toLowerCase header).

(** The second pass: every column whose header is not a known field goes to
    the additional-data bag under the header text. *)
Definition storeUnmapped (row : list string) (rowData : InsertStudent)
    (colIndex : nat) (header : string) : InsertStudent :=
  let value := cellValue row colIndex in
  if (str_truthy (Some value) && str_truthy (Some header)
      && negb (isKnownField (toLowerCase header)))%bool
  then setExtra header value rowData
  else rowData.

(** [headers.forEach((header, colIndex) => ...)] threading [rowData]. *)
Fixpoint forEachHeader (f : InsertStudent → nat → string → InsertStudent)
    (colIndex : nat) (headers : list string) (rowData : InsertStudent)
    : InsertStudent :=
  match headers with
  | [] => rowData
  | h :: rest => forEachHeader f (S colIndex) rest (f rowData colIndex h)
  end.

(** The character class [[^\s@]]. *)
Definition plain_char (c : ascii) : bool :=
  (negb (is_space c) && negb (Ascii.eqb c "@"))%bool.

Fixpoint all_chars (p : ascii → bool) (s : string) : bool :=
  match s with
  | EmptyString => true
  | String c s' => (p c && all_chars p s')%bool
  end.

(** Some ["."] of [s] has a character before it and one after it. *)
Fixpoint inner_dot (first : bool) (s : string) : bool :=
  match s with
  | EmptyString => false
  | String c s' =>
      ((negb first && Ascii.eqb c "." && negb (String.eqb s' ""))
       || inner_dot false s')%bool
  end.

(** Split at the first ["@"]. *)
Fixpoint split_at (s : string) : option (string * string) :=
  match s with
  | EmptyString => None
  | String c s' =>
      if Ascii.eqb c "@" then Some (EmptyString, s')
      else '(a, b) ← split_at s'; Some (String c a, b)
  end.

(** [/^[^\s@]+@[^\s@]+\.[^\s@]+$/.test(s)]. *)
Definition emailRegex_test (s : string) : bool :=
  match split_at s with
  | Some (a, b) =>
      (negb (String.eqb a "") && all_chars plain_char a
       && all_chars plain_char b && inner_dot true b)%bool
  | None => false
  end.

(** [validateStudentRow]. *)
Definition validateStudentRow (data : InsertStudent) : list string :=
  (if str_truthy (trim <$> i_student_BC data) then [] else ["BC No is required"])
  ++
  (if str_truthy (trim <$> i_guardianEmail data) then
     if emailRegex_test (trim (default "" (i_guardianEmail data))) then []
     else ["Invalid guardian email format"]
   else []).

Definition emptyRow : InsertStudent :=
  mkInsertStudent None None None None None None None None None None None None
    None None None None None.

(** [arr.join(', ')]. *)
Fixpoint join (l : list string) : string :=
  match l with
  | [] => ""
  | [x] => x
  | x :: rest => x +:+ ", " +:+ join rest
  end.

(** The body of [dataRows.forEach((row, index) => ...)].  Rows whose cells
    are all blank are skipped. *)
Fixpoint parseRows (headers : list string) (index : nat)
    (dataRows : list (list string))
    : list ParsedStudentRow * list string :=
  match dataRows with
  | [] => ([], [])
  | row :: rest =>
      let '(parsed, errs) := parseRows headers (S index) rest in
      if forallb (λ c, negb (str_truthy (Some c)) || String.eqb (trim c) "")%bool row
      then (parsed, errs)
      else
        let rowData := forEachHeader (mapHeader row) 0 headers emptyRow in
        let rowData := forEachHeader (storeUnmapped row) 0 headers rowData in
        let rowErrors := validateStudentRow rowData in
        (mkParsedStudentRow (index + 2) rowData
           (Nat.eqb (length rowErrors) 0) rowErrors :: parsed,
         match rowErrors with
         | [] => errs
         | _ => ("Row " +:+ pretty (index + 2)%nat +:+ ": " +:+ join rowErrors) :: errs
         end)
  end.

(** The spellings accepted for the required header ['BC No']. *)
Definition bcHeaderVariants : list string :=
  ["bc no"; "bc_no"; "bcno"; "bc no."; "bc_no"; "bc_no."; "bcno"; "bcno.";
   "student_id"; "studentid"; "id"].

(** What [parseDataRows] leaves in the component state. *)
Inductive ParseOutcome : Type :=
| MissingHeaders (validationErrors : list string)
| Parsed (parsedData : list ParsedStudentRow) (validationErrors : list string).

(** [parseDataRows]. *)
Definition parseDataRows (headers : list string)
    (dataRows : list (list string)) : ParseOutcome :=
  let headerMap := toLowerCase <$> headers in
  if existsb (λ variant, includes headerMap variant) bcHeaderVariants then
    let '(parsed, errs) := parseRows headers 0 dataRows in
    Parsed parsed errs
  else MissingHeaders ["Missing required headers: BC No"].

End StudentCSV.

(* ===================================================================== *)
(** ** client pages/FormBuilder: questions, sections and renumbering *)
(* ===================================================================== *)

Module Builder.

Record Question : Type := mkQuestion {
  questionId : string;
  questionNo : Z;
  type : string;
  question : string;
  required : bool;
  options : option (list string);
  scale : option Z;
  sectionId : option string
}.

Record Section : Type := mkSection {
  id : string;
  title : string;
  name : option string;
  description : option string;
  order : option Z
}.

(** [{ ...q, questionNo: n }]. *)
Definition withNo (n : Z) (q : Question) : Question :=
  mkQuestion (questionId q) n (type q) (question q) (required q)
    (options q) (scale q) (sectionId q).

(** [{ ...q, sectionId: s }]. *)
Definition withSection (s : string) (q : Question) : Question :=
  mkQuestion (questionId q) (questionNo q) (type q) (question q) (required q)
    (options q) (scale q) (Some s).

(** [q.sectionId === sid || (!q.sectionId && sid === 'default')]: the test
    that puts a question in the section with id [sid]. *)
Definition inSection (sid : string) (q : Question) : bool :=
  (bool_decide (sectionId q = Some sid)
   || (negb (str_truthy (sectionId q)) && String.eqb sid "default"))%bool.

(** [(s.order || 0)]. *)
Definition orderKey (s : Section) : Z := default 0%Z (order s).

(** Insertion of a section before the first one that does not sort before
    it. *)
Fixpoint insertSection (s : Section) (l : list Section) : list Section :=
  match l with
  | [] => [s]
  | x :: rest =>
      if (orderKey s <=? orderKey x)%Z then s :: x :: rest
      else x :: insertSection s rest
  end.

(** [[...sections].sort((a, b) => (a.order || 0) - (b.order || 0))]:
    [Array.prototype.sort] is stable, and a stable sort by a key has one
    result. *)
Definition sortSections (sections : list Section) : list Section :=
  foldr insertSection [] sections.

(** The three locals of [renumberAllQuestions].  [processedQuestionIds], a
    [Set], lists its members in insertion order. *)
Record Renumbering : Type := mkRenumbering {
  currentNumber : Z;
  renumberedQuestions : list Question;
  processedQuestionIds : list string
}.

(** [renumberedQuestions[questionIndex] = { ...renumberedQuestions[questionIndex],
     questionNo: currentNumber++ }; processedQuestionIds.add(id)]. *)
Definition assignNumber (st : Renumbering) (questionIndex : nat)
    (qid : string) : Renumbering :=
  mkRenumbering (currentNumber st + 1)
    (match renumberedQuestions st !! questionIndex with
     | Some q => <[questionIndex := withNo (currentNumber st) q]> (renumberedQuestions st)
     | None => renumberedQuestions st
     end)
    (processedQuestionIds st ++ [qid]).

(** [renumberedQuestions.findIndex(q => q.questionId === qid)]. *)
Definition findIndex (qid : string) (l : list Question) : option nat :=
  fst <$> list_find (λ q, questionId q = qid) l.

(** The body of [sectionQuestions.forEach(sectionQuestion => ...)]. *)
Definition numberInSection (st : Renumbering) (sectionQuestion : Question)
    : Renumbering :=
  match findIndex (questionId sectionQuestion) (renumberedQuestions st) with
  | Some questionIndex =>
      if bool_decide (questionId sectionQuestion ∈ processedQuestionIds st) then st
      else assignNumber st questionIndex (questionId sectionQuestion)
  | None => st
  end.

(** The body of the closing [questionList.forEach(question => ...)]. *)
Definition numberRemaining (st : Renumbering) (question : Question)
    : Renumbering :=
  if bool_decide (questionId question ∈ processedQuestionIds st) then st
  else
    match findIndex (questionId question) (renumberedQuestions st) with
    | Some questionIndex => assignNumber st questionIndex (questionId question)
    | None => st
    end.

(** [renumberAllQuestions], with the component's [sections] state as an
    argument. *)
Definition renumberAllQuestions (sections : list Section)
    (questionList : list Question) : list Question :=
  let st0 := mkRenumbering 1 questionList [] in
  let st1 :=
    if Nat.ltb 0 (length sections) then
      foldl
        (λ st section,
           foldl numberInSection st
             (filter (λ q, inSection (id section) q = true) questionList))
        st0 (sortSections sections)
    else st0 in
  renumberedQuestions (foldl numberRemaining st1 questionList).

(** The component state the numbering depends on: the two [useState] lists
    and the watched [formType] field of the form. *)
Record BuilderState : Type := mkBuilderState {
  questions : list Question;
  sections : list Section;
  formType : string
}.

Definition initialState : BuilderState :=
  mkBuilderState []
    [mkSection "default" "Section 1" (Some "") None (Some 0%Z)] "".

Definition SLS_OPTIONS : list string :=
  ["Strongly Agree"; "Agree"; "Disagree"; "Strongly Disagree"].

(** [addQuestion]: the question appended to the list.  [now] is
    [Date.now().toString()]. *)
Definition newQuestion (st : BuilderState) (type : option string)
    (targetSectionId : option string) (now : string) : Question :=
  let sectionId :=
    if str_truthy targetSectionId then default "" targetSectionId
    else if str_truthy (id <$> head (sections st))
         then default "" (id <$> head (sections st))
         else "default" in
  let ty := default "" type in
  mkQuestion now (Z.of_nat (length (questions st)) + 1)
    (if str_truthy type then ty else "text")
    ""
    (if String.eqb ty "sls" then true else false)
    (if includes ["multipleChoice"; "checkbox"; "radio"; "select"] ty
     then Some ["Option 1"; "Option 2"]
     else if String.eqb ty "sls" then Some SLS_OPTIONS else None)
    (if String.eqb ty "rating" then Some 5%Z else None)
    (Some sectionId).

(** The pairs [(field, value)] that [updateQuestion(id, field, value)] is
    called with. *)
Inductive QuestionEdit : Type :=
| EditType (value : string)
| EditQuestion (value : string)
| EditRequired (value : bool)
| EditOptions (value : option (list string))
| EditScale (value : option Z).

(** The function mapped over the list by [updateQuestion]. *)
Definition applyEdit (qid : string) (e : QuestionEdit) (q : Question) : Question :=
  if String.eqb (questionId q) qid then
    (* const updated = { ...q, [field]: value } *)
    let updated :=
      match e with
      | EditType v =>
          mkQuestion (questionId q) (questionNo q) v (question q) (required q)
            (options q) (scale q) (sectionId q)
      | EditQuestion v =>
          mkQuestion (questionId q) (questionNo q) (type q) v (required q)
            (options q) (scale q) (sectionId q)
      | EditRequired v =>
          mkQuestion (questionId q) (questionNo q) (type q) (question q) v
            (options q) (scale q) (sectionId q)
      | EditOptions v =>
          mkQuestion (questionId q) (questionNo q) (type q) (question q)
            (required q) v (scale q) (sectionId q)
      | EditScale v =>
          mkQuestion (questionId q) (questionNo q) (type q) (question q)
            (required q) (options q) v (sectionId q)
      end in
    (* Enforce SLS invariants: required=true and proper options *)
    let updated :=
      match e with
      | EditType v =>
          if String.eqb v "sls" then
            mkQuestion (questionId updated) (questionNo updated) (type updated)
              (question updated) true (Some SLS_OPTIONS) (scale updated)
              (sectionId updated)
          else updated
      | _ => updated
      end in
    (* Prevent setting required=false for SLS questions *)
    match e with
    | EditRequired _ =>
        if String.eqb (type q) "sls" then
          mkQuestion (questionId updated) (questionNo updated) (type updated)
            (question updated) true (options updated) (scale updated)
            (sectionId updated)
        else updated
    | _ => updated
    end
  else q.

(** [updateQuestion]: [setQuestions(questions.map(...))]. *)
Definition updateQuestion (qid : string) (e : QuestionEdit)
    (qs : list Question) : list Question :=
  applyEdit qid e <$> qs.

(** [copyQuestion]: the list handed to [setQuestionsRenumbered], or [None]
    when no question has the id. *)
Definition copiedQuestions (qid now : string) (qs : list Question)
    : option (list Question) :=
  '(questionIndex, questionToCopy) ← list_find (λ q, questionId q = qid) qs;
  let newQuestion :=
    mkQuestion now (questionNo questionToCopy) (type questionToCopy)
      (question questionToCopy +:+ " (Copy)") (required questionToCopy)
      (options questionToCopy) (scale questionToCopy)
      (sectionId questionToCopy) in
  (* newQuestions.splice(questionIndex + 1, 0, newQuestion) *)
  Some (take (S questionIndex) qs ++ newQuestion :: drop (S questionIndex) qs).

(** [getQuestionsBySection]. *)
Definition getQuestionsBySection (sid : string) (qs : list Question)
    : list Question :=
  filter (λ q, inSection sid q = true) qs.

(** [findIndex] over an array that may hold [undefined] (here [None]): the
    callback reads [sq.questionId], which throws on [undefined]. *)
Inductive Lookup : Type :=
| Threw
| Missing
| FoundItem (q : Question).

Fixpoint findOrThrow (qid : string) (l : list (option Question)) : Lookup :=
  match l with
  | [] => Missing
  | None :: _ => Threw
  | Some sq :: rest =>
      if String.eqb (questionId sq) qid then FoundItem sq
      else findOrThrow qid rest
  end.

(** The reordered copy of the section's questions made for every question
    of the section by the same-section branch of [handleDragEnd]:
    [splice(source, 1)] then [splice(destination, 0, reorderedItem)]. *)
Definition reorderedSection (sourceQuestions : list Question)
    (sourceIndex destinationIndex : nat) : list (option Question) :=
  let sectionQuestions := Some <$> sourceQuestions in
  let reorderedItem := sourceQuestions !! sourceIndex in
  let removed := delete sourceIndex sectionQuestions in
  take destinationIndex removed ++ reorderedItem :: drop destinationIndex removed.

(** The mapping function of the same-section branch; [None] is a thrown
    [TypeError]. *)
Definition reorderOne (sourceSectionId : string)
    (sourceQuestions : list Question) (sourceIndex destinationIndex : nat)
    (q : Question) : option Question :=
  if inSection sourceSectionId q then
    match findOrThrow (questionId q)
            (reorderedSection sourceQuestions sourceIndex destinationIndex) with
    | Threw => None
    | Missing => Some q
    | FoundItem sq => Some sq
    end
  else Some q.

(** [handleDragEnd]: the list handed to [setQuestionsRenumbered]; [None]
    when the handler returns early or throws before reaching it. *)
Definition draggedQuestions (sourceSectionId : string) (sourceIndex : nat)
    (destination : option (string * nat)) (qs : list Question)
    : option (list Question) :=
  '(destinationSectionId, destinationIndex) ← destination;
  let sourceQuestions := getQuestionsBySection sourceSectionId qs in
  if String.eqb sourceSectionId destinationSectionId then
    mapM (reorderOne sourceSectionId sourceQuestions sourceIndex destinationIndex) qs
  else
    draggedQuestion ← sourceQuestions !! sourceIndex;
    Some ((λ q, if String.eqb (questionId q) (questionId draggedQuestion)
                then withSection destinationSectionId q else q) <$> qs).

(** The [suggestions] table of [suggestQuestions]:
    (type, question, options, scale). *)
Definition suggestions (formType : string)
    : list (string * string * option (list string) * option Z) :=
  if String.eqb formType "survey" then
    [("rating", "How satisfied are you with our service?", None, Some 5%Z);
     ("multipleChoice", "How did you hear about us?",
      Some ["Website"; "Social Media"; "Friend"; "Advertisement"], None);
     ("textarea", "Any additional comments or suggestions?", None, None)]
  else if String.eqb formType "feedback" then
    [("rating", "Overall experience rating", None, Some 5%Z);
     ("text", "What did you like most?", None, None);
     ("text", "What could we improve?", None, None)]
  else if String.eqb formType "registration" then
    [("text", "Full Name", None, None);
     ("email", "Email Address", None, None);
     ("phone", "Phone Number", None, None);
     ("select", "Department", Some ["IT"; "HR"; "Finance"; "Operations"], None)]
  else if String.eqb formType "assessment" then
    [("multipleChoice", "Sample multiple choice question",
      Some ["Option A"; "Option B"; "Option C"; "Option D"], None);
     ("trueFalse", "Sample true/false question", None, None);
     ("textarea", "Explain your answer", None, None)]
  else [].

(** The questions [suggestQuestions] appends.  [ids i] is the string
    [Date.now().toString() + Math.random().toString()] drawn for the
    [i]-th suggestion. *)
Definition suggestedQuestions (formType : string) (ids : nat → string)
    (qs : list Question) : list Question :=
  imap (λ index '(ty, text, opts, sc),
          mkQuestion (ids index)
            (Z.of_nat (length qs) + Z.of_nat index + 1)
            ty text false opts sc None)
       (suggestions formType).

(** A question as found in persisted form data: the identifier may sit in
    [questionId], in the legacy [id], or be missing, and so may the
    number. *)
Record StoredQuestion : Type := mkStoredQuestion {
  sq_questionId : option string;
  sq_id : option string;
  sq_questionNo : option Z;
  sq_type : string;
  sq_question : string;
  sq_required : bool;
  sq_options : option (list string);
  sq_scale : option Z;
  sq_sectionId : option string
}.

(** The normalisation applied to every loaded question.  [clock index] is
    [Date.now().toString()] when the element is visited. *)
Definition normalizeQuestion (clock : nat → string) (index : nat)
    (q : StoredQuestion) : Question :=
  let qid :=
    if str_truthy (sq_questionId q) then default "" (sq_questionId q)
    else if str_truthy (sq_id q) then default "" (sq_id q)
    else clock index +:+ pretty index in
  let no :=
    match sq_questionNo q with
    | Some n => if (n =? 0)%Z then Z.of_nat index + 1 else n
    | None => Z.of_nat index + 1
    end in
  if String.eqb (sq_type q) "sls"
  then mkQuestion qid no (sq_type q) (sq_question q) true (Some SLS_OPTIONS)
         (sq_scale q) (sq_sectionId q)
  else mkQuestion qid no (sq_type q) (sq_question q) (sq_required q)
         (sq_options q) (sq_scale q) (sq_sectionId q).

(** The form data the edit-mode loader reads: [questions] and [sections]
    when they are arrays, and the form type. *)
Record FormData : Type := mkFormData {
  fd_questions : option (list StoredQuestion);
  fd_sections : option (list Section);
  fd_formType : string
}.

(** The user actions and the load of persisted data. *)
Inductive Op : Type :=
| AddQuestion (type : option string) (targetSectionId : option string) (now : string)
| UpdateQuestion (qid : string) (e : QuestionEdit)
| DeleteQuestion (qid : string)
| CopyQuestion (qid : string) (now : string)
| AddSection (now : string)
| UpdateSectionName (sid : string) (value : string)
| DeleteSection (sid : string)
| MoveQuestionToSection (qid : string) (targetSectionId : string)
| DragEnd (sourceSectionId : string) (sourceIndex : nat)
    (destination : option (string * nat))
| SuggestQuestions (formType : string) (ids : nat → string)
| SetFormType (value : string)
| LoadForm (formData : FormData) (clock : nat → string).

(** What a handler leaves behind: the next state, and whether it called
    [setSections] (which gives [sections] a new identity). *)
Record Handled : Type := mkHandled {
  next : BuilderState;
  sectionsSet : bool
}.

Definition setQuestionsRenumbered (st : BuilderState)
    (newQuestions : list Question) : Handled :=
  mkHandled
    (mkBuilderState (renumberAllQuestions (sections st) newQuestions)
       (sections st) (formType st))
    false.

Definition unchanged (st : BuilderState) : Handled := mkHandled st false.

(** The event handlers. *)
Definition handle (op : Op) (st : BuilderState) : Handled :=
  match op with
  | AddQuestion type targetSectionId now =>
      setQuestionsRenumbered st
        (questions st ++ [newQuestion st type targetSectionId now])
  | UpdateQuestion qid e =>
      mkHandled
        (mkBuilderState (updateQuestion qid e (questions st)) (sections st)
           (formType st))
        false
  | DeleteQuestion qid =>
      setQuestionsRenumbered st
        (filter (λ q, questionId q ≠ qid) (questions st))
  | CopyQuestion qid now =>
      match copiedQuestions qid now (questions st) with
      | Some newQuestions => setQuestionsRenumbered st newQuestions
      | None => unchanged st
      end
  | AddSection now =>
      let n := length (sections st) in
      mkHandled
        (mkBuilderState (questions st)
           (sections st ++
              [mkSection now ("Section " +:+ pretty (n + 1)%nat) (Some "") None
                 (Some (Z.of_nat n))])
           (formType st))
        true
  | UpdateSectionName sid value =>
      mkHandled
        (mkBuilderState (questions st)
           ((λ s, if String.eqb (id s) sid
                  then mkSection (id s) (title s) (Some value) (description s) (order s)
                  else s) <$> sections st)
           (formType st))
        true
  | DeleteSection sid =>
      (* Don't allow deleting the last section *)
      if Nat.leb (length (sections st)) 1 then unchanged st
      else
        let updatedQuestions :=
          match head (filter (λ s, id s ≠ sid) (sections st)) with
          | Some remainingSection =>
              (λ q, if bool_decide (sectionId q = Some sid)
                    then withSection (id remainingSection) q else q)
                <$> questions st
          | None => questions st
          end in
        mkHandled
          (mkBuilderState updatedQuestions
             (filter (λ s, id s ≠ sid) (sections st)) (formType st))
          true
  | MoveQuestionToSection qid targetSectionId =>
      setQuestionsRenumbered st
        ((λ q, if String.eqb (questionId q) qid
               then withSection targetSectionId q else q) <$> questions st)
  | DragEnd sourceSectionId sourceIndex destination =>
      match draggedQuestions sourceSectionId sourceIndex destination (questions st) with
      | Some updatedQuestions => setQuestionsRenumbered st updatedQuestions
      | None => unchanged st
      end
  | SuggestQuestions ft ids =>
      setQuestionsRenumbered st
        (questions st ++ suggestedQuestions ft ids (questions st))
  | SetFormType value =>
      mkHandled (mkBuilderState (questions st) (sections st) value) false
  | LoadForm formData clock =>
      (* Load questions *)
      let loaded :=
        match fd_questions formData with
        | Some stored =>
            renumberAllQuestions (sections st) (imap (normalizeQuestion clock) stored)
        | None => questions st
        end in
      (* Load sections *)
      match fd_sections formData with
      | Some secs =>
          mkHandled (mkBuilderState loaded secs (fd_formType formData)) true
      | None =>
          if Nat.ltb 0 (length (questions st)) then
            mkHandled
              (mkBuilderState
                 ((λ q, if str_truthy (sectionId q) then q
                        else withSection "default" q) <$> questions st)
                 [mkSection "default" "Section 1" (Some "") None (Some 0%Z)]
                 (fd_formType formData))
              true
          else mkHandled (mkBuilderState loaded (sections st) (fd_formType formData)) false
      end
  end.

(** [sections.some(section => section.id.startsWith('child-identity-'))]. *)
Definition hasChildIdentitySection (secs : list Section) : bool :=
  existsb (λ s, startsWith (id s) "child-identity-") secs.

(** One round of the two effects after a render.  [sectionsChanged] and
    [formTypeChanged] say which dependencies differ from the previous
    render; [now] is [Date.now().toString()].  The result carries whether
    [setSections] was called, that is, whether another round follows.

    The first effect (dependencies [[sections]]) renumbers the questions.
    The second (dependencies [[watchedFormType, sections]]) creates the
    child-identity section of a parents survey; both run against the state
    of this render, and the second one's [setQuestions] is the later call,
    so its value is the one kept. *)
Definition effectsRound (now : string) (sectionsChanged formTypeChanged : bool)
    (st : BuilderState) : Handled :=
  let afterRenumber :=
    if (sectionsChanged && Nat.ltb 0 (length (sections st))
        && Nat.ltb 0 (length (questions st)))%bool
    then renumberAllQuestions (sections st) (questions st)
    else questions st in
  if ((sectionsChanged || formTypeChanged)
      && String.eqb (formType st) "parents_survey"
      && negb (hasChildIdentitySection (sections st)))%bool
  then
    let newSectionId := "child-identity-" +:+ now in
    let newSection :=
      mkSection newSectionId "Section 0: Child's Identity"
        (Some "Child's Identity") None (Some (-1)%Z) in
    let bcQuestion :=
      mkQuestion ("bc-input-" +:+ now) 1 "bcInput"
        "To start, enter your child's Birth Cert number (BC No.) and press enter. If you have more than 1 child in Iyad Perdaus for this year, enter their BC No. separated by a comma."
        true None None (Some newSectionId) in
    mkHandled
      (mkBuilderState
         (renumberAllQuestions (sections st) (bcQuestion :: questions st))
         (newSection :: sections st) (formType st))
      true
  else mkHandled (mkBuilderState afterRenumber (sections st) (formType st)) false.

(** Rounds of effects until no dependency changes any more, at most
    [fuel] of them. *)
Fixpoint settle (fuel : nat) (now : string)
    (sectionsChanged formTypeChanged : bool) (st : BuilderState) : BuilderState :=
  match fuel with
  | O => st
  | S fuel' =>
      if (sectionsChanged || formTypeChanged)%bool then
        let h := effectsRound now sectionsChanged formTypeChanged st in
        settle fuel' now (sectionsSet h) false (next h)
      else st
  end.

(** An action followed by the effects it triggers.  Two rounds always
    reach quiescence ([settle_fuel] below); [now] is the clock read by the
    effects. *)
Definition step (st : BuilderState) (ev : Op * string) : BuilderState :=
  let '(op, now) := ev in
  let h := handle op st in
  settle 2 now (sectionsSet h)
    (negb (String.eqb (formType (next h)) (formType st))) (next h).

Definition run (st : BuilderState) (evs : list (Op * string)) : BuilderState :=
  foldl step st evs.

(** The display order the numbering follows:
    the questions of the first section, in their relative order, then those
    of the next section among the remaining ones, and so on; the questions
    of no section come last. *)
Fixpoint bySection (sorted : list Section) (qs : list Question) : list Question :=
  match sorted with
  | [] => qs
  | s :: rest =>
      filter (λ q, inSection (id s) q = true) qs
      ++ bySection rest (filter (λ q, inSection (id s) q ≠ true) qs)
  end.

Definition displayOrder (secs : list Section) (qs : list Question) : list Question :=
  bySection (sortSections secs) qs.

End Builder.

(* ===================================================================== *)
(** ** Sample data used by the closed examples *)
(* ===================================================================== *)

Module Samples.

(** A draft form whose working content has moved on since the preview was
    prepared. *)
Definition diverged_form : Form :=
  mkForm "f1" "Survey" None "survey" (Some "api") "draft" "u1" JNull
    (JArr [JStr "working-question"]) (JArr [JStr "working-section"])
    (JArr [JStr "preview-question"]) (JArr [JStr "preview-section"])
    JNull JNull None None (Some 1%Z) (Some 1%Z).

(** A draft form for which no preview was prepared. *)
Definition unprepared_form : Form :=
  mkForm "f2" "Quiz" None "survey" (Some "quiz") "draft" "u1" JNull
    (JArr [JStr "working-question"]) (JArr [JStr "working-section"])
    JNull JNull JNull JNull None None (Some 1%Z) (Some 1%Z).

Definition forms_table : list Form := [diverged_form; unprepared_form].

(** The body the builder sends to publish. *)
Definition publish_body : gmap string Json :=
  <["status" := JStr "active"]>
  (<["title" := JStr "Survey"]>
  (<["questions" := JArr [JStr "newer-question"]]> ∅)).

(** A save body that also tries to take the form over. *)
Definition takeover_body : gmap string Json :=
  <["createdBy" := JStr "intruder"]>
  (<["title" := JStr "Survey"]>
  (<["questions" := JArr [JStr "newer-question"]]> ∅)).

(** A creation body that asks for an active form. *)
Definition active_creation_body : gmap string Json :=
  <["status" := JStr "active"]> (<["title" := JStr "T"]> ∅).

(** The form of an answer, or [dflt] for an error. *)
Definition answered {A : Type} (dflt : A) (r : Routes.Result A) : A :=
  match r with
  | Routes.Ok a => a
  | Routes.Err _ => dflt
  end.

(** Two import rows for the same BC number; the later one renames the
    student and leaves the level out. *)
Definition row_first : InsertStudent :=
  mkInsertStudent (Some "A1") (Some "Jane") None None (Some "P1") None None
    None None None None None None None (Some "active") None None.

Definition row_later : InsertStudent :=
  mkInsertStudent (Some "A1") (Some "Jane Doe") None None None None None
    None None None None None None None (Some "active") None None.

Definition row_other : InsertStudent :=
  mkInsertStudent (Some "B2") (Some "Omar") None None None None None
    None None None None None None None (Some "active") None None.

(** The database fails while the second row of a batch is processed. *)
Definition second_row_fails (i : nat) : bool := Nat.eqb i 1.

(** A student table and a parents survey restricted to one student. *)
Definition students_table : list Student :=
  [mkStudent "s1" (Some "BC001") (Some "Ali") None None (Some "P1") (Some "1A")
     None None None None None None None None "active" None None None None;
   mkStudent "s2" (Some "BC002") (Some "Siti") None None (Some "P2") (Some "2B")
     None None None None None None None None "active" None None None None].

Definition restricted_survey : Form :=
  mkForm "f3" "Parents" None "parents_survey" (Some "parents") "active" "u1"
    (JObj [("selectedRespondents", JArr [JStr "BC001"])])
    JNull JNull JNull JNull JNull JNull None None (Some 1%Z) (Some 1%Z).

End Samples.

(* ===================================================================== *)
(** ** Vocabulary of the stated properties *)
(* ===================================================================== *)

Module Spec.

Import Storage Routes.

(** The constraints the [studentsDB] table declares: [id] is a primary key
    and [student_BC] is unique among the rows that have one. *)
Definition students_wf (tbl : list Student) : Prop :=
  NoDup (s_id <$> tbl) ∧ NoDup (omap student_BC tbl).

(** A key supplied by an import row is the stored value. *)
Definition carried {A : Type} (supplied stored : option A) : Prop :=
  ∀ v, supplied = Some v → stored = Some v.

(** The stored record [s] has the value of the row [r] in every field the
    row supplies. *)
Definition supplies (r : InsertStudent) (s : Student) : Prop :=
  carried (i_student_BC r) (student_BC s)
  ∧ carried (i_fullName r) (fullName s)
  ∧ carried (i_dateOfBirth r) (dateOfBirth s)
  ∧ carried (i_gender r) (gender s)
  ∧ carried (i_level r) (level s)
  ∧ carried (i_class r) (class s)
  ∧ carried (i_centre r) (centre s)
  ∧ carried (i_guardianName r) (guardianName s)
  ∧ carried (i_guardianEmail r) (guardianEmail s)
  ∧ carried (i_guardianPhone r) (guardianPhone s)
  ∧ carried (i_address r) (address s)
  ∧ carried (i_emergencyContact r) (emergencyContact s)
  ∧ carried (i_emergencyPhone r) (emergencyPhone s)
  ∧ carried (i_medicalInfo r) (medicalInfo s)
  ∧ carried (i_status r) (Some (s_status s))
  ∧ carried (i_additionalData r) (additionalData s)
  ∧ carried (i_createdBy r) (s_createdBy s).

(** The rows of a batch during which the database did not fail, [i] being
    the position of the first row. *)
Fixpoint surviving {A : Type} (fault : nat → bool) (i : nat) (rows : list A)
    : list A :=
  match rows with
  | [] => []
  | r :: rest =>
      if fault i then surviving fault (S i) rest
      else r :: surviving fault (S i) rest
  end.

(** The three verdicts of the identifier lookup. *)
Inductive Verdict : Type :=
| VFound
| VNotSelected
| VNotFound.

#[global] Instance Verdict_eq_dec : EqDecision Verdict.
Proof. solve_decision. Defined.

(** The form a lookup request names: the first form whose id is the
    non-empty [formId] of the request. *)
Fixpoint form_with_id (fid : string) (forms : list Form) : option Form :=
  match forms with
  | [] => None
  | form :: rest =>
      if decide (id form = fid) then Some form else form_with_id fid rest
  end.

Definition named_form (formId : option string) (forms : list Form)
    : option Form :=
  match formId with
  | Some fid => if decide (fid = "") then None else form_with_id fid forms
  | None => None
  end.

(** The value an object holds under a key. *)
Fixpoint entry (key : string) (kvs : list (string * Json)) : option Json :=
  match kvs with
  | [] => None
  | (k, v) :: rest => if decide (k = key) then Some v else entry key rest
  end.

(** What the settings of a form hold under [selectedRespondents]. *)
Definition stored_allow_list (form : Form) : option Json :=
  match settings form with
  | JObj kvs => entry "selectedRespondents" kvs
  | _ => None
  end.

(** The allow-list of a form: the array its settings hold under
    [selectedRespondents]; empty when they hold none. *)
Definition allow_list (form : Form) : list Json :=
  match stored_allow_list form with
  | Some (JArr l) => l
  | _ => []
  end.

(** The settings hold a list, as the builder saves it, or no allow-list:
    what they hold under [selectedRespondents] is neither a non-empty
    string nor an object. *)
Definition allow_list_wf (form : Form) : Prop :=
  match stored_allow_list form with
  | Some (JStr s) => s = ""
  | Some (JObj _) => False
  | _ => True
  end.

(** The identifiers on the allow-list. *)
Definition allowed (form : Form) : list string :=
  omap (λ j, match j with JStr s => Some s | _ => None end) (allow_list form).

(** The allow-list check applies if and only if the request names a form
    whose kind is ['parents_survey'] and whose allow-list is not empty. *)
Definition check_applies (formId : option string) (forms : list Form) : bool :=
  match named_form formId forms with
  | Some form =>
      (bool_decide (formType form = "parents_survey")
       && negb (Nat.eqb (length (allow_list form)) 0))%bool
  | None => false
  end.

Definition on_allow_list (formId : option string) (forms : list Form)
    (bc : string) : bool :=
  match named_form formId forms with
  | Some form => bool_decide (bc ∈ allowed form)
  | None => false
  end.

(** The identifier exists in the student store. *)
Definition known (tbl : list Student) (bc : string) : bool :=
  bool_decide (Some bc ∈ (student_BC <$> tbl)).

(** The verdict on one trimmed identifier: not found when no student has
    it; found but not eligible when the check applies and the identifier
    is absent from the allow-list; found and eligible otherwise. *)
Definition verdict (formId : option string) (forms : list Form)
    (tbl : list Student) (bc : string) : Verdict :=
  if known tbl bc then
    if (check_applies formId forms && negb (on_allow_list formId forms bc))%bool
    then VNotSelected else VFound
  else VNotFound.

(** The identifiers of a request whose elements are all strings. *)
Fixpoint identifiers (bcNumbers : list Json) : option (list string) :=
  match bcNumbers with
  | [] => Some []
  | JStr s :: rest =>
      match identifiers rest with
      | Some strs => Some (s :: strs)
      | None => None
      end
  | _ :: _ => None
  end.

(** The identifiers a lookup request submits: trimmed, blanks dropped. *)
Definition submitted (bcNumbers : list string) : list string :=
  filter (λ t, t ≠ "") (trim <$> bcNumbers).

End Spec.

(* ===================================================================== *)
(** ** Vocabulary of the numbering property *)
(* ===================================================================== *)

Module BuilderSpec.

Import Builder.






(** Read in display order, the numbers are 1, 2, ..., n. *)
Definition Numbered (secs : list Section) (qs : list Question) : Prop :=
  questionNo <$> displayOrder secs qs = seqZ 1 (Z.of_nat (length qs)).

(** The state between two actions: distinct question and section
    identifiers, at least one section, and questions numbered in display
    order. *)
Definition Inv (st : BuilderState) : Prop :=
  NoDup (questionId <$> questions st)
  ∧ NoDup (id <$> sections st)
  ∧ sections st ≠ []
  ∧ Numbered (sections st) (questions st).




(** An agreement-scale question is required and has the four fixed
    options. *)
Definition sls_ok (q : Question) : Prop :=
  type q = "sls" → required q = true ∧ options q = Some SLS_OPTIONS.

End BuilderSpec.

(* ===================================================================== *)
(** ** Sample builder sessions used by the closed examples *)
(* ===================================================================== *)

Module BuilderSamples.

Import Builder.

(** A session that adds questions and a section, moves, copies and drags
    questions, turns the form into a parents survey, and deletes a section
    and a question. *)
Definition session : list (Op * string) :=
  [(AddQuestion (Some "text") None "1001", "2001");
   (AddSection "1002", "2002");
   (AddQuestion (Some "sls") (Some "1002") "1003", "2003");
   (AddQuestion (Some "rating") None "1004", "2004");
   (MoveQuestionToSection "1001" "1002", "2005");
   (CopyQuestion "1003" "1005", "2006");
   (SetFormType "parents_survey", "2007");
   (DragEnd "1002" 0%nat (Some ("default", 0%nat)), "2008");
   (DeleteSection "default", "2009");
   (DeleteQuestion "1004", "2010")].

(** An agreement-scale question as [addQuestion] makes it. *)
Definition sls_question : Question :=
  newQuestion initialState (Some "sls") None "1001".

(** Two questions that share an identifier. *)
Definition twins : list Question :=
  [mkQuestion "q" 7 "text" "first" false None None (Some "default");
   mkQuestion "q" 7 "text" "second" false None None (Some "default")].

End BuilderSamples.

(* ===================================================================== *)
(** ** server: form responses *)
(* ===================================================================== *)

Module Responses.

Import Storage Routes.

(** A row of the [form_responses] table. *)
Record FormResponse : Type := mkFormResponse {
  fr_id : string;
  fr_formId : string;
  fr_respondentId : option string;
  fr_responses : Json;
  fr_submittedAt : option Z
}.

(** The output of [insertFormResponseSchema.parse]. *)
Record InsertFormResponse : Type := mkInsertFormResponse {
  ir_formId : string;
  ir_respondentId : option string;
  ir_responses : Json
}.

(** [insertFormResponseSchema.parse({ ...req.body, formId: req.params.id })].
    [formId] is the route parameter, whatever the body holds under that
    key; [respondentId] is an optional, nullable string; [responses] is a
    required JSON value.  [None] is a ZodError. *)
Definition insertFormResponseSchema_parse (formId : string)
    (body : gmap string Json) : option InsertFormResponse :=
  respondentId ← match body !! "respondentId" with
                 | None => Some None
                 | Some JNull => Some None
                 | Some (JStr s) => Some (Some s)
                 | Some _ => None
                 end;
  responses ← body !! "responses";
  Some (mkInsertFormResponse formId respondentId responses).

(** [value === null]. *)
Definition is_null (j : Json) : bool :=
  match j with
  | JNull => true
  | _ => false
  end.

(** What the driver returns for a value of a [jsonb] column: a string is
    given to [JSON.parse], and what it parses to is returned; a string
    that does not parse, and every other value, is returned as it is. *)
Definition read_jsonb (JSON_parse : string → option Json) (j : Json) : Json :=
  match j with
  | JStr s => default j (JSON_parse s)
  | _ => j
  end.

(** [createFormResponse]: [insert(formResponses).values(response).returning()].
    The database fills [id] and [submitted_at]; the rows of the table are
    kept as the driver returns them.  [None] is a rejected statement:
    [form_id] names no form (the foreign key), or [responses] is null
    (NOT NULL). *)
Definition createFormResponse (JSON_parse : string → option Json) (now : Z)
    (response : InsertFormResponse)
    (forms : list Form) (tbl : list FormResponse)
    : option (FormResponse * list FormResponse) :=
  if (bool_decide (ir_formId response ∈ id <$> forms)
      && negb (is_null (ir_responses response)))%bool
  then
    let row :=
      mkFormResponse (fresh (fr_id <$> tbl)) (ir_formId response)
        (ir_respondentId response)
        (read_jsonb JSON_parse (ir_responses response)) (Some now) in
    Some (row, tbl ++ [row])
  else None.

(** The order of [desc(column)] on a nullable timestamp: later first, NULLs
    before everything. *)
Definition later_first (a b : option Z) : Prop :=
  match a, b with
  | None, _ => True
  | Some _, None => False
  | Some x, Some y => (y ≤ x)%Z
  end.

#[global] Instance later_first_dec (a b : option Z) : Decision (later_first a b).
Proof. destruct a, b; simpl; apply _. Defined.

(** [getFormResponses]: the responses of one form, latest first. *)
Definition getFormResponses (formId : string) (tbl : list FormResponse)
    : list FormResponse :=
  merge_sort (λ a b, later_first (fr_submittedAt a) (fr_submittedAt b))
    (filter (λ r, fr_formId r = formId) tbl).

(** [POST /api/forms/:id/responses] (no authentication). *)
Definition submitResponseRoute (JSON_parse : string → option Json) (now : Z)
    (fid : string) (body : gmap string Json)
    (forms : list Form) (tbl : list FormResponse)
    : Result FormResponse * list FormResponse :=
  match insertFormResponseSchema_parse fid body with
  | None => (Err 400, tbl)
  | Some responseData =>
      match createFormResponse JSON_parse now responseData forms tbl with
      | Some (response, tbl') => (Ok response, tbl')
      | None => (Err 500, tbl)
      end
  end.

(** [GET /api/forms/:id/responses]. *)
Definition formResponsesRoute (userId fid : string) (forms : list Form)
    (tbl : list FormResponse) : Result (list FormResponse) :=
  match getFormById fid forms with
  | None => Err 404
  | Some form =>
      if negb (String.eqb (createdBy form) userId) then Err 403
      else Ok (getFormResponses fid tbl)
  end.

End Responses.

(* ===================================================================== *)
(** ** server: reading, deleting and checking forms; question import *)
(* ===================================================================== *)

Module FormRoutes.

Import Storage Routes Responses.

(** [GET /api/forms/:id]; the answer is the row with [title] added as a
    copy of [name]. *)
Definition getFormRoute (userId fid : string) (forms : list Form) : Result Form :=
  match getFormById fid forms with
  | None => Err 404
  | Some form =>
      if negb (String.eqb (createdBy form) userId) then Err 403
      else Ok form
  end.

(** [deleteForm]: [delete(forms).where(eq(forms.id, id))].  [None] is a
    rejected statement: a response still refers to a row to delete
    ([form_responses.form_id], ON DELETE no action). *)
Definition deleteForm (fid : string) (forms : list Form)
    (responses : list FormResponse) : option (list Form) :=
  if (bool_decide (fid ∈ id <$> forms)
      && bool_decide (fid ∈ fr_formId <$> responses))%bool
  then None
  else Some (filter (λ f, id f ≠ fid) forms).

(** [DELETE /api/forms/:id]. *)
Definition deleteFormRoute (userId fid : string) (forms : list Form)
    (responses : list FormResponse) : Result unit * list Form :=
  match getFormById fid forms with
  | None => (Err 404, forms)
  | Some existingForm =>
      if negb (String.eqb (createdBy existingForm) userId) then (Err 403, forms)
      else
        match deleteForm fid forms responses with
        | Some forms' => (Ok tt, forms')
        | None => (Err 500, forms)
        end
  end.

(** The character class [[a-zA-Z0-9_-]]. *)
Definition slug_char (c : ascii) : bool :=
  let n := nat_of_ascii c in
  ((Nat.leb 97 n && Nat.leb n 122) || (Nat.leb 65 n && Nat.leb n 90)
   || (Nat.leb 48 n && Nat.leb n 57) || Nat.eqb n 95 || Nat.eqb n 45)%bool.

(** [/^[a-zA-Z0-9_-]+$/.test(url)]. *)
Definition urlPattern_test (url : string) : bool :=
  (negb (String.eqb url "") && StudentCSV.all_chars slug_char url)%bool.

(** The answer of the URL check: the HTTP status and the JSON body. *)
Record UrlCheck : Type := mkUrlCheck {
  uc_status : Z;
  uc_available : bool;
  uc_message : string
}.

(** [GET /api/forms/check-url/:url] (no authentication). *)
Definition checkUrlRoute (url : string) (forms : list Form) : UrlCheck :=
  if negb (str_truthy (Some url)) then
    mkUrlCheck 400 false "URL is required"
  else if negb (urlPattern_test url) then
    mkUrlCheck 400 false
      "URL can only contain letters, numbers, underscores, and hyphens"
  else
    match getFormByUrl url forms with
    | Some _ =>
        mkUrlCheck 200 false
          "This URL is already taken. Please choose a different one."
    | None => mkUrlCheck 200 true ("URL will be: /" +:+ url)
    end.

(** [{ questions: updatedQuestions }]. *)
Definition questionsUpdate (updatedQuestions : Json) : PartialForm :=
  mkPartialForm None None None None None None None (Some updatedQuestions)
    None None None None None None None.

(** [[...x]] for [x = (existingForm.questions as any[]) || []]: an array
    spreads to its elements, a string to its characters, a falsy value
    gives the empty array; any other value is not iterable ([None]: a
    TypeError). *)
Definition spreadExisting (existing : Json) : option (list Json) :=
  if truthy existing then
    match existing with
    | JArr l => Some l
    | JStr s => Some ((λ c, JStr (String c EmptyString)) <$> list_ascii_of_string s)
    | _ => None
    end
  else Some [].

(** [bulkImportQuestions]; [None] is a thrown error. *)
Definition bulkImportQuestions (formId : string) (questions : list Json)
    (now : Z) (forms : list Form) : option (Form * list Form) :=
  existingForm ← getFormById formId forms;
  existingQuestions ← spreadExisting (Schema.questions existingForm);
  updateForm formId (questionsUpdate (JArr (existingQuestions ++ questions)))
    now forms.

(** [POST /api/forms/:id/questions/bulk]. *)
Definition bulkQuestionsRoute (userId formId : string) (now : Z)
    (body : gmap string Json) (forms : list Form) : Result Form * list Form :=
  match getFormById formId forms with
  | None => (Err 404, forms)
  | Some form =>
      if negb (String.eqb (createdBy form) userId) then (Err 403, forms)
      else
        match body !! "questions" with
        | Some (JArr questions) =>
            match bulkImportQuestions formId questions now forms with
            | Some (updatedForm, forms') => (Ok updatedForm, forms')
            | None => (Err 500, forms)
            end
        | _ => (Err 400, forms)
        end
  end.

(** *** The public and the preview view of a form *)

Section Views.

(** [JSON.parse]; [None] is a SyntaxError. *)
Variable JSON_parse : string → option Json.

(** [x ? (typeof x === 'string' ? JSON.parse(x) : x) : dflt]. *)
Definition parsedOr (dflt : Json) (x : Json) : option Json :=
  if truthy x then
    match x with
    | JStr s => JSON_parse s
    | _ => Some x
    end
  else Some dflt.

(** [settings.key]: [None] is the TypeError of a property read on null,
    [Some None] an undefined property. *)
Definition member (key : string) (obj : Json) : option (option Json) :=
  match obj with
  | JNull => None
  | _ => Some (json_get key obj)
  end.

(** [v || dflt] on a possibly undefined value. *)
Definition or_default (v : option Json) (dflt : Json) : Json :=
  match v with
  | Some j => or_else j dflt
  | None => dflt
  end.

(** The [settings] object of a view. *)
Record ViewSettings : Type := mkViewSettings {
  vs_welcomeMessage : Json;
  vs_iconData : Json;
  vs_submissionType : option Json;
  vs_allowEditResponse : option Json;
  vs_submissionDeadline : option Json;
  vs_liveStatus : option Json
}.

(** The JSON body of both views; [pf_isPreview] is the [isPreview: true]
    flag of the preview. *)
Record PublicFormData : Type := mkPublicFormData {
  pf_id : string;
  pf_title : string;
  pf_description : option string;
  pf_welcomeMessage : Json;
  pf_formType : string;
  pf_formUrl : option string;
  pf_questions : Json;
  pf_sections : Json;
  pf_settings : ViewSettings;
  pf_submissionType : option Json;
  pf_allowEditResponse : option Json;
  pf_submissionDeadline : option Json;
  pf_liveStatus : option Json;
  pf_createdAt : option Z;
  pf_isPreview : bool
}.

(** The object both handlers build from the row and the chosen snapshot;
    [None] is an error thrown on the way (answered with status 500). *)
Definition formView (isPreview : bool) (questionsToUse sectionsToUse : Json)
    (form : Form) : option PublicFormData :=
  settings ← parsedOr (JObj []) (Schema.settings form);
  welcomeMessage ← member "welcomeMessage" settings;
  iconData ← member "iconData" settings;
  submissionType ← member "submissionType" settings;
  allowEditResponse ← member "allowEditResponse" settings;
  submissionDeadline ← member "submissionDeadline" settings;
  liveStatus ← member "liveStatus" settings;
  questions ← parsedOr (JArr []) questionsToUse;
  sections ← parsedOr (JArr []) sectionsToUse;
  Some (mkPublicFormData (id form) (name form) (description form)
          (or_default welcomeMessage (JStr ""))
          (formType form) (formUrl form) questions sections
          (mkViewSettings (or_default welcomeMessage (JStr ""))
             (or_default iconData JNull)
             submissionType allowEditResponse submissionDeadline liveStatus)
          submissionType allowEditResponse submissionDeadline liveStatus
          (createdAt form) isPreview).

(** [GET /api/public/forms/:url]: the published content, else the working
    content. *)
Definition publicFormView (url : string) (forms : list Form)
    : Result PublicFormData :=
  match getFormByUrl url forms with
  | None => Err 404
  | Some form =>
      let questionsToUse := or_else (publishedQuestions form) (Schema.questions form) in
      let sectionsToUse := or_else (publishedSections form) (Schema.sections form) in
      match formView false questionsToUse sectionsToUse form with
      | Some publicForm => Ok publicForm
      | None => Err 500
      end
  end.

(** [GET /api/forms/preview/:url]: the preview content, else the working
    content, for the owner. *)
Definition previewFormRoute (userId url : string) (forms : list Form)
    : Result PublicFormData :=
  match getFormByUrl url forms with
  | None => Err 404
  | Some form =>
      if negb (String.eqb (createdBy form) userId) then Err 403
      else
        let questionsToUse := or_else (previewQuestions form) (Schema.questions form) in
        let sectionsToUse := or_else (previewSections form) (Schema.sections form) in
        match formView true questionsToUse sectionsToUse form with
        | Some previewForm => Ok previewForm
        | None => Err 500
        end
  end.

End Views.

End FormRoutes.

(* ===================================================================== *)
(** ** server: users, login, administration and user sessions *)
(* ===================================================================== *)

Module Users.

Import Routes.

(** A row of the [users] table. *)
Record User : Type := mkUser {
  u_id : string;
  u_email : option string;
  u_firstName : option string;
  u_lastName : option string;
  u_profileImageUrl : option string;
  u_department : option string;
  u_userType : string;
  u_isActive : bool;
  u_createdAt : option Z;
  u_updatedAt : option Z
}.

(** [UpsertUser]: every key is optional ([None]: absent); a nullable column
    may be given as null ([Some None]). *)
Record UpsertUser : Type := mkUpsertUser {
  up_id : option string;
  up_email : option (option string);
  up_firstName : option (option string);
  up_lastName : option (option string);
  up_profileImageUrl : option (option string);
  up_department : option (option string);
  up_userType : option string;
  up_isActive : option bool
}.

(** [getUser]. *)
Definition getUser (uid : string) (users : list User) : option User :=
  head (filter (λ u, u_id u = uid) users).

(** The [UNIQUE] constraint on [email]: no row other than [self] holds the
    address (NULLs never conflict). *)
Definition email_free (self : string) (e : option string) (users : list User) : bool :=
  match e with
  | None => true
  | Some _ => bool_decide (Forall (λ u, u_id u = self ∨ u_email u ≠ e) users)
  end.

(** The effect of [.set({ ...updateData, updatedAt: new Date() })] on one
    row, [updateData] being [userData] without [id]. *)
Definition set_user (d : UpsertUser) (now : Z) (u : User) : User :=
  mkUser (u_id u)
    (default (u_email u) (up_email d))
    (default (u_firstName u) (up_firstName d))
    (default (u_lastName u) (up_lastName d))
    (default (u_profileImageUrl u) (up_profileImageUrl d))
    (default (u_department u) (up_department d))
    (default (u_userType u) (up_userType d))
    (default (u_isActive u) (up_isActive d))
    (u_createdAt u)
    (Some now).

(** The e-mail address of [userData] when it is truthy. *)
Definition truthy_email (d : UpsertUser) : option string :=
  match up_email d with
  | Some (Some e) => if String.eqb e "" then None else Some e
  | _ => None
  end.

(** The row found by the first check of [upsertUser]. *)
Definition existingUserById (d : UpsertUser) (users : list User) : option User :=
  match up_id d with
  | Some uid => if String.eqb uid "" then None else getUser uid users
  | None => None
  end.

(** The row found by the second check of [upsertUser]. *)
Definition existingUserByEmail (d : UpsertUser) (users : list User) : option User :=
  match truthy_email d with
  | Some e => head (filter (λ u, u_email u = Some e) users)
  | None => None
  end.

(** [upsertUser].  [None] is a rejected statement (a duplicate key). *)
Definition upsertUser (now : Z) (userData : UpsertUser) (users : list User)
    : option (User * list User) :=
  match existingUserById userData users with
  | Some existingUserById =>
      (* update ... where id = userData.id *)
      let uid := u_id existingUserById in
      let user := set_user userData now existingUserById in
      if email_free uid (u_email user) users
      then Some (user,
                 (λ u, if bool_decide (u_id u = uid) then set_user userData now u
                       else u) <$> users)
      else None
  | None =>
      match existingUserByEmail userData users with
      | Some existingUserByEmail =>
          (* update ... where email = userData.email *)
          let e := u_email existingUserByEmail in
          Some (set_user userData now existingUserByEmail,
                (λ u, if bool_decide (u_email u = e) then set_user userData now u
                      else u) <$> users)
      | None =>
          (* insert ... values(userData) *)
          let newId : string :=
            match up_id userData with
            | Some uid => uid
            | None => fresh (u_id <$> users)
            end in
          let row :=
            mkUser newId
              (default None (up_email userData))
              (default None (up_firstName userData))
              (default None (up_lastName userData))
              (default None (up_profileImageUrl userData))
              (default None (up_department userData))
              (default "HOD" (up_userType userData))
              (default true (up_isActive userData))
              (Some now) (Some now) in
          if (bool_decide (newId ∉ u_id <$> users)
              && email_free newId (u_email row) users)%bool
          then Some (row, users ++ [row])
          else None
      end
  end.


(** *** The login route *)

Record AuthorizedUser : Type := mkAuthorizedUser {
  au_email : string;
  au_name : string;
  au_dept : string;
  au_userType : string
}.

(** Authorized users database. *)
Definition AUTHORIZED_USERS : list AuthorizedUser :=
  [mkAuthorizedUser "cck@iyad.sg" "CCK" "CCK" "HOD";
   mkAuthorizedUser "je@iyad.sg" "JE" "JE" "HOD";
   mkAuthorizedUser "hg@iyad.sg" "HG" "HG" "HOD";
   mkAuthorizedUser "hq@iyad.sg" "HQ" "HQ" "HOD";
   mkAuthorizedUser "admin@iyad.sg" "Admin" "Admin" "Master Admin"].

(** The claims stored in the session. *)
Record Claims : Type := mkClaims {
  sub : string;
  c_email : option string;
  c_first_name : option string;
  c_last_name : option string
}.

(** The [user] object of the login answer. *)
Record LoginUser : Type := mkLoginUser {
  lu_id : string;
  lu_email : option string;
  lu_name : option string;
  lu_dept : option string;
  lu_userType : string
}.

(** [AUTHORIZED_USERS.find(u => u.email.toLowerCase() === email.toLowerCase())]. *)
Definition findAuthorized (email : string) : option AuthorizedUser :=
  head (filter (λ u, toLowerCase (au_email u) = toLowerCase email) AUTHORIZED_USERS).

(** The object passed to [upsertUser] by the login. *)
Definition loginUpsert (user : AuthorizedUser) : UpsertUser :=
  mkUpsertUser None (Some (Some (au_email user))) (Some (Some (au_name user)))
    (Some (Some (au_dept user))) (Some None) (Some (Some (au_dept user)))
    (Some (au_userType user)) None.

(** [POST /api/auth/login].  An [email] that is not a string has no
    [toLowerCase]: the TypeError is answered with status 500. *)
Definition loginRoute (now : Z) (body : gmap string Json) (users : list User)
    : Result (Claims * LoginUser) * list User :=
  match body !! "email" with
  | Some (JStr email) =>
      match findAuthorized email, body !! "password" with
      | Some user, Some (JStr password) =>
          if String.eqb password "1234" then
            match upsertUser now (loginUpsert user) users with
            | Some (dbUser, users') =>
                (Ok (mkClaims (u_id dbUser) (u_email dbUser)
                       (u_firstName dbUser) (u_lastName dbUser),
                     mkLoginUser (u_id dbUser) (u_email dbUser)
                       (u_firstName dbUser) (u_department dbUser)
                       (u_userType dbUser)),
                 users')
            | None => (Err 500, users)
            end
          else (Err 401, users)
      | _, _ => (Err 401, users)
      end
  | _ => (Err 500, users)
  end.

(** *** Administration *)



(** *** User sessions *)

(** A row of the [user_sessions] table. *)
Record UserSession : Type := mkUserSession {
  us_id : string;
  us_userId : string;
  us_lastAccessed : option Z;
  us_recentApps : Json
}.

(** [updateUserSession]: insert, or on a conflict on [user_id] update the
    row.  [None] is a rejected statement: [user_id] names no user. *)
Definition updateUserSession (now : Z) (userId : string) (recentApps : list string)
    (users : list User) (sessions : list UserSession) : option (list UserSession) :=
  if bool_decide (userId ∈ u_id <$> users) then
    let stored := JArr (JStr <$> recentApps) in
    if bool_decide (userId ∈ us_userId <$> sessions) then
      Some ((λ s, if bool_decide (us_userId s = userId)
                  then mkUserSession (us_id s) userId (Some now) stored
                  else s) <$> sessions)
    else
      Some (sessions ++
            [mkUserSession (fresh (us_id <$> sessions)) userId (Some now) stored])
  else None.

Section Sessions.

(** [JSON.parse]; [None] is a SyntaxError. *)
Variable JSON_parse : string → option Json.

(** [getUserSession]: the [recentApps] of the session row, if there is
    one. *)
Definition getUserSession (userId : string) (sessions : list UserSession)
    : option Json :=
  session ← head (filter (λ s, us_userId s = userId) sessions);
  Some (match us_recentApps session with
        | JArr l => JArr l
        | JStr s => default (JArr []) (JSON_parse s)
        | _ => JArr []
        end).

(** [GET /api/user/session]: [session || { recentApps: [] }]. *)
Definition getSessionRoute (userId : string) (sessions : list UserSession) : Json :=
  default (JArr []) (getUserSession userId sessions).

End Sessions.

(** An element of [z.array(z.string())]. *)
Definition zStringItem (j : Json) : option string :=
  match j with
  | JStr s => Some s
  | _ => None
  end.

(** [z.object({ recentApps: z.array(z.string()).max(5).default([]) })
     .parse(req.body)]; [None] is a ZodError. *)
Definition sessionSchema_parse (body : gmap string Json) : option (list string) :=
  match body !! "recentApps" with
  | None => Some []
  | Some (JArr l) =>
      apps ← mapM zStringItem l;
      if Nat.leb (length apps) 5 then Some apps else None
  | Some _ => None
  end.

(** [POST /api/user/session]. *)
Definition postSessionRoute (now : Z) (userId : string) (body : gmap string Json)
    (users : list User) (sessions : list UserSession)
    : Result unit * list UserSession :=
  match sessionSchema_parse body with
  | None => (Err 400, sessions)
  | Some recentApps =>
      match updateUserSession now userId recentApps users sessions with
      | Some sessions' => (Ok tt, sessions')
      | None => (Err 500, sessions)
      end
  end.

(** *** The client: recently opened applications *)

(** [[app, ...recentApps.filter(id => id !== app)].slice(0, 5)]: the list
    kept by [addRecentApp] and posted by [handleAppClick]. *)
Definition addRecentApp (app : string) (prev : list string) : list string :=
  take 5 (app :: filter (λ a, a ≠ app) prev).

(** The body [{ recentApps }] of the session update. *)
Definition sessionBody (recentApps : list string) : gmap string Json :=
  {[ "recentApps" := JArr (JStr <$> recentApps) ]}.

End Users.

(* ===================================================================== *)
(** ** server: events and their attendees *)
(* ===================================================================== *)

Module Events.

Import Routes Responses.

(** A row of the [events] table. *)
Record Event : Type := mkEvent {
  e_id : string;
  e_title : string;
  e_description : option string;
  e_eventType : string;
  e_location : option string;
  e_capacity : option Z;
  e_status : string;
  e_startDateTime : Z;
  e_endDateTime : Z;
  e_createdBy : string;
  e_settings : Json;
  e_createdAt : option Z;
  e_updatedAt : option Z
}.

(** A row of the [event_attendees] table. *)
Record EventAttendee : Type := mkEventAttendee {
  ea_id : string;
  ea_eventId : string;
  ea_attendeeId : string;
  ea_registrationStatus : string;
  ea_attendedAt : option Z;
  ea_registeredAt : option Z
}.

(** The output of [insertEventAttendeeSchema.parse]. *)
Record InsertEventAttendee : Type := mkInsertEventAttendee {
  ia_eventId : string;
  ia_attendeeId : string;
  ia_registrationStatus : option string;
  ia_attendedAt : option (option Z)
}.

(** [getEvent]. *)
Definition getEvent (eid : string) (events : list Event) : option Event :=
  head (filter (λ e, e_id e = eid) events).

(** [deleteEvent]: first the attendees of the event, then the event. *)
Definition deleteEvent (eid : string) (events : list Event)
    (attendees : list EventAttendee) : list Event * list EventAttendee :=
  let attendees' := filter (λ a, ea_eventId a ≠ eid) attendees in
  (filter (λ e, e_id e ≠ eid) events, attendees').

(** [addEventAttendee]: [insert(eventAttendees).values(attendee).returning()].
    [None] is a rejected statement: [event_id] names no event or
    [attendee_id] no user. *)
Definition addEventAttendee (now : Z) (attendee : InsertEventAttendee)
    (events : list Event) (users : list Users.User)
    (attendees : list EventAttendee)
    : option (EventAttendee * list EventAttendee) :=
  if (bool_decide (ia_eventId attendee ∈ e_id <$> events)
      && bool_decide (ia_attendeeId attendee ∈ Users.u_id <$> users))%bool
  then
    let row :=
      mkEventAttendee (fresh (ea_id <$> attendees)) (ia_eventId attendee)
        (ia_attendeeId attendee)
        (default "registered" (ia_registrationStatus attendee))
        (default None (ia_attendedAt attendee))
        (Some now) in
    Some (row, attendees ++ [row])
  else None.

(** [getEventAttendees]: the attendees of one event, latest registration
    first. *)
Definition getEventAttendees (eid : string) (attendees : list EventAttendee)
    : list EventAttendee :=
  merge_sort (λ a b, later_first (ea_registeredAt a) (ea_registeredAt b))
    (filter (λ a, ea_eventId a = eid) attendees).

(** [updateAttendeeStatus]: the first updated row, if any, and the table. *)
Definition updateAttendeeStatus (eid aid status : string) (now : Z)
    (attendees : list EventAttendee)
    : option EventAttendee * list EventAttendee :=
  let hit (a : EventAttendee) : Prop := ea_eventId a = eid ∧ ea_attendeeId a = aid in
  let upd (a : EventAttendee) : EventAttendee :=
    mkEventAttendee (ea_id a) (ea_eventId a) (ea_attendeeId a) status
      (if String.eqb status "attended" then Some now else None)
      (ea_registeredAt a) in
  (upd <$> head (filter hit attendees),
   (λ a, if bool_decide (hit a) then upd a else a) <$> attendees).

(** [removeEventAttendee]. *)
Definition removeEventAttendee (eid aid : string) (attendees : list EventAttendee)
    : list EventAttendee :=
  filter (λ a, ¬ (ea_eventId a = eid ∧ ea_attendeeId a = aid)) attendees.

(** [GET /api/events/:id]. *)
Definition getEventRoute (userId eid : string) (events : list Event) : Result Event :=
  match getEvent eid events with
  | None => Err 404
  | Some event =>
      if negb (String.eqb (e_createdBy event) userId) then Err 403 else Ok event
  end.

(** [DELETE /api/events/:id]. *)
Definition deleteEventRoute (userId eid : string) (events : list Event)
    (attendees : list EventAttendee)
    : Result unit * (list Event * list EventAttendee) :=
  match getEvent eid events with
  | None => (Err 404, (events, attendees))
  | Some event =>
      if negb (String.eqb (e_createdBy event) userId)
      then (Err 403, (events, attendees))
      else (Ok tt, deleteEvent eid events attendees)
  end.

(** [GET /api/events/:id/attendees]. *)
Definition eventAttendeesRoute (userId eid : string) (events : list Event)
    (attendees : list EventAttendee) : Result (list EventAttendee) :=
  match getEvent eid events with
  | None => Err 404
  | Some event =>
      if negb (String.eqb (e_createdBy event) userId) then Err 403
      else Ok (getEventAttendees eid attendees)
  end.

(** [insertEventAttendeeSchema.parse({ ...req.body, eventId })]:
    [attendeeId] is a required string, [registrationStatus] an optional
    string, [attendedAt] an optional nullable date, which a JSON body can
    only give as null. *)
Definition insertEventAttendeeSchema_parse (eventId : string)
    (body : gmap string Json) : option InsertEventAttendee :=
  attendeeId ← match body !! "attendeeId" with
               | Some (JStr s) => Some s
               | _ => None
               end;
  registrationStatus ← match body !! "registrationStatus" with
                       | None => Some None
                       | Some (JStr s) => Some (Some s)
                       | Some _ => None
                       end;
  attendedAt ← match body !! "attendedAt" with
               | None => Some None
               | Some JNull => Some (Some None)
               | Some _ => None
               end;
  Some (mkInsertEventAttendee eventId attendeeId registrationStatus attendedAt).

(** [POST /api/events/:id/attendees]. *)
Definition addAttendeeRoute (userId eid : string) (now : Z)
    (body : gmap string Json) (events : list Event) (users : list Users.User)
    (attendees : list EventAttendee)
    : Result EventAttendee * list EventAttendee :=
  match getEvent eid events with
  | None => (Err 404, attendees)
  | Some event =>
      if negb (String.eqb (e_createdBy event) userId) then (Err 403, attendees)
      else
        match insertEventAttendeeSchema_parse eid body with
        | None => (Err 400, attendees)
        | Some attendeeData =>
            match addEventAttendee now attendeeData events users attendees with
            | Some (attendee, attendees') => (Ok attendee, attendees')
            | None => (Err 500, attendees)
            end
        end
  end.


End Events.

(* ===================================================================== *)
(** ** client StudentCSVUploader: the upload; server: student routes *)
(* ===================================================================== *)

Module StudentUpload.

Import Storage Routes StudentCSV.

(** The status [handleUpload] sends for a row: ['active'] when the row has
    none, the lower-cased, trimmed status when that is one of the four
    known ones, ['active'] otherwise. *)
Definition uploadStatus (status : option string) : string :=
  if negb (str_truthy (trim <$> status)) then "active"
  else
    let s := trim (toLowerCase (default "" status)) in
    if includes ["active"; "inactive"; "transferred"; "graduated"] s
    then s else "active".

(** [{ ...row.data, status }]. *)
Definition uploadRow (row : ParsedStudentRow) : InsertStudent :=
  setField F_status (uploadStatus (i_status (data row))) (data row).

(** [parsedData.filter(row => row.valid).map(...)]. *)
Definition validStudents (parsedData : list ParsedStudentRow) : list InsertStudent :=
  uploadRow <$> filter (λ row, valid row = true) parsedData.

(** What [handleUpload] ends with: nothing happens for an empty preview;
    otherwise the valid rows are posted and the answer is a success, or a
    failure when the request is refused. *)
Inductive UploadOutcome : Type :=
| NothingToUpload
| ImportSuccessful (importedCount : nat) (response : BulkResponse)
| ImportFailed (code : Z).

(** [handleUpload] against [POST /api/students/bulk]. *)
Definition handleUpload (fault : nat → bool) (userId : string) (now : Z)
    (parsedData : list ParsedStudentRow) (tbl : list Student)
    : UploadOutcome * list Student :=
  match parsedData with
  | [] => (NothingToUpload, tbl)
  | _ =>
      let payload := validStudents parsedData in
      match studentsBulkRoute fault userId now payload tbl with
      | (Ok response, tbl') => (ImportSuccessful (length payload) response, tbl')
      | (Err code, tbl') => (ImportFailed code, tbl')
      end
  end.

(** The four statuses of a student. *)
Definition knownStatuses : list string :=
  ["active"; "inactive"; "transferred"; "graduated"].

(** The BC number of a row under construction is a trimmed cell. *)
Definition bc_trimmed (r : InsertStudent) : Prop :=
  ∀ bc, i_student_BC r = Some bc → trim bc = bc.

(** The line of the error list for an invalid row. *)
Definition errorLine (p : ParsedStudentRow) : string :=
  "Row " +:+ pretty (index p) +:+ ": " +:+ join (errors p).

End StudentUpload.

Module StudentRoutes.

Import Storage Routes.

(** [getStudent]. *)
Definition getStudent (sid : string) (tbl : list Student) : option Student :=
  head (filter (λ s, s_id s = sid) tbl).

(** [deleteStudent]. *)
Definition deleteStudent (sid : string) (tbl : list Student) : list Student :=
  filter (λ s, s_id s ≠ sid) tbl.

(** [POST /api/students] on a typed payload: [{ ...req.body, createdBy }]. *)
Definition createStudentRoute (userId : string) (now : Z) (body : InsertStudent)
    (tbl : list Student) : Result Student * list Student :=
  match createStudent now (withCreator userId body) tbl with
  | Some (student, tbl') => (Ok student, tbl')
  | None => (Err 500, tbl)
  end.

(** [GET /api/students/:id]. *)
Definition getStudentRoute (sid : string) (tbl : list Student) : Result Student :=
  match getStudent sid tbl with
  | Some student => Ok student
  | None => Err 404
  end.

(** [PUT /api/students/:id] on a typed payload. *)
Definition updateStudentRoute (sid : string) (updates : InsertStudent)
    (tbl : list Student) : Result Student * list Student :=
  match getStudent sid tbl with
  | None => (Err 404, tbl)
  | Some _ =>
      match updateStudent sid updates tbl with
      | Some (updatedStudent, tbl') => (Ok updatedStudent, tbl')
      | None => (Err 500, tbl)
      end
  end.

(** [DELETE /api/students/:id]. *)
Definition deleteStudentRoute (sid : string) (tbl : list Student)
    : Result unit * list Student :=
  match getStudent sid tbl with
  | None => (Err 404, tbl)
  | Some _ => (Ok tt, deleteStudent sid tbl)
  end.

End StudentRoutes.

(* ===================================================================== *)
(** ** client FormBuilder page: is the form ready? *)
(* ===================================================================== *)

Module Completion.

Import JS.

(** The values of the builder's form that the checks read; [None] is an
    undefined value. *)
Record FormValues : Type := mkFormValues {
  v_title : option string;
  v_description : option string;
  v_formType : option string;
  v_formUrl : option string;
  v_submissionType : option string;
  v_liveStatus : option string
}.

(** The values that the checks compute: strings that may be undefined,
    and booleans. *)
Inductive JsValue : Type :=
| Undefined
| Str (s : string)
| Bool (b : bool).

(** ToBoolean. *)
Definition toBoolean (v : JsValue) : bool :=
  match v with
  | Undefined => false
  | Str s => negb (String.eqb s "")
  | Bool b => b
  end.

(** [a && b]. *)
Definition and_then (a b : JsValue) : JsValue := if toBoolean a then b else a.

Definition of_string (o : option string) : JsValue :=
  match o with
  | Some s => Str s
  | None => Undefined
  end.

(** [values.formType === 'parents_survey']. *)
Definition is_parents_survey (values : FormValues) : bool :=
  match v_formType values with
  | Some t => String.eqb t "parents_survey"
  | None => false
  end.

(** [isFormComplete], on the form values and [questions.length]. *)
Definition isFormComplete (values : FormValues) (questions_length : nat) : JsValue :=
  let hasTitle := of_string (trim <$> v_title values) in
  let hasDescription := of_string (trim <$> v_description values) in
  let hasFormType := of_string (v_formType values) in
  let hasFormUrl := of_string (trim <$> v_formUrl values) in
  let hasQuestions := Bool (Nat.ltb 0 questions_length) in
  let hasValidSettings :=
    if is_parents_survey values
    then Bool (negb (negb (toBoolean
                 (and_then (of_string (v_submissionType values))
                           (of_string (v_liveStatus values))))))
    else Bool true in
  and_then (and_then (and_then (and_then (and_then hasTitle hasDescription)
                                  hasFormType) hasFormUrl) hasQuestions)
    hasValidSettings.

(** [if (!cond) missing.push(label)]. *)
Definition push_unless (cond : bool) (label : string) (missing : list string)
    : list string :=
  if negb cond then missing ++ [label] else missing.

(** [getIncompleteFields]. *)
Definition getIncompleteFields (values : FormValues) (questions_length : nat)
    : list string :=
  let missing := [] in
  let missing := push_unless (str_truthy (trim <$> v_title values)) "Form Title" missing in
  let missing :=
    push_unless (str_truthy (trim <$> v_description values)) "Description" missing in
  let missing := push_unless (str_truthy (v_formType values)) "Form Type" missing in
  let missing := push_unless (str_truthy (trim <$> v_formUrl values)) "Form URL" missing in
  let missing :=
    push_unless (negb (Nat.eqb questions_length 0)) "At least one question" missing in
  if is_parents_survey values then
    let missing :=
      push_unless (str_truthy (v_submissionType values)) "Submission Type" missing in
    push_unless (str_truthy (v_liveStatus values)) "Live Status" missing
  else missing.

(** What [handlePreview] and [handlePublish] end with. *)
Inductive Attempt : Type :=
| NotReady (toastTitle description : string)
| FormIdMissing (description : string)
| Mutate.

(** [handlePreview]; [editFormId] is [None] for null. *)
Definition handlePreview (values : FormValues) (questions_length : nat)
    (editFormId : option string) : Attempt :=
  if negb (toBoolean (isFormComplete values questions_length)) then
    let missing := getIncompleteFields values questions_length in
    NotReady "Form Not Ready for Preview"
      ("Please complete the following: " +:+ StudentCSV.join missing)
  else if str_truthy editFormId then Mutate
  else FormIdMissing "Form ID is missing. Please save the form first.".

(** [handlePublish]. *)
Definition handlePublish (values : FormValues) (questions_length : nat)
    (editFormId : option string) : Attempt :=
  if negb (toBoolean (isFormComplete values questions_length)) then
    let missing := getIncompleteFields values questions_length in
    NotReady "Form Not Ready to Publish"
      ("Please complete the following: " +:+ StudentCSV.join missing)
  else if negb (str_truthy editFormId) then
    FormIdMissing "Please save the form first before publishing."
  else Mutate.

(** The labels of the fields that can be missing, in the order of the
    checks. *)
Definition fieldLabels : list string :=
  ["Form Title"; "Description"; "Form Type"; "Form URL"; "At least one question";
   "Submission Type"; "Live Status"].

End Completion.

(* ===================================================================== *)
(** ** client PublicForm page: sections, answers and the submission *)
(* ===================================================================== *)

Module PublicPage.

Import JS.

(** A question and a section of [PublicFormData], with the fields that the
    navigation reads. *)
Record PQuestion : Type := mkPQuestion {
  pq_questionId : string;
  pq_required : bool;
  pq_sectionId : option string
}.

Record PSection : Type := mkPSection {
  ps_id : string;
  ps_title : string;
  ps_order : Z
}.

(** The form as the page has it; [pf_sections = None] is a form without the
    [sections] key. *)
Record PForm : Type := mkPForm {
  pf_id : string;
  pf_questions : list PQuestion;
  pf_sections : option (list PSection)
}.

(** Insertion of a section before the first one that does not sort before
    it. *)
Fixpoint insertByOrder (s : PSection) (l : list PSection) : list PSection :=
  match l with
  | [] => [s]
  | x :: rest =>
      if (ps_order s <=? ps_order x)%Z then s :: x :: rest
      else x :: insertByOrder s rest
  end.

(** [form.sections.sort((a, b) => a.order - b.order)]: the sort is stable,
    and a stable sort by a key has one result. *)
Definition sortByOrder (l : list PSection) : list PSection :=
  foldr insertByOrder [] l.

(** [sections]: the sorted sections of the form, or the fallback section
    when the form has none. *)
Definition sections (form : PForm) : list PSection :=
  match pf_sections form with
  | Some (s :: l) => sortByOrder (s :: l)
  | _ => [mkPSection "default" "Form Questions" 0]
  end.

(** [getCurrentSectionQuestions] for the section index [i]; [None] is the
    TypeError of reading [id] of an undefined section. *)
Definition getCurrentSectionQuestions (form : PForm) (i : nat)
    : option (list PQuestion) :=
  currentSection ← sections form !! i;
  if (String.eqb (ps_id currentSection) "default"
      && match pf_sections form with Some [] => true | _ => false end)%bool
  then Some (pf_questions form)
  else Some (filter (λ q, pq_sectionId q = Some (ps_id currentSection)
                          ∨ (str_truthy (pq_sectionId q) = false
                             ∧ ps_id currentSection = "default"))
               (pf_questions form)).

(** [response !== undefined && response !== null && response !== '']. *)
Definition answered (response : option Json) : bool :=
  match response with
  | None => false
  | Some JNull => false
  | Some (JStr s) => negb (String.eqb s "")
  | Some _ => true
  end.

(** The test of [currentQuestions.every(...)].  [responses] is a plain
    object: under an id that it does not hold,
    [responses[question.questionId]] is [undefined], unless the id is a
    name that every object inherits; then it is a function (or the
    prototype), which is neither [undefined] nor [null] nor ['']. *)
Definition questionDone (responses : gmap string Json) (question : PQuestion) : bool :=
  if negb (pq_required question) then true
  else
    match responses !! pq_questionId question with
    | Some response => answered (Some response)
    | None => inherited (pq_questionId question)
    end.

Inductive Step : Type := Welcome | InForm | Success.

(** The state of the page, and the bodies posted so far. *)
Record PageState : Type := mkPageState {
  currentStep : Step;
  currentSectionIndex : nat;
  responses : gmap string Json;
  posted : list (string * gmap string Json)
}.

Definition initialPage : PageState := mkPageState Welcome 0 ∅ [].

(** [isCurrentSectionComplete]. *)
Definition isCurrentSectionComplete (form : PForm) (st : PageState) : option bool :=
  currentQuestions ← getCurrentSectionQuestions form (currentSectionIndex st);
  Some (forallb (questionDone (responses st)) currentQuestions).

(** What the respondent can do: start the form, change the answer of a
    question on display, press Next (the answer of the server to a
    submission being [accepted]) or Previous. *)
Inductive PageEvent : Type :=
| StartForm
| InputChange (questionId : string) (value : Json)
| NextSection (accepted : bool)
| PreviousSection.

(** One event.  [None]: the event is not possible in the state - the
    control is not on display or is disabled - or the handler throws. *)
Definition pageStep (form : PForm) (st : PageState) (ev : PageEvent)
    : option PageState :=
  match currentStep st, ev with
  | Welcome, StartForm =>
      (* handleStartForm *)
      Some (mkPageState InForm (currentSectionIndex st) (responses st) (posted st))
  | InForm, InputChange questionId value =>
      (* handleInputChange, from a question of the current section *)
      match getCurrentSectionQuestions form (currentSectionIndex st) with
      | Some currentQuestions =>
          if bool_decide (questionId ∈ pq_questionId <$> currentQuestions)
          then Some (mkPageState InForm (currentSectionIndex st)
                       (<[questionId := value]> (responses st)) (posted st))
          else None
      | None => None
      end
  | InForm, NextSection accepted =>
      (* handleNextSection, the button being enabled *)
      match isCurrentSectionComplete form st with
      | Some true =>
          if Nat.ltb (currentSectionIndex st + 1) (length (sections form))
          then Some (mkPageState InForm (currentSectionIndex st + 1) (responses st)
                       (posted st))
          else
            (* handleSubmit; onSuccess shows the success screen *)
            Some (mkPageState (if accepted then Success else InForm)
                    (currentSectionIndex st) (responses st)
                    (posted st ++ [(pf_id form, responses st)]))
      | _ => None
      end
  | InForm, PreviousSection =>
      (* handlePreviousSection *)
      if Nat.ltb 0 (currentSectionIndex st)
      then Some (mkPageState InForm (currentSectionIndex st - 1) (responses st)
                   (posted st))
      else Some st
  | _, _ => None
  end.

(** A session: the events one after the other. *)
Fixpoint runPage (form : PForm) (st : PageState) (evs : list PageEvent)
    : option PageState :=
  match evs with
  | [] => Some st
  | ev :: rest => st' ← pageStep form st ev; runPage form st' rest
  end.

(** Every required question that some section shows is answered. *)
Definition allShownAnswered (form : PForm) (r : gmap string Json) : Prop :=
  ∀ i currentQuestions question,
    getCurrentSectionQuestions form i = Some currentQuestions →
    question ∈ currentQuestions →
    pq_required question = true →
    answered (r !! pq_questionId question) = true.

(** The questions and the sections of the form have distinct ids, and no
    section has the empty id. *)
Definition distinctIds (form : PForm) : Prop :=
  NoDup (pq_questionId <$> pf_questions form)
  ∧ NoDup (ps_id <$> default [] (pf_sections form))
  ∧ "" ∉ (ps_id <$> default [] (pf_sections form)).

(** No required question has as id a name that every object inherits. *)
Definition plainIds (form : PForm) : Prop :=
  Forall (λ q, pq_required q = true → inherited (pq_questionId q) = false)
    (pf_questions form).

(** What every reachable state of the page satisfies. *)
Definition pageInv (form : PForm) (st : PageState) : Prop :=
  (currentSectionIndex st < length (sections form))%nat
  ∧ (∀ k qs q, (k < currentSectionIndex st)%nat →
               getCurrentSectionQuestions form k = Some qs → q ∈ qs →
               questionDone (responses st) q = true)
  ∧ Forall (λ p, p.1 = pf_id form ∧ allShownAnswered form p.2) (posted st).

End PublicPage.

(* ===================================================================== *)
(** ** client BCInputComponent: the children of a respondent *)
(* ===================================================================== *)

Module BCInput.

Import JS Storage Routes.

(** [s.split(',')]. *)
Fixpoint split_comma (s : string) : list string :=
  match s with
  | EmptyString => [""]
  | String c s' =>
      if Ascii.eqb c ","%char then "" :: split_comma s'
      else
        match split_comma s' with
        | [] => [String c ""]
        | piece :: pieces => String c piece :: pieces
        end
  end.

(** The object given to [onChange], before [JSON.stringify]. *)
Record Answer : Type := mkAnswer {
  a_foundStudents : list StudentSummary;
  a_notFoundBCNumbers : list string
}.

(** The state of the component; [formResponse] is the last value given to
    [onChange], if any.  The effect that initialises the state from the
    [value] property reads back the two lists last reported, and is left
    out. *)
Record BCState : Type := mkBCState {
  bcInput : string;
  st_foundStudents : list StudentSummary;
  notFoundBCs : list string;
  st_notSelectedStudents : list StudentSummary;
  hasSearched : bool;
  duplicateCardBC : option (option string);
  formResponse : option Answer
}.

(** [bcInput.split(',').map(bc => bc.trim()).filter(bc => bc)]. *)
Definition bcNumbersOf (bcInput : string) : list string :=
  filter (λ bc, bc ≠ "") (trim <$> split_comma bcInput).

(** [updateFormResponse]. *)
Definition updateFormResponse (students : list StudentSummary)
    (notFound : list string) : Answer :=
  mkAnswer students notFound.

(** [handleLookup], [data] being the parsed answer of the lookup request
    and [None] a request that throws. *)
Definition handleLookupWith (data : list string → option LookupResponse)
    (st : BCState) : BCState :=
  if String.eqb (trim (bcInput st)) "" then st
  else
    let bcNumbers := bcNumbersOf (bcInput st) in
    match data bcNumbers with
    | Some data =>
        let existingBCs := ss_student_BC <$> st_foundStudents st in
        let newStudents :=
          filter (λ s, ss_student_BC s ∉ existingBCs) (foundStudents data) in
        let duplicateStudents :=
          filter (λ s, ss_student_BC s ∈ existingBCs) (foundStudents data) in
        let duplicateCard :=
          match duplicateStudents with
          | s :: _ => Some (ss_student_BC s)
          | [] => duplicateCardBC st
          end in
        let newFoundStudents := st_foundStudents st ++ newStudents in
        let newNotFoundBCs := notFoundBCNumbers data in
        let newNotSelectedStudents := default [] (notSelectedStudents data) in
        let existingNotSelectedBCs := ss_student_BC <$> st_notSelectedStudents st in
        let uniqueNewNotSelected :=
          filter (λ s, ss_student_BC s ∉ existingNotSelectedBCs)
            newNotSelectedStudents in
        mkBCState "" newFoundStudents newNotFoundBCs
          (st_notSelectedStudents st ++ uniqueNewNotSelected)
          true duplicateCard
          (Some (updateFormResponse newFoundStudents newNotFoundBCs))
    | None =>
        mkBCState (bcInput st) (st_foundStudents st) bcNumbers
          (st_notSelectedStudents st) true (duplicateCardBC st)
          (Some (updateFormResponse (st_foundStudents st) bcNumbers))
    end.

(** The lookup request against [POST /api/public/students/lookup-bc]:
    the body carries the typed numbers, which are strings.  [fault] is a
    request that does not get through, and an answer with an error status
    throws as well. *)
Definition lookupRequest (compare : Json → option bool) (fault : bool)
    (formId : option string)
    (forms : list Form) (tbl : list Student) (bcNumbers : list string)
    : option LookupResponse :=
  if fault then None
  else
    match lookupBcRoute compare (Some (JStr <$> bcNumbers)) formId forms tbl with
    | Ok data => Some data
    | Err _ => None
    end.

(** [handleLookup] against the server. *)
Definition handleLookup (compare : Json → option bool) (fault : bool)
    (formId : option string)
    (forms : list Form) (tbl : list Student) (st : BCState) : BCState :=
  handleLookupWith (lookupRequest compare fault formId forms tbl) st.

(** [handleDeleteChild]. *)
Definition handleDeleteChild (bcToRemove : string) (st : BCState) : BCState :=
  let updatedStudents :=
    filter (λ student, ss_student_BC student ≠ Some bcToRemove)
      (st_foundStudents st) in
  mkBCState (bcInput st) updatedStudents (notFoundBCs st)
    (st_notSelectedStudents st) (hasSearched st) (duplicateCardBC st)
    (Some (updateFormResponse updatedStudents (notFoundBCs st))).

(** What a turn of the lookup loop that does not throw pushes for one
    trimmed number. *)
Definition allowListApplies (compare : Json → option bool) (sel : Json)
    (ft : string) : bool :=
  match (if String.eqb ft "parents_survey"
         then respondents_nonempty compare sel else Some false) with
  | Some true => true
  | _ => false
  end.

Definition pushedFound (compare : Json → option bool) (sel : Json)
    (ft : string) (tbl : list Student)
    (t : string) : option StudentSummary :=
  match getStudentByStudentId (Some t) tbl with
  | Some s =>
      if allowListApplies compare sel ft
      then match respondents_include sel t with
           | Some true => Some (summary s)
           | _ => None
           end
      else Some (summary s)
  | None => None
  end.

Definition pushedNotSelected (compare : Json → option bool) (sel : Json)
    (ft : string) (tbl : list Student)
    (t : string) : option StudentSummary :=
  match getStudentByStudentId (Some t) tbl with
  | Some s =>
      if allowListApplies compare sel ft
      then match respondents_include sel t with
           | Some false => Some (summary s)
           | _ => None
           end
      else None
  | None => None
  end.

Definition pushedNotFound (tbl : list Student) (t : string) : option string :=
  match getStudentByStudentId (Some t) tbl with
  | Some _ => None
  | None => Some t
  end.

End BCInput.

(* ===================================================================== *)
(** ** client CSVUploader: one line of a CSV file *)
(* ===================================================================== *)

Module CSV.

Import JS.

(** The double quote and the comma. *)
Definition dquote : ascii := "034"%char.
Definition comma : ascii := ","%char.

(** The locals of [parseCSVLine]. *)
Record LineState : Type := mkLineState {
  result : list string;
  current : string;
  inQuotes : bool
}.

(** The body of the loop over the characters of the line. *)
Definition lineStep (st : LineState) (char : ascii) : LineState :=
  if Ascii.eqb char dquote then
    mkLineState (result st) (current st) (negb (inQuotes st))
  else if (Ascii.eqb char comma && negb (inQuotes st))%bool then
    mkLineState (result st ++ [trim (current st)]) "" (inQuotes st)
  else
    mkLineState (result st) (current st +:+ String char "") (inQuotes st).

Fixpoint lineLoop (st : LineState) (line : string) : LineState :=
  match line with
  | EmptyString => st
  | String char rest => lineLoop (lineStep st char) rest
  end.

(** The removal of a double quote at the end of a string. *)
Fixpoint stripTrailing (s : string) : string :=
  match s with
  | EmptyString => EmptyString
  | String c EmptyString => if Ascii.eqb c dquote then EmptyString else s
  | String c s' => String c (stripTrailing s')
  end.

(** [item.replace(/^"|"$/g, '')]: a double quote at the start and one at
    the end are removed. *)
Definition stripQuotes (item : string) : string :=
  match item with
  | EmptyString => EmptyString
  | String c s' => stripTrailing (if Ascii.eqb c dquote then s' else item)
  end.

(** [parseCSVLine]. *)
Definition parseCSVLine (line : string) : list string :=
  let st := lineLoop (mkLineState [] "" false) line in
  stripQuotes <$> (result st ++ [trim (current st)]).

(** A line of a CSV file: the fields joined by commas; and a field between
    double quotes. *)
Fixpoint joinComma (fields : list string) : string :=
  match fields with
  | [] => ""
  | [field] => field
  | field :: rest => field +:+ String comma (joinComma rest)
  end.

Definition quoted (field : string) : string :=
  String dquote (field +:+ String dquote "").

(** The character occurs in the string. *)
Definition occurs (c : ascii) (s : string) : Prop :=
  c ∈ list_ascii_of_string s.

(** The fields that the loop has closed, with the one it is reading. *)
Definition fieldsOf (st : LineState) : list string :=
  result st ++ [trim (current st)].

End CSV.

(* ===================================================================== *)
(** ** client FormBuilder page: the respondents of a parents' survey *)
(* ===================================================================== *)

Module Respondents.

Import JS Schema.

(** A student in the tree of centres, levels and classes. *)
Record Entry : Type := mkEntry {
  en_student_BC : string;
  en_fullName : string;
  en_selected : bool
}.

(** [hierarchicalData] maps a centre to its levels, a level to its classes
    and a class name to the students of the class. *)

(** [Object.values(obj)].  The loops over it below add to or delete from a
    set, or add up numbers, so that the order of the values does not
    show. *)
Definition values {A : Type} (obj : gmap string A) : list A :=
  snd <$> map_to_list obj.

(** [hierarchicalData[centre] || {}]. *)
Definition levelsOf (hierarchicalData : gmap string (gmap string (gmap string (list Entry)))) (centre : string) : gmap string (gmap string (list Entry)) :=
  default ∅ (hierarchicalData !! centre).

(** [hierarchicalData[centre]?.[level] || {}]. *)
Definition classesOf (hierarchicalData : gmap string (gmap string (gmap string (list Entry)))) (centre level : string) : gmap string (list Entry) :=
  default ∅ (hierarchicalData !! centre ≫= λ levels, levels !! level).

(** [hierarchicalData[centre]?.[level]?.[className] || []]. *)
Definition studentsOf (hierarchicalData : gmap string (gmap string (gmap string (list Entry)))) (centre level className : string)
    : list Entry :=
  default [] (hierarchicalData !! centre ≫= λ levels, levels !! level
                ≫= λ classes, classes !! className).

(** [students.forEach(student => newSelected.add(student.student_BC))]. *)
Definition addStudents (newSelected : gset string) (students : list Entry)
    : gset string :=
  foldl (λ newSelected student, newSelected ∪ {[en_student_BC student]})
    newSelected students.

(** [students.forEach(student => newSelected.delete(student.student_BC))]. *)
Definition deleteStudents (newSelected : gset string) (students : list Entry)
    : gset string :=
  foldl (λ newSelected student, newSelected ∖ {[en_student_BC student]})
    newSelected students.

(** [toggleStudentSelection]. *)
Definition toggleStudentSelection (student_BC : string)
    (selectedRespondents : gset string) : gset string :=
  if bool_decide (student_BC ∈ selectedRespondents)
  then selectedRespondents ∖ {[student_BC]}
  else selectedRespondents ∪ {[student_BC]}.

(** [selectAllInClass] and [deselectAllInClass]. *)
Definition selectAllInClass (centre level className : string)
    (hierarchicalData : gmap string (gmap string (gmap string (list Entry)))) (selectedRespondents : gset string) : gset string :=
  addStudents selectedRespondents (studentsOf hierarchicalData centre level className).

Definition deselectAllInClass (centre level className : string)
    (hierarchicalData : gmap string (gmap string (gmap string (list Entry)))) (selectedRespondents : gset string) : gset string :=
  deleteStudents selectedRespondents
    (studentsOf hierarchicalData centre level className).

(** [selectAllInLevel] and [deselectAllInLevel]. *)
Definition selectAllInLevel (centre level : string)
    (hierarchicalData : gmap string (gmap string (gmap string (list Entry)))) (selectedRespondents : gset string) : gset string :=
  foldl addStudents selectedRespondents
    (values (classesOf hierarchicalData centre level)).

Definition deselectAllInLevel (centre level : string)
    (hierarchicalData : gmap string (gmap string (gmap string (list Entry)))) (selectedRespondents : gset string) : gset string :=
  foldl deleteStudents selectedRespondents
    (values (classesOf hierarchicalData centre level)).

(** [selectAllInCentre] and [deselectAllInCentre]. *)
Definition selectAllInCentre (centre : string)
    (hierarchicalData : gmap string (gmap string (gmap string (list Entry)))) (selectedRespondents : gset string) : gset string :=
  foldl (λ newSelected levels, foldl addStudents newSelected (values levels))
    selectedRespondents (values (levelsOf hierarchicalData centre)).

Definition deselectAllInCentre (centre : string)
    (hierarchicalData : gmap string (gmap string (gmap string (list Entry)))) (selectedRespondents : gset string) : gset string :=
  foldl (λ newSelected levels, foldl deleteStudents newSelected (values levels))
    selectedRespondents (values (levelsOf hierarchicalData centre)).

(** [{ selected, total }]. *)
Record Count : Type := mkCount {
  selected : nat;
  total : nat
}.

(** The body of the loop over the classes in the two counters:
    [total += students.length] and one more selected student for each
    student of the class in the set. *)
Definition countClass (selectedRespondents : gset string) (count : Count)
    (students : list Entry) : Count :=
  mkCount
    (foldl (λ selected student,
              if bool_decide (en_student_BC student ∈ selectedRespondents)
              then S selected else selected)
       (selected count) students)
    (total count + length students).

(** [getLevelStudentsCount]. *)
Definition getLevelStudentsCount (centre level : string)
    (hierarchicalData : gmap string (gmap string (gmap string (list Entry)))) (selectedRespondents : gset string) : Count :=
  foldl (countClass selectedRespondents) (mkCount 0 0)
    (values (classesOf hierarchicalData centre level)).

(** [getCentreStudentsCount]. *)
Definition getCentreStudentsCount (centre : string)
    (hierarchicalData : gmap string (gmap string (gmap string (list Entry)))) (selectedRespondents : gset string) : Count :=
  foldl (λ count level, foldl (countClass selectedRespondents) count (values level))
    (mkCount 0 0) (values (levelsOf hierarchicalData centre)).

(** [getTotalStudentsCount]. *)
Definition getTotalStudentsCount (hierarchicalData : gmap string (gmap string (gmap string (list Entry)))) : nat :=
  foldl (λ (total : nat) (centre : gmap string (gmap string (list Entry))),
           foldl (λ (total : nat) (level : gmap string (list Entry)),
                    foldl (λ (total : nat) (students : list Entry),
                             (total + length students)%nat)
                      total (values level))
             total (values centre))
    0%nat (values hierarchicalData).

(** The students of a level and of a centre, class after class. *)
Definition levelEntries (classes : gmap string (list Entry)) : list Entry := concat (values classes).

Definition centreEntries (levels : gmap string (gmap string (list Entry))) : list Entry :=
  concat (levelEntries <$> values levels).

(** The students of the whole tree. *)
Definition allEntries (hierarchicalData : gmap string (gmap string (gmap string (list Entry))))
    : list Entry :=
  concat (centreEntries <$> values hierarchicalData).

(** [!centre || !level || !className || !student_BC || !fullName] is
    false. *)
Definition complete (student : Student) : bool :=
  (str_truthy (centre student) && str_truthy (level student)
   && str_truthy (class student) && str_truthy (student_BC student)
   && str_truthy (fullName student))%bool.

(** The entry pushed for a student. *)
Definition entryOf (selectedRespondents : gset string) (student : Student) : Entry :=
  mkEntry (default "" (student_BC student)) (default "" (fullName student))
    (bool_decide (default "" (student_BC student) ∈ selectedRespondents)).

(** The names of the centre, the level and the class of a student are
    keys of plain objects.  A key that every object inherits
    ([constructor], [toString], ...) reads as a function before it is
    ever written, so that the tests [!hierarchical[centre]] and the like
    find a value and create no object; the maps below describe the tree
    for the names that are not inherited. *)
Definition plain_names (student : Student) : Prop :=
  inherited (default "" (centre student)) = false
  ∧ inherited (default "" (level student)) = false
  ∧ inherited (default "" (class student)) = false.

(** The body of [students.forEach] in [fetchHierarchicalData], for a
    student with [plain_names]: missing objects and the missing array are
    created, and the student is pushed to the array of the class. *)
Definition addStudent (selectedRespondents : gset string)
    (hierarchical : gmap string (gmap string (gmap string (list Entry))))
    (student : Student) : gmap string (gmap string (gmap string (list Entry))) :=
  if complete student then
    let centre := default "" (centre student) in
    let level := default "" (level student) in
    let className := default "" (class student) in
    let levels := default ∅ (hierarchical !! centre) in
    let classes := default ∅ (levels !! level) in
    let students := default [] (classes !! className) in
    <[centre := <[level := <[className := students ++ [entryOf selectedRespondents student]]>
                              classes]> levels]> hierarchical
  else hierarchical.

(** [fetchHierarchicalData] on the students that [GET /api/students]
    answers: the new [hierarchicalData] and the new [selectedRespondents]
    (every student with a BC number when none was selected). *)
Definition fetchHierarchicalData (students : list Student)
    (selectedRespondents : gset string)
    : gmap string (gmap string (gmap string (list Entry))) * gset string :=
  (foldl (addStudent selectedRespondents) ∅ students,
   if bool_decide (size selectedRespondents = 0%nat)
   then list_to_set
          (omap (λ student, if str_truthy (student_BC student)
                            then student_BC student else None) students)
   else selectedRespondents).

(** The student is complete and of the class. *)
Definition ofClass (centre level className : string) (student : Student) : Prop :=
  complete student = true
  ∧ Schema.centre student = Some centre
  ∧ Schema.level student = Some level
  ∧ Schema.class student = Some className.

#[global] Instance ofClass_dec (centre level className : string) (student : Student) :
  Decision (ofClass centre level className student).
Proof. unfold ofClass. apply _. Defined.

End Respondents.

(* ===================================================================== *)
(** ** client FormBuilder page: sessions without an edit of the options *)
(* ===================================================================== *)

Module BuilderSessions.

Import Builder.

(** The action is [updateQuestion(id, 'options', value)]. *)
Definition editsOptions (op : Op) : bool :=
  match op with
  | UpdateQuestion _ (EditOptions _) => true
  | _ => false
  end.





End BuilderSessions.

(* ===================================================================== *)
(** ** More sample data for the closed examples *)
(* ===================================================================== *)

Module MoreSamples.

Import Storage Routes Responses FormRoutes.

(** A [JSON.parse] that rejects every text. *)
Definition no_parse (s : string) : option Json := None.

(** The view of a form without content. *)
Definition empty_view : PublicFormData :=
  mkPublicFormData "" "" None (JStr "") "" None (JArr []) (JArr [])
    (mkViewSettings (JStr "") JNull None None None None)
    None None None None None false.

(** The body a public form page posts on submission. *)
Definition submission_body : gmap string Json :=
  <["formId" := JStr "another-form"]>
  (<["responses" := JObj [("q1", JStr "yes")]]> ∅).

(** The body of a question import. *)
Definition import_body : gmap string Json :=
  {[ "questions" := JArr [JObj [("type", JStr "text")]] ]}.

(** The claims and the answer of a login, or empty ones for an error. *)
Definition login_of (r : Result (Users.Claims * Users.LoginUser))
    : Users.Claims * Users.LoginUser :=
  match r with
  | Ok a => a
  | Err _ => (Users.mkClaims "" None None None, Users.mkLoginUser "" None None None "")
  end.

Definition claims_of (r : Result (Users.Claims * Users.LoginUser)) : Users.Claims :=
  (login_of r).1.

(** Login bodies: the administrator in mixed case, and a head of
    department. *)
Definition admin_login : gmap string Json :=
  <["email" := JStr "Admin@IYAD.sg"]> (<["password" := JStr "1234"]> ∅).


(** A users table with one account. *)
Definition one_user : list Users.User :=
  [Users.mkUser "a1" (Some "cck@iyad.sg") (Some "CCK") (Some "CCK") None
     (Some "CCK") "HOD" true (Some 1%Z) (Some 1%Z)].

(** Two events of one owner; the first has two attendees. *)
Definition events_table : list Events.Event :=
  [Events.mkEvent "e1" "Open day" None "social" None None "upcoming" 10 20 "a1"
     JNull (Some 1%Z) (Some 1%Z);
   Events.mkEvent "e2" "Briefing" None "meeting" None None "upcoming" 30 40 "a1"
     JNull (Some 1%Z) (Some 1%Z)].

Definition attendees_table : list Events.EventAttendee :=
  [Events.mkEventAttendee "t1" "e1" "a1" "registered" None (Some 2%Z);
   Events.mkEventAttendee "t2" "e2" "a1" "attended" (Some 4%Z) (Some 3%Z);
   Events.mkEventAttendee "t3" "e1" "a1" "registered" None (Some 5%Z)].

(** A student sheet: a full row, a blank row, and a row without a BC
    number. *)
Definition sheet_headers : list string := ["Bc No"; "Name"; "Status"; "Hobby"].

Definition sheet_rows : list (list string) :=
  [[" A1 "; "Jane"; " Active "; "Chess"];
   [""; ""; ""; ""];
   [" "; "Tom"; ""; ""]].

Definition parsed_sheet : list StudentCSV.ParsedStudentRow :=
  match StudentCSV.parseDataRows sheet_headers sheet_rows with
  | StudentCSV.Parsed parsedData _ => parsedData
  | StudentCSV.MissingHeaders _ => []
  end.

Definition sheet_errors : list string :=
  match StudentCSV.parseDataRows sheet_headers sheet_rows with
  | StudentCSV.Parsed _ validationErrors => validationErrors
  | StudentCSV.MissingHeaders validationErrors => validationErrors
  end.

(** The first parsed row of the sheet. *)
Definition first_parsed : StudentCSV.ParsedStudentRow :=
  default (StudentCSV.mkParsedStudentRow 0 StudentCSV.emptyRow false [])
    (head parsed_sheet).

(** The body of a new student, and a body with the BC number of the first
    student of the sample table. *)
Definition new_student : Schema.InsertStudent :=
  Schema.mkInsertStudent (Some "BC003") (Some "Omar") None None (Some "P3")
    (Some "3C") None None None None None None None None None None None.

Definition renumbering : Schema.InsertStudent :=
  Schema.mkInsertStudent (Some "BC001") None None None None None None None None
    None None None None None None None None.


(** A form of two sections, stored out of order, with a required question
    in each, an optional question without a section and a required
    question whose section is gone; and a session on its page. *)
Definition two_sections_form : PublicPage.PForm :=
  PublicPage.mkPForm "f1"
    [PublicPage.mkPQuestion "q1" true (Some "s1");
     PublicPage.mkPQuestion "q2" true (Some "s2");
     PublicPage.mkPQuestion "q3" false None;
     PublicPage.mkPQuestion "q4" true (Some "gone")]
    (Some [PublicPage.mkPSection "s2" "B" 1; PublicPage.mkPSection "s1" "A" 0]).

Definition page_session : list PublicPage.PageEvent :=
  [PublicPage.StartForm;
   PublicPage.InputChange "q1" (JStr "a");
   PublicPage.NextSection true;
   PublicPage.InputChange "q2" (JNum 3);
   PublicPage.PreviousSection;
   PublicPage.NextSection true;
   PublicPage.NextSection true].

Definition page_after : PublicPage.PageState :=
  default PublicPage.initialPage
    (PublicPage.runPage two_sections_form PublicPage.initialPage page_session).

(** The component with three numbers typed, one of them unknown, and with
    the same number typed twice. *)
Definition typed_children : BCInput.BCState :=
  BCInput.mkBCState " BC001, BC009 ,BC002" [] [] [] false None None.

Definition typed_twice : BCInput.BCState :=
  BCInput.mkBCState "BC001, BC001" [] [] [] false None None.

(** A session with a choice question and an agreement-scale question,
    in which the options of the first are edited and the switch of the
    second is turned off. *)
Definition options_session : list (Builder.Op * string) :=
  [(Builder.AddQuestion (Some "radio") None "1001", "2001");
   (Builder.AddQuestion (Some "sls") None "1002", "2002");
   (Builder.UpdateQuestion "1001"
      (Builder.EditOptions (Some ["Yes"; "No"; "Maybe"])), "2003");
   (Builder.UpdateQuestion "1002" (Builder.EditRequired false), "2004");
   (Builder.CopyQuestion "1002" "1003", "2005")].

(** Two students of a class, one student without a class and one without
    a BC number. *)
Definition some_students : list Schema.Student :=
  [Schema.mkStudent "s1" (Some "BC1") (Some "Ali") None None (Some "P1") (Some "1A")
     (Some "JE") None None None None None None None "active" None None None None;
   Schema.mkStudent "s2" (Some "BC2") (Some "Siti") None None (Some "P1") None
     (Some "JE") None None None None None None None "active" None None None None;
   Schema.mkStudent "s3" None (Some "Tom") None None (Some "P1") (Some "1A")
     (Some "JE") None None None None None None None "active" None None None None;
   Schema.mkStudent "s4" (Some "BC4") (Some "Mei") None None (Some "P1") (Some "1A")
     (Some "JE") None None None None None None None "active" None None None None].

End MoreSamples.

(* ===================================================================== *)
(** * Properties *)
(* ===================================================================== *)

Import Storage Routes App StudentCSV.

(** ** Generic facts about the embedding *)

(** A parse result lists, column by column, what the validators made of the
    object's keys. *)
Lemma partial_parse_fields (o : gmap string JsVal) (p : PartialForm) :
  insertFormSchema_partial_parse o = Some p →
  zString (o !! "status") = Some (p_status p)
  ∧ zString (o !! "createdBy") = Some (p_createdBy p)
  ∧ zJson (o !! "questions") = Some (p_questions p)
  ∧ zJson (o !! "sections") = Some (p_sections p)
  ∧ zJson (o !! "previewQuestions") = Some (p_previewQuestions p)
  ∧ zJson (o !! "previewSections") = Some (p_previewSections p)
  ∧ zJson (o !! "publishedQuestions") = Some (p_publishedQuestions p)
  ∧ zJson (o !! "publishedSections") = Some (p_publishedSections p).
Proof.
  unfold insertFormSchema_partial_parse. intros H.
  simplify_option_eq. repeat split; reflexivity.
Qed.

(** The schema without [createdBy] never yields a [createdBy]. *)
Lemma omit_createdBy_strips (o : gmap string JsVal) (p : PartialForm) :
  insertFormSchema_partial_omit_createdBy_parse o = Some p →
  p_createdBy p = None.
Proof.
  unfold insertFormSchema_partial_omit_createdBy_parse. intros H.
  apply partial_parse_fields in H as (_ & H & _).
  rewrite lookup_delete_eq in H. simpl in H. congruence.
Qed.

Lemma omit_createdBy_fields (o : gmap string JsVal) (p : PartialForm) :
  insertFormSchema_partial_omit_createdBy_parse o = Some p →
  zString (o !! "status") = Some (p_status p)
  ∧ zJson (o !! "questions") = Some (p_questions p)
  ∧ zJson (o !! "sections") = Some (p_sections p)
  ∧ zJson (o !! "previewQuestions") = Some (p_previewQuestions p)
  ∧ zJson (o !! "previewSections") = Some (p_previewSections p)
  ∧ zJson (o !! "publishedQuestions") = Some (p_publishedQuestions p)
  ∧ zJson (o !! "publishedSections") = Some (p_publishedSections p).
Proof.
  unfold insertFormSchema_partial_omit_createdBy_parse. intros H.
  apply partial_parse_fields in H as (H1 & _ & H2 & H3 & H4 & H5 & H6 & H7).
  rewrite !lookup_delete_ne in * by done. done.
Qed.

(** *** Storage: what an update does to the table *)

Lemma updateForm_inv (fid : string) (p : PartialForm) (now : Z)
    (tbl tbl' : list Form) (f' : Form) :
  Storage.updateForm fid p now tbl = Some (f', tbl') →
  ∃ f, getFormById fid tbl = Some f
       ∧ f' = set_form p now f
       ∧ tbl' = (λ g, if bool_decide (id g = fid) then set_form p now g else g) <$> tbl.
Proof.
  unfold Storage.updateForm. intros H.
  destruct (getFormById fid tbl) as [f|] eqn:Hf; simpl in H; [|discriminate].
  destruct (formUrl_free _ _ _); [|discriminate].
  injection H as <- <-. eauto.
Qed.

Lemma getFormById_Some (fid : string) (tbl : list Form) (f : Form) :
  getFormById fid tbl = Some f → id f = fid ∧ f ∈ tbl.
Proof.
  unfold getFormById. intros H. apply head_Some_elem_of in H.
  apply list_elem_of_filter in H. tauto.
Qed.


Lemma set_form_id (p : PartialForm) (now : Z) (g : Form) :
  id (set_form p now g) = id g.
Proof. reflexivity. Qed.

(** A column that the update object leaves out keeps its value in every
    row. *)
Lemma update_keeps_column {A : Type} (col : Form → A) (fid : string)
    (p : PartialForm) (now : Z) (tbl : list Form) :
  (∀ g, col (set_form p now g) = col g) →
  col <$> ((λ g, if bool_decide (id g = fid) then set_form p now g else g) <$> tbl)
  = col <$> tbl.
Proof.
  intros Hcol. rewrite <- list_fmap_compose. apply list_fmap_ext.
  intros i g _. simpl. case_bool_decide; [apply Hcol|done].
Qed.

(** *** The update objects of the form routes *)

Lemma mappedData_lookup_dropped (body : gmap string Json) (k : string) :
  k ∈ ["questions"; "sections"; "status"] → mappedData body !! k = None.
Proof.
  intros Hk. unfold mappedData.
  assert (k ≠ "name" ∧ k ≠ "title") as [? ?].
  { repeat (apply elem_of_cons in Hk as [->|Hk]); [done..|]. by apply elem_of_nil in Hk. }
  destruct (body !! "title").
  - rewrite lookup_insert_ne by done. rewrite lookup_fmap.
    repeat (apply elem_of_cons in Hk as [->|Hk]);
      [| | |by apply elem_of_nil in Hk];
      repeat first [rewrite lookup_delete_eq | rewrite lookup_delete_ne by done]; done.
  - rewrite lookup_fmap.
    repeat (apply elem_of_cons in Hk as [->|Hk]);
      [| | |by apply elem_of_nil in Hk];
      repeat first [rewrite lookup_delete_eq | rewrite lookup_delete_ne by done]; done.
Qed.


Lemma saveUpdates_status (f : Form) (now : Z) (body : gmap string Json) :
  saveUpdates f now body !! "status" = None.
Proof.
  unfold saveUpdates. rewrite !lookup_insert_ne by done.
  apply mappedData_lookup_dropped. set_solver.
Qed.

(** A successful [PUT /api/forms/:id] stored [set_form] of a validated
    update object, built from the row found at the start. *)
Lemma updateFormRoute_Ok (userId fid : string) (now : Z)
    (body : gmap string Json) (tbl tbl' : list Form) (f' : Form) :
  updateFormRoute userId fid now body tbl = (Ok f', tbl') →
  ∃ f p,
    getFormById fid tbl = Some f
    ∧ createdBy f = userId
    ∧ insertFormSchema_partial_omit_createdBy_parse
        (if isPublishOperation body then publishUpdates f now body
         else saveUpdates f now body) = Some p
    ∧ f' = set_form p now f
    ∧ tbl' = (λ g, if bool_decide (id g = fid) then set_form p now g else g) <$> tbl.
Proof.
  unfold updateFormRoute. intros H.
  destruct (getFormById fid tbl) as [f|] eqn:Hf; [|discriminate].
  destruct (String.eqb (createdBy f) userId) eqn:Hown; simpl in H; [|discriminate].
  apply String.eqb_eq in Hown.
  destruct (insertFormSchema_partial_omit_createdBy_parse _) as [p|] eqn:Hp;
    [|discriminate].
  destruct (Storage.updateForm fid p now tbl) as [[f1 tbl1]|] eqn:Hu; [|discriminate].
  injection H as <- <-.
  apply updateForm_inv in Hu as (f0 & Hf0 & -> & ->).
  assert (f0 = f) as -> by congruence.
  exists f, p. done.
Qed.

(** Whatever the answer of [PUT /api/forms/:id], the table is either left
    alone or rewritten by one validated update object. *)
Lemma updateFormRoute_table (userId fid : string) (now : Z)
    (body : gmap string Json) (tbl : list Form) :
  (updateFormRoute userId fid now body tbl).2 = tbl
  ∨ ∃ f p,
      getFormById fid tbl = Some f
      ∧ insertFormSchema_partial_omit_createdBy_parse
          (if isPublishOperation body then publishUpdates f now body
           else saveUpdates f now body) = Some p
      ∧ (updateFormRoute userId fid now body tbl).2
        = (λ g, if bool_decide (id g = fid) then set_form p now g else g) <$> tbl.
Proof.
  destruct (updateFormRoute userId fid now body tbl) as [r tbl'] eqn:H.
  destruct r as [f'|code].
  - right. apply updateFormRoute_Ok in H as (f & p & ? & ? & ? & ? & ?).
    exists f, p. done.
  - left. unfold updateFormRoute in H.
    repeat match type of H with
           | context [match ?x with _ => _ end] => destruct x
           | context [if ?x then _ else _] => destruct x
           end; simplify_eq/=; done.
Qed.

Lemma preparePreviewRoute_table (userId fid : string) (now : Z)
    (tbl : list Form) :
  (preparePreviewRoute userId fid now tbl).2 = tbl
  ∨ ∃ f p,
      getFormById fid tbl = Some f
      ∧ insertFormSchema_partial_omit_createdBy_parse
          (<["lastSavedAt" := VDate now]>
           (<["previewSections" := VJson (sections f)]>
           (<["previewQuestions" := VJson (questions f)]> ∅))) = Some p
      ∧ (preparePreviewRoute userId fid now tbl).2
        = (λ g, if bool_decide (id g = fid) then set_form p now g else g) <$> tbl.
Proof.
  unfold preparePreviewRoute.
  destruct (getFormById fid tbl) as [f|] eqn:Hf; [|by left].
  destruct (negb _); [by left|].
  destruct (insertFormSchema_partial_omit_createdBy_parse _) as [p|] eqn:Hp; [|by left].
  destruct (Storage.updateForm fid p now tbl) as [[f1 tbl1]|] eqn:Hu; [|by left].
  right. apply updateForm_inv in Hu as (f0 & Hf0 & -> & ->).
  exists f, p. done.
Qed.

(** ** Form lifecycle *)



(** Publishing an owned form goes through whenever the update object
    validates and the slug stays unique. *)
Lemma publish_succeeds (userId fid : string) (now : Z)
    (body : gmap string Json) (tbl : list Form) (f : Form) (p : PartialForm) :
  getFormById fid tbl = Some f →
  createdBy f = userId →
  isPublishOperation body = true →
  insertFormSchema_partial_omit_createdBy_parse (publishUpdates f now body) = Some p →
  formUrl_free fid (formUrl (set_form p now f)) tbl = true →
  ∃ tbl', updateFormRoute userId fid now body tbl = (Ok (set_form p now f), tbl').
Proof.
  intros Hf Hown Hpub Hp Hfree. unfold updateFormRoute.
  rewrite Hf, Hpub, Hp. rewrite <- Hown, String.eqb_refl. simpl.
  unfold Storage.updateForm. rewrite Hf. cbn -[set_form formUrl_free].
  rewrite Hfree. eauto.
Qed.

(** C3, as the code has it. Saving working content and preparing a preview
    leave the status of every form as it was, so neither can activate a
    form; a created form carries the status of the creation body when that
    body has a [status] string, and ['draft'] when it has no [status]
    key. *)
Theorem status_changes_only_by_publish_or_creation_body
    (userId fid : string) (now : Z) (body : gmap string Json) (tbl : list Form) :
  (isPublishOperation body = false →
   status <$> (updateFormRoute userId fid now body tbl).2 = status <$> tbl)
  ∧ status <$> (preparePreviewRoute userId fid now tbl).2 = status <$> tbl
  ∧ (∀ f tbl',
       createFormRoute userId now body tbl = (Ok f, tbl') →
       tbl' = tbl ++ [f]
       ∧ match body !! "status" with
         | Some (JStr s) => status f = s
         | Some _ => False
         | None => status f = "draft"
         end).
Proof.
  repeat split.
  - intros Hsave.
    destruct (updateFormRoute_table userId fid now body tbl)
      as [->|(f & p & Hf & Hp & ->)]; [done|].
    rewrite Hsave in Hp.
    apply omit_createdBy_fields in Hp as (Hst & _).
    rewrite saveUpdates_status in Hst. simpl in Hst. injection Hst as Hst.
    apply update_keeps_column. intros g. unfold set_form; simpl.
    by rewrite <- Hst.
  - destruct (preparePreviewRoute_table userId fid now tbl)
      as [->|(f & p & Hf & Hp & ->)]; [done|].
    apply omit_createdBy_fields in Hp as (Hst & _).
    rewrite !lookup_insert_ne in Hst by done.
    rewrite lookup_empty in Hst. simpl in Hst. injection Hst as Hst.
    apply update_keeps_column. intros g. unfold set_form; simpl.
    by rewrite <- Hst.
  - unfold createFormRoute in H.
    destruct (insertFormSchema_parse _) as [p|] eqn:Hp; [|discriminate].
    destruct (Storage.createForm now p tbl) as [[f1 tbl1]|] eqn:Hc; [|discriminate].
    injection H as <- <-.
    unfold Storage.createForm in Hc.
    destruct (p_name p); simpl in Hc; [|discriminate].
    destruct (p_createdBy p); simpl in Hc; [|discriminate].
    destruct (formUrl_free _ _ _); [|discriminate].
    by injection Hc as <- <-.
  - unfold createFormRoute in H.
    destruct (insertFormSchema_parse _) as [p|] eqn:Hp; [|discriminate].
    destruct (Storage.createForm now p tbl) as [[f1 tbl1]|] eqn:Hc; [|discriminate].
    injection H as <- <-.
    unfold insertFormSchema_parse in Hp.
    destruct (insertFormSchema_partial_parse _) as [p0|] eqn:Hp0; simpl in Hp;
      [|discriminate].
    destruct (_ && _)%bool; [|discriminate]. injection Hp as ->.
    apply partial_parse_fields in Hp0 as (Hst & _).
    rewrite lookup_insert_ne in Hst by done.
    assert (∀ m : gmap string JsVal,
              (match body !! "title" with
               | Some t => <["name" := VJson t]> m
               | None => delete "name" m
               end) !! "status" = m !! "status") as Hnamed.
    { intros m. destruct (body !! "title");
        [by rewrite lookup_insert_ne|by rewrite lookup_delete_ne]. }
    rewrite Hnamed, lookup_fmap, lookup_delete_ne in Hst by done.
    unfold Storage.createForm in Hc.
    destruct (p_name p); simpl in Hc; [|discriminate].
    destruct (p_createdBy p); simpl in Hc; [|discriminate].
    destruct (formUrl_free _ _ _); [|discriminate].
    injection Hc as <- <-. simpl.
    destruct (body !! "status") as [[]|]; simpl in Hst; simplify_eq;
      by rewrite <- Hst.
Qed.

Lemma status_changes_only_by_publish_or_creation_body_witness :
  status <$> (updateFormRoute "u1" "f1" 9 Samples.takeover_body Samples.forms_table).2
  = ["draft"; "draft"].
Proof.
  exact (proj1 (status_changes_only_by_publish_or_creation_body
                  "u1" "f1" 9 Samples.takeover_body Samples.forms_table) eq_refl).
Defined.

(** C3, as stated, fails: a creation body with [status: 'active'] yields a
    new form that is active without any publish. *)
Lemma created_form_can_be_active :
  ∃ f tbl',
    createFormRoute "u1" 0 Samples.active_creation_body [] = (Ok f, tbl')
    ∧ status f = "active" ∧ status f ≠ "draft".
Proof.
  eexists _, _. split; [vm_compute; reflexivity|]. split; [reflexivity|discriminate].
Qed.

(** C10. The update paths (save, publish, prepare preview) never change who
    owns a form: whatever the request body holds, a validated update object
    has no [createdBy], and after either route every row has the id and the
    owner it had before. *)
Theorem update_paths_preserve_createdBy
    (userId fid : string) (now : Z) (body : gmap string Json) (tbl : list Form) :
  (∀ o p, insertFormSchema_partial_omit_createdBy_parse o = Some p →
          p_createdBy p = None)
  ∧ (λ f, (id f, createdBy f)) <$> (updateFormRoute userId fid now body tbl).2
    = (λ f, (id f, createdBy f)) <$> tbl
  ∧ (λ f, (id f, createdBy f)) <$> (preparePreviewRoute userId fid now tbl).2
    = (λ f, (id f, createdBy f)) <$> tbl.
Proof.
  split; [apply omit_createdBy_strips|]. split.
  - destruct (updateFormRoute_table userId fid now body tbl)
      as [->|(f & p & Hf & Hp & ->)]; [done|].
    apply omit_createdBy_strips in Hp.
    apply update_keeps_column. intros g. unfold set_form; simpl.
    by rewrite Hp.
  - destruct (preparePreviewRoute_table userId fid now tbl)
      as [->|(f & p & Hf & Hp & ->)]; [done|].
    apply omit_createdBy_strips in Hp.
    apply update_keeps_column. intros g. unfold set_form; simpl.
    by rewrite Hp.
Qed.

(** A save whose body names another owner is accepted, and the owner
    stays. *)
Example takeover_attempt_ignored :
  createdBy <$> (updateFormRoute "u1" "f1" 9 Samples.takeover_body Samples.forms_table).2
  = ["u1"; "u1"]
  ∧ ∃ f, (updateFormRoute "u1" "f1" 9 Samples.takeover_body Samples.forms_table).1 = Ok f.
Proof. split; [vm_compute; reflexivity|]. eexists. vm_compute. reflexivity. Qed.

(** ** Student import and lookup *)

Import Spec.

Lemma NoDup_fmap_eq {A B : Type} (f : A → B) (l : list A) (x y : A) :
  NoDup (f <$> l) → x ∈ l → y ∈ l → f x = f y → x = y.
Proof.
  induction l as [|a l IH]; intros Hnd Hx Hy Hf; [by apply elem_of_nil in Hx|].
  rewrite fmap_cons in Hnd. apply NoDup_cons in Hnd as [Ha Hnd].
  apply elem_of_cons in Hx as [->|Hx]; apply elem_of_cons in Hy as [->|Hy].
  - done.
  - exfalso. apply Ha. rewrite Hf. by apply list_elem_of_fmap_2.
  - exfalso. apply Ha. rewrite <- Hf. by apply list_elem_of_fmap_2.
  - by apply IH.
Qed.

Lemma filter_fmap_commute {A : Type} (P : A → Prop) `{!∀ x, Decision (P x)}
    (f : A → A) (l : list A) :
  (∀ x, x ∈ l → P (f x) ↔ P x) →
  filter P (f <$> l) = f <$> filter P l.
Proof.
  induction l as [|a l IH]; intros HP; [done|].
  rewrite fmap_cons, !filter_cons.
  rewrite IH by (intros x Hx; apply HP; by right).
  assert (P (f a) ↔ P a) as Ha by (apply HP; by left).
  destruct (decide (P a)) as [Hp|Hp].
  - rewrite decide_True by (by apply Ha). done.
  - rewrite decide_False by (by rewrite Ha). done.
Qed.

Lemma omap_fmap_same {A B : Type} (f : A → option B) (u : A → A) (l : list A) :
  (∀ x, x ∈ l → f (u x) = f x) → omap f (u <$> l) = omap f l.
Proof.
  induction l as [|a l IH]; intros Hf; [done|].
  rewrite fmap_cons. csimpl. rewrite Hf by (by left).
  destruct (f a); csimpl; rewrite IH by (intros x Hx; apply Hf; by right); done.
Qed.

Lemma students_wf_same_bc (tbl : list Student) (x y : Student) (bc : string) :
  students_wf tbl → x ∈ tbl → y ∈ tbl →
  student_BC x = Some bc → student_BC y = Some bc → x = y.
Proof.
  intros [_ Hbc]. revert x y.
  induction tbl as [|a tbl IH]; intros x y Hx Hy Ex Ey; [by apply elem_of_nil in Hx|].
  assert (∀ z, z ∈ tbl → student_BC z = Some bc → bc ∈ omap student_BC tbl) as Hin.
  { intros z Hz Ez. apply list_elem_of_omap. eauto. }
  apply elem_of_cons in Hx as [->|Hx]; apply elem_of_cons in Hy as [->|Hy].
  - done.
  - exfalso. simpl in Hbc. rewrite Ex in Hbc. apply NoDup_cons in Hbc as [Hn _]. eauto.
  - exfalso. simpl in Hbc. rewrite Ey in Hbc. apply NoDup_cons in Hbc as [Hn _]. eauto.
  - apply IH; try done. simpl in Hbc. destruct (student_BC a); [|done].
    by apply NoDup_cons in Hbc as [_ ?].
Qed.

(** With unique BC numbers, the rows carrying [bc] are the looked-up one. *)
Lemma filter_bc_singleton (tbl : list Student) (bc : string) (ex : Student) :
  students_wf tbl →
  getStudentByStudentId (Some bc) tbl = Some ex →
  filter (λ s, student_BC s = Some bc) tbl = [ex].
Proof.
  intros Hwf Hex. simpl in Hex.
  assert (NoDup (filter (λ s, student_BC s = Some bc) tbl)) as Hnd.
  { apply NoDup_filter. destruct Hwf as [Hid _]. by apply NoDup_fmap_1 in Hid. }
  destruct (filter _ tbl) as [|a [|b l]] eqn:Hfl; [done|by simplify_eq/=|].
  exfalso.
  assert (a ∈ filter (λ s, student_BC s = Some bc) tbl) as Ha
    by (rewrite Hfl; by left).
  assert (b ∈ filter (λ s, student_BC s = Some bc) tbl) as Hb
    by (rewrite Hfl; right; by left).
  apply list_elem_of_filter in Ha as [Ea Ha], Hb as [Eb Hb].
  assert (a = b) as <- by (eapply students_wf_same_bc; eauto).
  apply NoDup_cons in Hnd as [Hn _]. apply Hn. by left.
Qed.

Lemma head_filter_id (tbl : list Student) (ex : Student) :
  students_wf tbl → ex ∈ tbl →
  head (filter (λ s, s_id s = s_id ex) tbl) = Some ex.
Proof.
  intros [Hid _] Hex.
  destruct (filter _ tbl) as [|a l] eqn:Hfl.
  - exfalso. eapply (filter_nil_not_elem_of (λ s, s_id s = s_id ex)); eauto.
  - simpl. f_equal.
    assert (a ∈ filter (λ s, s_id s = s_id ex) tbl) as Ha by (rewrite Hfl; by left).
    apply list_elem_of_filter in Ha as [Ea Ha].
    by eapply (NoDup_fmap_eq s_id).
Qed.

Lemma set_student_supplies (r : InsertStudent) (s : Student) :
  supplies r (set_student r s).
Proof.
  unfold supplies, carried, set_student; simpl.
  repeat split; intros v ->; reflexivity.
Qed.

Lemma or_keep_carried {A : Type} (x y : option A) :
  carried x y → or_keep x y = y.
Proof. unfold carried. destruct x as [v|]; [|done]. intros H. symmetry. by apply H. Qed.

Lemma set_student_fixed (r : InsertStudent) (s : Student) :
  supplies r s → set_student r s = s.
Proof.
  unfold supplies.
  intros (H1 & H2 & H3 & H4 & H5 & H6 & H7 & H8 & H9 & H10 & H11 & H12 & H13
          & H14 & H15 & H16 & H17).
  destruct s. unfold set_student. cbn [s_id student_BC fullName dateOfBirth
    gender level class centre guardianName guardianEmail guardianPhone address
    emergencyContact emergencyPhone medicalInfo s_status additionalData
    s_createdBy s_createdAt s_updatedAt] in *.
  rewrite !or_keep_carried by assumption.
  f_equal. unfold carried in H15. destruct (i_status r) as [v|]; [|done].
  specialize (H15 v eq_refl). by simplify_eq.
Qed.

(** What one row does to a well-formed table: it always commits, the table
    stays well formed, the stored record has the row's values, and it is
    the only one with the row's BC number. *)
(** An update object with a BC number has a column. *)
Lemma noColumns_bc (r : InsertStudent) (bc : string) :
  i_student_BC r = Some bc → noColumns r = false.
Proof. intros Hbc. unfold noColumns. by rewrite Hbc. Qed.

Lemma noColumns_found (r : InsertStudent) (tbl : list Student) (ex : Student) :
  getStudentByStudentId (i_student_BC r) tbl = Some ex → noColumns r = false.
Proof.
  intros Hex. destruct (i_student_BC r) as [bc|] eqn:Hbc; [|discriminate Hex].
  by apply (noColumns_bc r bc).
Qed.

Lemma updateStudent_columns (sid : string) (r : InsertStudent) (tbl : list Student) :
  noColumns r = false →
  updateStudent sid r tbl
  = (s ← head (filter (λ s, s_id s = sid) tbl);
     let s' := set_student r s in
     if student_BC_free sid (student_BC s') tbl
     then Some (s', (λ g, if bool_decide (s_id g = sid) then set_student r g else g)
                      <$> tbl)
     else None).
Proof. intros Hr. unfold updateStudent. by rewrite Hr. Qed.

Lemma upsertStudent_spec (now : Z) (r : InsertStudent) (tbl : list Student) :
  students_wf tbl →
  ∃ s tbl',
    upsertStudent now r tbl = Some (s, tbl')
    ∧ students_wf tbl'
    ∧ supplies r s
    ∧ (∀ bc, i_student_BC r = Some bc →
             filter (λ s, student_BC s = Some bc) tbl' = [s])
    ∧ (is_Some (getStudentByStudentId (i_student_BC r) tbl) →
       ∀ now', upsertStudent now' r tbl = Some (s, tbl')).
Proof.
  intros Hwf. unfold upsertStudent.
  destruct (getStudentByStudentId (i_student_BC r) tbl) as [ex|] eqn:Hex.
  - (* the BC number is known: update *)
    destruct (i_student_BC r) as [bc|] eqn:Hbc; [|discriminate].
    pose proof (filter_bc_singleton _ _ _ Hwf Hex) as Hfl.
    assert (ex ∈ tbl ∧ student_BC ex = Some bc) as [Hin Ebc].
    { assert (ex ∈ filter (λ s, student_BC s = Some bc) tbl) as H
        by (rewrite Hfl; by left).
      apply list_elem_of_filter in H. tauto. }
    rewrite updateStudent_columns by (by apply (noColumns_bc r bc)).
    rewrite head_filter_id by done.
    cbn -[set_student student_BC_free].
    assert (student_BC (set_student r ex) = Some bc) as Ebc'
      by (unfold set_student; simpl; by rewrite Hbc).
    rewrite Ebc'.
    assert (student_BC_free (s_id ex) (Some bc) tbl = true) as ->.
    { unfold student_BC_free. apply bool_decide_eq_true, Forall_forall.
      intros s Hs. destruct (decide (student_BC s = Some bc)) as [E|E]; [|by right].
      left. f_equal. eapply students_wf_same_bc; eauto. }
    set (u := λ g, if bool_decide (s_id g = s_id ex) then set_student r g else g).
    assert (∀ g, g ∈ tbl → student_BC (u g) = student_BC g) as Hubc.
    { intros g Hg. unfold u. case_bool_decide as E; [|done].
      destruct Hwf as [Hid _].
      assert (g = ex) as -> by (by eapply (NoDup_fmap_eq s_id)). congruence. }
    assert (∀ g, s_id (u g) = s_id g) as Huid.
    { intros g. unfold u. by case_bool_decide. }
    assert (u ex = set_student r ex) as Huex.
    { unfold u. by rewrite bool_decide_true. }
    eexists _, _. split; [reflexivity|]. split; [|split; [|split]].
    + destruct Hwf as [Hid Hb]. split.
      * rewrite <- list_fmap_compose.
        erewrite list_fmap_ext; [exact Hid|]. intros i g _. apply Huid.
      * by rewrite omap_fmap_same.
    + apply set_student_supplies.
    + intros bc' [= <-].
      rewrite filter_fmap_commute.
      * by rewrite Hfl, fmap_cons, Huex.
      * intros g Hg. by rewrite Hubc.
    + done.
  - (* unknown BC number: insert *)
    unfold createStudent. cbn [student_BC].
    set (newId := fresh (s_id <$> tbl)).
    assert (newId ∉ (s_id <$> tbl)) as Hfresh by apply infinite_is_fresh.
    assert (∀ bc, i_student_BC r = Some bc →
                  filter (λ s, student_BC s = Some bc) tbl = []) as Hnone.
    { intros bc Hbc. rewrite Hbc in Hex. simpl in Hex.
      by destruct (filter _ tbl). }
    assert (student_BC_free newId (i_student_BC r) tbl = true) as ->.
    { unfold student_BC_free. destruct (i_student_BC r) as [bc|] eqn:Hbc; [|done].
      apply bool_decide_eq_true, Forall_forall. intros s Hs. right. intros E.
      eapply (filter_nil_not_elem_of (λ s, student_BC s = Some bc)); eauto. }
    eexists _, _. split; [reflexivity|]. split; [|split; [|split]].
    + destruct Hwf as [Hid Hb]. split.
      * rewrite fmap_app. apply NoDup_app. split; [done|]. split.
        -- intros x Hx Hx'. apply list_elem_of_singleton in Hx'. simpl in Hx'.
           by subst.
        -- apply NoDup_singleton.
      * rewrite omap_app. simpl. destruct (i_student_BC r) as [bc|] eqn:Hbc.
        -- apply NoDup_app. split; [done|]. split; [|apply NoDup_singleton].
           intros x Hx Hx'. apply list_elem_of_singleton in Hx'. subst.
           apply list_elem_of_omap in Hx as (s & Hs & E).
           eapply (filter_nil_not_elem_of (λ s, student_BC s = Some bc)); eauto.
        -- by rewrite app_nil_r.
    + unfold supplies, carried; simpl.
      repeat split; try (intros v ->; reflexivity).
    + intros bc Hbc. rewrite filter_app, (Hnone _ Hbc). simpl.
      rewrite filter_cons, decide_True by done. done.
    + intros [? [=]].
Qed.

Lemma surviving_fmap {A B : Type} (f : A → B) (fault : nat → bool) (i : nat)
    (rows : list A) :
  surviving fault i (f <$> rows) = f <$> surviving fault i rows.
Proof.
  revert i. induction rows as [|r rows IH]; intros i; [done|].
  rewrite fmap_cons. simpl. destruct (fault i); [apply IH|].
  rewrite fmap_cons. f_equal. apply IH.
Qed.

(** The loop commits exactly the rows during which the database did not
    fail, as if the others had not been in the batch. *)
Lemma bulkLoop_surviving (fault : nat → bool) (now : Z) (rows : list InsertStudent) :
  ∀ (i : nat) (results tbl : list Student),
    students_wf tbl →
    ∃ created tbl',
      bulkLoop fault now i rows results tbl = (results ++ created, tbl')
      ∧ students_wf tbl'
      ∧ Forall2 supplies (surviving fault i rows) created
      ∧ ∀ j, bulkLoop (λ _, false) now j (surviving fault i rows) results tbl
             = (results ++ created, tbl').
Proof.
  induction rows as [|r rows IH]; intros i results tbl Hwf.
  - exists [], tbl. simpl. rewrite app_nil_r.
    split; [done|]. split; [done|]. split; [constructor|done].
  - simpl. destruct (fault i) eqn:Hfault.
    + apply IH, Hwf.
    + destruct (upsertStudent_spec now r tbl Hwf) as (s & tbl1 & Hup & Hwf1 & Hs & _).
      rewrite Hup.
      destruct (IH (S i) (results ++ [s]) tbl1 Hwf1)
        as (created & tbl' & Hloop & Hwf' & Hall & Hno).
      exists (s :: created), tbl'.
      rewrite Hloop, <- app_assoc. simpl.
      split; [done|]. split; [done|]. split; [by constructor|].
      intros j. rewrite Hup, Hno, <- app_assoc. done.
Qed.

(** C4. Committing two valid rows with the same BC number, in one batch or
    in two successive batches, ends in the same table, in which exactly one
    record carries that BC number, with the later row's value in every field
    that row supplies; committing the same row twice leaves the table that
    one commit leaves. *)
Theorem bulk_import_idempotent_on_student_BC
    (userId : string) (now1 now2 : Z) (r1 r2 : InsertStudent) (bc : string)
    (tbl : list Student) :
  students_wf tbl →
  i_student_BC r1 = Some bc →
  i_student_BC r2 = Some bc →
  let nofault := λ _ : nat, false in
  let first := (studentsBulkRoute nofault userId now1 [r1] tbl).2 in
  let one_batch := (studentsBulkRoute nofault userId now1 [r1; r2] tbl).2 in
  let two_batches := (studentsBulkRoute nofault userId now2 [r2] first).2 in
  one_batch = two_batches
  ∧ (∃ s, filter (λ s, student_BC s = Some bc) one_batch = [s]
          ∧ supplies (withCreator userId r2) s)
  ∧ (r1 = r2 → one_batch = first).
Proof.
  intros Hwf Hbc1 Hbc2 nofault first one_batch two_batches.
  subst first one_batch two_batches nofault.
  unfold studentsBulkRoute, bulkCreateStudents. simpl.
  destruct (upsertStudent_spec now1 (withCreator userId r1) tbl Hwf)
    as (s1 & tbl1 & Hup1 & Hwf1 & Hs1 & Hone1 & _).
  rewrite Hup1. simpl.
  specialize (Hone1 bc Hbc1).
  destruct (upsertStudent_spec now1 (withCreator userId r2) tbl1 Hwf1)
    as (s2 & tbl2 & Hup2 & Hwf2 & Hs2 & Hone2 & Hnow).
  assert (getStudentByStudentId (Some bc) tbl1 = Some s1) as Hget
    by (simpl; by rewrite Hone1).
  rewrite Hup2. rewrite (Hnow ltac:(simpl; rewrite Hbc2; eauto) now2). simpl.
  split; [done|]. split.
  - exists s2. split; [by apply Hone2|done].
  - intros <-.
    unfold upsertStudent in Hup2. simpl in Hup2. rewrite Hbc1, Hget in Hup2.
    rewrite updateStudent_columns in Hup2 by (by apply (noColumns_bc _ bc)).
    assert (s1 ∈ tbl1) as Hin.
    { assert (s1 ∈ filter (λ s, student_BC s = Some bc) tbl1) as H
        by (rewrite Hone1; by left).
      apply list_elem_of_filter in H. tauto. }
    rewrite head_filter_id in Hup2 by done. cbn -[set_student student_BC_free] in Hup2.
    destruct (student_BC_free _ _ _); [|discriminate].
    injection Hup2 as _ <-.
    transitivity (Datatypes.id <$> tbl1); [|apply list_fmap_id].
    apply list_fmap_ext.
    intros i g Hg. simpl. case_bool_decide as E; [|done].
    assert (g = s1) as ->.
    { destruct Hwf1 as [Hid _]. eapply (NoDup_fmap_eq s_id); eauto.
      eapply list_elem_of_lookup_2; eauto. }
    by apply set_student_fixed.
Qed.

Lemma bulk_import_idempotent_on_student_BC_witness :
  let nofault := λ _ : nat, false in
  let first := (studentsBulkRoute nofault "u1" 1 [Samples.row_first] []).2 in
  let one_batch :=
    (studentsBulkRoute nofault "u1" 1 [Samples.row_first; Samples.row_later] []).2 in
  let two_batches := (studentsBulkRoute nofault "u1" 2 [Samples.row_later] first).2 in
  one_batch = two_batches
  ∧ (∃ s, filter (λ s, student_BC s = Some "A1") one_batch = [s]
          ∧ supplies (withCreator "u1" Samples.row_later) s)
  ∧ (Samples.row_first = Samples.row_later → one_batch = first).
Proof.
  apply (bulk_import_idempotent_on_student_BC "u1" 1 2 Samples.row_first
           Samples.row_later "A1" []);
    [split; apply NoDup_nil_2|reflexivity|reflexivity].
Defined.

(** The record left by the two sample rows: the later name, and the level
    only the first row supplied. *)
Example later_row_wins :
  (λ s, (student_BC s, fullName s, level s))
    <$> (studentsBulkRoute (λ _, false) "u1" 1
           [Samples.row_first; Samples.row_later] []).2
  = [(Some "A1", Some "Jane Doe", Some "P1")].
Proof. vm_compute. reflexivity. Qed.

(** C5, as the code has it. For a non-empty batch on a well-formed table the
    route answers with the committed records and a message carrying their
    number; a database failure on one row is skipped and every other row is
    committed: the records and the table are those of committing, without
    any failure, only the rows during which the database did not fail, each
    record carrying the values of its row. *)
Theorem bulk_import_isolates_row_failures
    (fault : nat → bool) (userId : string) (now : Z)
    (rows : list InsertStudent) (tbl : list Student) :
  students_wf tbl →
  rows ≠ [] →
  ∃ created tbl',
    studentsBulkRoute fault userId now rows tbl
    = (Ok (mkBulkResponse
             ("Successfully imported " +:+ pretty (length created) +:+ " students")
             created),
       tbl')
    ∧ students_wf tbl'
    ∧ Forall2 supplies (withCreator userId <$> surviving fault 0 rows) created
    ∧ bulkCreateStudents (λ _, false) now
        (withCreator userId <$> surviving fault 0 rows) tbl
      = (created, tbl').
Proof.
  intros Hwf Hne. unfold studentsBulkRoute.
  destruct rows as [|r rows]; [done|].
  destruct (bulkLoop_surviving fault now (withCreator userId <$> r :: rows) 0 [] tbl Hwf)
    as (created & tbl' & Hloop & Hwf' & Hall & Hno).
  rewrite surviving_fmap in Hall, Hno.
  set (kept := withCreator userId <$> surviving fault 0 (r :: rows)) in *.
  exists created, tbl'.
  unfold bulkCreateStudents at 1. rewrite fmap_cons in Hloop |- *.
  rewrite Hloop. cbn [app length].
  split; [done|]. split; [done|]. split; [done|].
  unfold bulkCreateStudents. specialize (Hno 0%nat).
  destruct kept; [|done]. simpl in Hno. done.
Qed.

Lemma bulk_import_isolates_row_failures_witness :
  ∃ created tbl',
    studentsBulkRoute Samples.second_row_fails "u1" 1
      [Samples.row_first; Samples.row_later; Samples.row_other] []
    = (Ok (mkBulkResponse
             ("Successfully imported " +:+ pretty (length created) +:+ " students")
             created),
       tbl')
    ∧ students_wf tbl'
    ∧ Forall2 supplies
        (withCreator "u1" <$> surviving Samples.second_row_fails 0
           [Samples.row_first; Samples.row_later; Samples.row_other]) created
    ∧ bulkCreateStudents (λ _, false) 1
        (withCreator "u1" <$> surviving Samples.second_row_fails 0
           [Samples.row_first; Samples.row_later; Samples.row_other]) []
      = (created, tbl').
Proof.
  apply (bulk_import_isolates_row_failures Samples.second_row_fails "u1" 1
           [Samples.row_first; Samples.row_later; Samples.row_other] []);
    [split; apply NoDup_nil_2|discriminate].
Defined.

(** With the second row failing, the first and the third are committed. *)
Example failed_row_is_skipped :
  (λ s, (student_BC s, fullName s))
    <$> (studentsBulkRoute Samples.second_row_fails "u1" 1
           [Samples.row_first; Samples.row_later; Samples.row_other] []).2
  = [(Some "A1", Some "Jane"); (Some "B2", Some "Omar")].
Proof. vm_compute. reflexivity. Qed.

(** C5, as stated, fails on the tally: a batch of two rows one of which
    fails and a batch of the one row that commits get the same answer and
    leave the same table, so the answer tells neither the total nor the
    number of rows that failed. *)
Lemma bulk_answer_has_no_tally :
  studentsBulkRoute Samples.second_row_fails "u1" 1
    [Samples.row_first; Samples.row_other] []
  = studentsBulkRoute (λ _, false) "u1" 1 [Samples.row_first] []
  ∧ length [Samples.row_first; Samples.row_other] ≠ length [Samples.row_first].
Proof. split; [vm_compute; reflexivity|discriminate]. Qed.

(** *** Identifier lookup *)

Lemma lookup_found_bc (tbl : list Student) (bc : string) (s : Student) :
  getStudentByStudentId (Some bc) tbl = Some s → student_BC s = Some bc.
Proof.
  simpl. intros H. apply head_Some_elem_of, list_elem_of_filter in H. tauto.
Qed.

Ltac decide_verdicts :=
  repeat match goal with
         | |- context [decide (?a = ?b)] =>
             first [rewrite (decide_True (P := a = b)) by done
                   |rewrite (decide_False (P := a = b)) by done]
         end.

(** The query of the route and the store of the specification agree on
    which identifiers exist. *)
Lemma known_code (tbl : list Student) (bc : string) :
  known tbl bc = bool_decide (is_Some (getStudentByStudentId (Some bc) tbl)).
Proof.
  unfold known. cbn [getStudentByStudentId].
  apply bool_decide_ext. rewrite list_elem_of_fmap. split.
  - intros (s & Hs & Hin).
    destruct (head (filter (λ s, student_BC s = Some bc) tbl)) eqn:Hh; [done|].
    apply head_None in Hh.
    assert (s ∈ filter (λ s, student_BC s = Some bc) tbl) as Hf
      by (by apply list_elem_of_filter).
    rewrite Hh in Hf. by apply elem_of_nil in Hf.
  - intros [s Hs]. apply head_Some_elem_of, list_elem_of_filter in Hs as [Hbc Hin].
    by exists s.
Qed.

Lemma getForm_code (fid : string) (forms : list Form) :
  getForm fid forms = form_with_id fid forms.
Proof.
  unfold getForm, getFormById. induction forms as [|f forms IH]; [done|].
  rewrite filter_cons. cbn [form_with_id].
  destruct (decide (id f = fid)); [done|]. exact IH.
Qed.

Lemma json_get_code (key : string) (kvs : list (string * Json)) :
  json_get key (JObj kvs) = entry key kvs.
Proof.
  unfold json_get. induction kvs as [|[k v] kvs IH]; [done|].
  rewrite filter_cons. cbn [entry fst].
  destruct (decide (k = key)); [done|]. exact IH.
Qed.

Lemma includes_code (l : list Json) (bc : string) :
  existsb (λ j, match j with JStr s => String.eqb s bc | _ => false end) l
  = bool_decide (bc ∈ omap (λ j, match j with JStr s => Some s | _ => None end) l).
Proof.
  induction l as [|j l IH]; [done|].
  cbn [existsb omap list_omap]. rewrite IH. clear IH.
  destruct j as [|b|n|s|l'|kvs]; cbn [orb]; try done.
  destruct (String.eqb_spec s bc) as [->|Hne]; cbn [orb].
  - symmetry. apply bool_decide_eq_true. apply list_elem_of_here.
  - apply bool_decide_ext. rewrite elem_of_cons. intuition congruence.
Qed.

Ltac no_allow_list :=
  cbn [fst snd json_get length Nat.eqb negb respondents_nonempty Nat.ltb Nat.leb];
  rewrite andb_false_r;
  split; [by repeat (destruct (String.eqb _ _))|done].

(** What the route reads of the form, against the allow-list of the
    specification: for settings that hold a list or no allow-list, the
    test of the loop is [check_applies], and [includes] is membership. *)
Lemma lookupContext_code (compare : Json → option bool)
    (formId : option string) (forms : list Form) :
  (∀ form, named_form formId forms = Some form → allow_list_wf form) →
  (if String.eqb (lookupContext formId forms).2 "parents_survey"
   then respondents_nonempty compare (lookupContext formId forms).1
   else Some false) = Some (check_applies formId forms)
  ∧ (check_applies formId forms = true →
     ∀ bc, respondents_include (lookupContext formId forms).1 bc
           = Some (on_allow_list formId forms bc)).
Proof.
  intros Hwf. unfold lookupContext, check_applies, on_allow_list, named_form in *.
  destruct formId as [fid|]; [|done].
  change (default "" (Some fid)) with fid. cbn [str_truthy].
  destruct (String.eqb_spec fid "") as [->|Hfid]; cbn [negb].
  { rewrite decide_True by done. done. }
  rewrite decide_False in * by done. rewrite getForm_code.
  destruct (form_with_id fid forms) as [form|]; [|done].
  specialize (Hwf form eq_refl).
  unfold allow_list_wf, allowed, allow_list, stored_allow_list,
    selectedRespondentsOf in *.
  destruct (settings form) as [|b|n|s|l|kvs] eqn:Hset; cbn [truthy].
  - no_allow_list.
  - destruct b; no_allow_list.
  - destruct (Z.eqb n 0); no_allow_list.
  - destruct (String.eqb s ""); no_allow_list.
  - no_allow_list.
  - rewrite json_get_code. cbn [fst snd str_truthy].
    assert (String.eqb
              (if negb (String.eqb (formType form) "") then formType form
               else "general") "parents_survey"
            = bool_decide (formType form = "parents_survey")) as ->.
    { destruct (String.eqb_spec (formType form) "") as [He|He]; cbn [negb].
      - rewrite He. done.
      - destruct (String.eqb_spec (formType form) "parents_survey");
          [by rewrite bool_decide_true|by rewrite bool_decide_false]. }
    destruct (bool_decide (formType form = "parents_survey")); cbn [andb]; [|done].
    destruct (entry "selectedRespondents" kvs) as [[|b|n|s|l|kvs']|];
      cbn [truthy respondents_nonempty length Nat.eqb negb respondents_include].
    + done.
    + by destruct b.
    + by destruct (Z.eqb n 0).
    + rewrite Hwf. done.
    + split; [by destruct l|]. intros _ bc. by rewrite includes_code.
    + done.
    + done.
Qed.

(** One turn of the loop, by verdict. *)
Lemma lookupStep_verdict (compare : Json → option bool)
    (formId : option string) (forms : list Form) (tbl : list Student)
    (acc : LookupAcc) (b : string) :
  (∀ form, named_form formId forms = Some form → allow_list_wf form) →
  trim b ≠ "" →
  match verdict formId forms tbl (trim b) with
  | VFound =>
      ∃ s, student_BC s = Some (trim b)
           ∧ lookupStep compare (lookupContext formId forms).1
               (lookupContext formId forms).2 tbl acc (JStr b)
             = Some (mkLookupAcc (acc_found acc ++ [summary s]) (acc_notFound acc)
                       (acc_notSelected acc))
  | VNotSelected =>
      ∃ s, student_BC s = Some (trim b)
           ∧ lookupStep compare (lookupContext formId forms).1
               (lookupContext formId forms).2 tbl acc (JStr b)
             = Some (mkLookupAcc (acc_found acc) (acc_notFound acc)
                       (acc_notSelected acc ++ [summary s]))
  | VNotFound =>
      lookupStep compare (lookupContext formId forms).1
        (lookupContext formId forms).2 tbl acc (JStr b)
      = Some (mkLookupAcc (acc_found acc) (acc_notFound acc ++ [trim b])
                (acc_notSelected acc))
  end.
Proof.
  intros Hwf Hb.
  destruct (lookupContext_code compare formId forms Hwf) as [Hc Hi].
  unfold verdict, lookupStep. rewrite known_code, Hc.
  destruct (String.eqb_spec (trim b) "") as [|_]; [done|]. cbn [negb].
  destruct (getStudentByStudentId (Some (trim b)) tbl) as [s|] eqn:Hget.
  - rewrite bool_decide_true by done.
    pose proof (lookup_found_bc _ _ _ Hget) as Hbc.
    destruct (check_applies formId forms); cbn [andb]; [|eauto].
    rewrite (Hi eq_refl).
    destruct (on_allow_list formId forms (trim b)); cbn [negb]; eauto.
  - rewrite bool_decide_false; [done|]. by intros [? ?].
Qed.

(** What the lookup loop adds to its three arrays. *)
Lemma lookup_loop (compare : Json → option bool)
    (formId : option string) (forms : list Form) (tbl : list Student)
    (bcNumbers : list string) :
  (∀ form, named_form formId forms = Some form → allow_list_wf form) →
  ∀ acc,
    ∃ acc' found notSelected,
      lookupLoop compare (lookupContext formId forms).1
        (lookupContext formId forms).2 tbl (JStr <$> bcNumbers) acc = Some acc'
      ∧ acc_found acc' = acc_found acc ++ found
      ∧ acc_notFound acc'
        = acc_notFound acc
          ++ filter (λ t, verdict formId forms tbl t = VNotFound) (submitted bcNumbers)
      ∧ acc_notSelected acc' = acc_notSelected acc ++ notSelected
      ∧ ss_student_BC <$> found
        = Some <$> filter (λ t, verdict formId forms tbl t = VFound) (submitted bcNumbers)
      ∧ ss_student_BC <$> notSelected
        = Some <$> filter (λ t, verdict formId forms tbl t = VNotSelected)
                     (submitted bcNumbers).
Proof.
  intros Hwf. induction bcNumbers as [|b bcs IH]; intros acc.
  - exists acc, [], []. simpl. rewrite !app_nil_r. done.
  - rewrite fmap_cons. cbn [lookupLoop].
    unfold submitted. rewrite fmap_cons, filter_cons.
    fold (submitted bcs).
    destruct (decide (trim b ≠ "")) as [Hb|Hb].
    + pose proof (lookupStep_verdict compare formId forms tbl acc b Hwf Hb) as Hstep.
      rewrite !filter_cons.
      destruct (verdict formId forms tbl (trim b)) eqn:Hv.
      * destruct Hstep as (s & Hbc & ->).
        destruct (IH (mkLookupAcc (acc_found acc ++ [summary s]) (acc_notFound acc)
                        (acc_notSelected acc)))
          as (acc' & found & notSel & Hl & Hf & Hn & Hs & Ef & Es).
        cbn [acc_found acc_notFound acc_notSelected] in Hf, Hn, Hs.
        decide_verdicts.
        exists acc', (summary s :: found), notSel.
        rewrite Hl, Hf, Hn, Hs, <- !app_assoc.
        rewrite !fmap_cons, Ef. cbn [summary ss_student_BC]. by rewrite Hbc.
      * destruct Hstep as (s & Hbc & ->).
        destruct (IH (mkLookupAcc (acc_found acc) (acc_notFound acc)
                        (acc_notSelected acc ++ [summary s])))
          as (acc' & found & notSel & Hl & Hf & Hn & Hs & Ef & Es).
        cbn [acc_found acc_notFound acc_notSelected] in Hf, Hn, Hs.
        decide_verdicts.
        exists acc', found, (summary s :: notSel).
        rewrite Hl, Hf, Hn, Hs, <- !app_assoc.
        rewrite !fmap_cons, Es. cbn [summary ss_student_BC]. by rewrite Hbc.
      * rewrite Hstep.
        destruct (IH (mkLookupAcc (acc_found acc) (acc_notFound acc ++ [trim b])
                        (acc_notSelected acc)))
          as (acc' & found & notSel & Hl & Hf & Hn & Hs & Ef & Es).
        cbn [acc_found acc_notFound acc_notSelected] in Hf, Hn, Hs.
        decide_verdicts.
        exists acc', found, notSel.
        rewrite Hl, Hf, Hn, Hs, <- !app_assoc. done.
    + assert (trim b = "") as Hb' by (by destruct (decide (trim b = ""))).
      assert (lookupStep compare (lookupContext formId forms).1
                (lookupContext formId forms).2 tbl acc (JStr b) = Some acc) as ->.
      { unfold lookupStep. by rewrite Hb'. }
      destruct (IH acc) as (acc' & found & notSel & Hl & Hrest).
      exists acc', found, notSel. done.
Qed.

(** An element that is not a string ends the loop with an exception. *)
Lemma lookup_loop_throws (compare : Json → option bool) (sel : Json)
    (ft : string) (tbl : list Student) (bcNumbers : list Json) :
  identifiers bcNumbers = None →
  ∀ acc, lookupLoop compare sel ft tbl bcNumbers acc = None.
Proof.
  induction bcNumbers as [|b bcs IH]; intros Hnone acc; [done|].
  cbn [lookupLoop].
  destruct (lookupStep compare sel ft tbl acc b) as [acc'|] eqn:Hstep; [|done].
  apply IH. destruct b as [| | |s| |]; try discriminate Hstep.
  cbn [identifiers] in Hnone. by destruct (identifiers bcs).
Qed.

Lemma identifiers_Some (bcNumbers : list Json) (strs : list string) :
  identifiers bcNumbers = Some strs → bcNumbers = JStr <$> strs.
Proof.
  revert strs.
  induction bcNumbers as [|b bcs IH]; intros strs H.
  - by injection H as <-.
  - cbn [identifiers] in H. destruct b as [| | |s| |]; try discriminate H.
    destruct (identifiers bcs) as [rest|]; [|discriminate H].
    injection H as <-. by rewrite (IH rest eq_refl).
Qed.

Lemma filter_never {A : Type} (P : A → Prop) `{!∀ x, Decision (P x)} (l : list A) :
  (∀ x, ¬ P x) → filter P l = [].
Proof.
  intros Hn. induction l as [|a l IH]; [done|].
  by rewrite filter_cons, decide_False.
Qed.

Lemma verdict_partition (formId : option string) (forms : list Form)
    (tbl : list Student) (ids : list string) :
  (length (filter (λ t, verdict formId forms tbl t = VFound) ids)
   + length (filter (λ t, verdict formId forms tbl t = VNotFound) ids)
   + length (filter (λ t, verdict formId forms tbl t = VNotSelected) ids))%nat
  = length ids.
Proof.
  induction ids as [|t ids IH]; [done|].
  rewrite !filter_cons.
  destruct (verdict formId forms tbl t); decide_verdicts; simpl; lia.
Qed.

Lemma check_applies_iff (formId : option string) (forms : list Form) :
  check_applies formId forms = true
  ↔ ∃ form, named_form formId forms = Some form
            ∧ formType form = "parents_survey"
            ∧ allow_list form ≠ [].
Proof.
  unfold check_applies. destruct (named_form formId forms) as [form|].
  - rewrite andb_true_iff, bool_decide_eq_true, negb_true_iff, Nat.eqb_neq.
    split.
    + intros [Hft Hlen]. exists form. split; [done|]. split; [done|].
      intros Hnil. by rewrite Hnil in Hlen.
    + intros (form' & [= <-] & Hft & Hne). split; [done|]. by destruct (allow_list form).
  - split; [done|]. by intros (form & ? & _).
Qed.

(** C6. The lookup route against the classification of the
    specification, for a request whose [bcNumbers] is an array.  The
    verdict on an identifier is written from the store and the form the
    request names: not found when no student has it; found but not
    eligible when the allow-list check applies and the identifier is not
    on the list; found otherwise; and the check applies if and only if
    that form is a parents survey with a non-empty allow-list
    ([check_applies]).  When every element of the array is a string, the
    route answers, and the three arrays of the answer hold, in
    submission order, the non-blank trimmed identifiers of each verdict:
    the verdict is a function of the identifier, so each one lands in
    exactly one array, and the three lengths add up.  When the check
    does not apply, nothing is reported as not selected and every
    submitted identifier that exists in the store is found.  An array
    with an element that is not a string is answered 500.  Assumed: the
    settings of the named form hold a list, or nothing, as allow-list,
    and the identifiers are ASCII, where [trim] is the function of the
    language. *)
Theorem lookup_classifies_each_identifier (compare : Json → option bool)
    (bcNumbers : list Json) (formId : option string)
    (forms : list Form) (tbl : list Student) :
  (∀ form, named_form formId forms = Some form → allow_list_wf form) →
  (∀ s, JStr s ∈ bcNumbers → ascii_only s = true) →
  (check_applies formId forms = true
   ↔ ∃ form, named_form formId forms = Some form
             ∧ formType form = "parents_survey"
             ∧ allow_list form ≠ [])
  ∧
  match identifiers bcNumbers with
  | None => lookupBcRoute compare (Some bcNumbers) formId forms tbl = Err 500
  | Some strs =>
      let ids := submitted strs in
      ∃ resp,
        lookupBcRoute compare (Some bcNumbers) formId forms tbl = Ok resp
        ∧ ss_student_BC <$> foundStudents resp
          = Some <$> filter (λ t, verdict formId forms tbl t = VFound) ids
        ∧ notFoundBCNumbers resp
          = filter (λ t, verdict formId forms tbl t = VNotFound) ids
        ∧ ss_student_BC <$> default [] (notSelectedStudents resp)
          = Some <$> filter (λ t, verdict formId forms tbl t = VNotSelected) ids
        ∧ (length (foundStudents resp) + length (notFoundBCNumbers resp)
           + length (default [] (notSelectedStudents resp)))%nat = length ids
        ∧ (check_applies formId forms = false →
           notSelectedStudents resp = None
           ∧ ∀ t, t ∈ ids → known tbl t = true →
                  Some t ∈ (ss_student_BC <$> foundStudents resp))
  end.
Proof.
  intros Hwf _. split; [apply check_applies_iff|].
  destruct (identifiers bcNumbers) as [strs|] eqn:Hids.
  2:{ unfold lookupBcRoute.
      destruct (lookupContext formId forms) as [sel ft].
      by rewrite (lookup_loop_throws compare sel ft tbl bcNumbers Hids). }
  apply identifiers_Some in Hids as ->.
  intros ids. unfold lookupBcRoute.
  destruct (lookup_loop compare formId forms tbl strs Hwf (mkLookupAcc [] [] []))
    as (acc' & found & notSel & Hl & Hf & Hn & Hs & Ef & Es).
  destruct (lookupContext formId forms) as [sel ft] eqn:Hctx.
  cbn [fst snd] in Hl. rewrite Hl.
  cbn [acc_found acc_notFound acc_notSelected app] in Hf, Hn, Hs.
  eexists. split; [reflexivity|].
  cbn [foundStudents notFoundBCNumbers notSelectedStudents].
  rewrite Hf, Hn, Hs.
  assert (default [] (if Nat.ltb 0 (length notSel) then Some notSel else None) = notSel)
    as Hdef by (by destruct notSel).
  rewrite Hdef.
  split; [done|]. split; [done|]. split; [done|]. split.
  - rewrite <- (verdict_partition formId forms tbl ids).
    rewrite <- (length_fmap ss_student_BC found), Ef, length_fmap.
    rewrite <- (length_fmap ss_student_BC notSel), Es, length_fmap. done.
  - intros Hr.
    assert (∀ t, verdict formId forms tbl t ≠ VNotSelected) as Hnever.
    { intros t. unfold verdict. rewrite Hr. by destruct (known tbl t). }
    split.
    + assert (notSel = []) as ->; [|done].
      apply fmap_nil_inv with (f := ss_student_BC). rewrite Es.
      by rewrite filter_never.
    + intros t Ht Hk. rewrite Ef. apply list_elem_of_fmap_2.
      apply list_elem_of_filter. split; [|done].
      unfold verdict. rewrite Hk, Hr. done.
Qed.

(** The scenario of the specification: a parents survey restricted to
    BC001, and a request for BC001 and BC002, which both exist. *)
Lemma lookup_classifies_each_identifier_witness :
  (check_applies (Some "f3") [Samples.restricted_survey] = true
   ↔ ∃ form, named_form (Some "f3") [Samples.restricted_survey] = Some form
             ∧ formType form = "parents_survey"
             ∧ allow_list form ≠ [])
  ∧
  ∃ resp,
    lookupBcRoute (λ _, None)
      (Some [JStr "BC001"; JStr " BC002 "; JStr "  "; JStr "ZZ9"]) (Some "f3")
      [Samples.restricted_survey] Samples.students_table = Ok resp
    ∧ ss_student_BC <$> foundStudents resp = [Some "BC001"]
    ∧ notFoundBCNumbers resp = ["ZZ9"]
    ∧ ss_student_BC <$> default [] (notSelectedStudents resp) = [Some "BC002"]
    ∧ (length (foundStudents resp) + length (notFoundBCNumbers resp)
       + length (default [] (notSelectedStudents resp)))%nat = 3%nat
    ∧ (check_applies (Some "f3") [Samples.restricted_survey] = false →
       notSelectedStudents resp = None
       ∧ ∀ t, t ∈ ["BC001"; "BC002"; "ZZ9"] →
              known Samples.students_table t = true →
              Some t ∈ (ss_student_BC <$> foundStudents resp)).
Proof.
  apply (lookup_classifies_each_identifier (λ _, None)
           [JStr "BC001"; JStr " BC002 "; JStr "  "; JStr "ZZ9"] (Some "f3")
           [Samples.restricted_survey] Samples.students_table).
  - intros form Hform. vm_compute in Hform. injection Hform as <-.
    vm_compute. exact I.
  - intros s Hs. repeat (apply elem_of_cons in Hs as [Hs|Hs];
                         [injection Hs as ->; reflexivity|]).
    by apply elem_of_nil in Hs.
Defined.

Example lookup_scenario :
  lookupBcRoute (λ _, None)
    (Some [JStr "BC001"; JStr " BC002 "; JStr "  "; JStr "ZZ9"]) (Some "f3")
    [Samples.restricted_survey] Samples.students_table
  = Ok (mkLookupResponse
          [mkStudentSummary (Some "BC001") (Some "Ali") (Some "P1") (Some "1A")]
          ["ZZ9"]
          (Some [mkStudentSummary (Some "BC002") (Some "Siti") (Some "P2") (Some "2B")])).
Proof. vm_compute. reflexivity. Qed.

(** Outside the assumptions of the classification: an element that is not
    a string, and an allow-list saved as an object with a positive
    [length], are answered 500; an allow-list saved as a string is
    searched as text. *)
Example lookup_outside_the_lists :
  lookupBcRoute (λ _, None) (Some [JStr "BC001"; JNum 7]) None [] Samples.students_table
  = Err 500
  ∧ lookupBcRoute (λ _, None) (Some [JStr "BC001"]) (Some "f3")
      [mkForm "f3" "Parents" None "parents_survey" (Some "parents") "active" "u1"
         (JObj [("selectedRespondents", JObj [("length", JNum 1)])])
         JNull JNull JNull JNull JNull JNull None None (Some 1%Z) (Some 1%Z)]
      Samples.students_table
    = Err 500
  ∧ lookupBcRoute (λ _, None) (Some [JStr "BC001"]) (Some "f3")
      [mkForm "f3" "Parents" None "parents_survey" (Some "parents") "active" "u1"
         (JObj [("selectedRespondents", JStr "xBC0012")])
         JNull JNull JNull JNull JNull JNull None None (Some 1%Z) (Some 1%Z)]
      Samples.students_table
    = Ok (mkLookupResponse
            [mkStudentSummary (Some "BC001") (Some "Ali") (Some "P1") (Some "1A")]
            [] None).
Proof. vm_compute. done. Qed.

(** ** Public routing and CSV parsing *)

(** C8. Every slug of the reserved list renders the not-found page, and a
    visitor of that public URL is served no form, whatever forms exist. *)
Theorem reserved_slug_resolves_to_not_found (slug : string) (forms : list Form) :
  slug ∈ RESERVED_SLUGS →
  PublicFormRoute slug = NotFound ∧ servePublicUrl slug forms = None.
Proof.
  intros Hin.
  assert (PublicFormRoute slug = NotFound) as Hroute.
  { unfold RESERVED_SLUGS in Hin.
    repeat (apply elem_of_cons in Hin as [->|Hin]; [vm_compute; reflexivity|]).
    by apply elem_of_nil in Hin. }
  split; [done|]. unfold servePublicUrl. by rewrite Hroute.
Qed.

Lemma reserved_slug_resolves_to_not_found_witness :
  PublicFormRoute "api" = NotFound
  ∧ servePublicUrl "api" Samples.forms_table = None.
Proof.
  apply (reserved_slug_resolves_to_not_found "api" Samples.forms_table).
  apply (bool_decide_unpack _). vm_compute. exact I.
Defined.

(** The deny-list lives in the client router: the API route alone would
    resolve a stored form whose URL is "api", and the router ignores case. *)
Example api_route_alone_resolves :
  publicFormRoute "api" Samples.forms_table = Ok Samples.diverged_form
  ∧ PublicFormRoute "API" = NotFound
  ∧ servePublicUrl "quiz" Samples.forms_table = Some Samples.unprepared_form.
Proof. vm_compute. done. Qed.

(** C9, as the code has it. Headers ["Bc No"; "Name"] with the row
    ["A1"; "Jane"] give one valid row whose [student_BC] is "A1", whose
    [fullName] is "Jane" (the header "Name" is a recognised spelling of the
    full name), and whose additional-data bag holds [bcNo = "A1"] and
    nothing else. *)
Theorem name_header_maps_to_fullName :
  parseDataRows ["Bc No"; "Name"] [["A1"; "Jane"]]
  = Parsed
      [mkParsedStudentRow 2
         (mkInsertStudent (Some "A1") (Some "Jane") None None None None None
            None None None None None None None None
            (Some {["bcNo" := "A1"]}) None)
         true []]
      [].
Proof. vm_compute. reflexivity. Qed.

(** C9, as stated, fails: the bag of the parsed row has no key "Name". *)
Lemma name_header_not_in_additional_data :
  ¬ ∃ row,
      parseDataRows ["Bc No"; "Name"] [["A1"; "Jane"]] = Parsed [row] []
      ∧ i_student_BC (data row) = Some "A1"
      ∧ getExtra "Name" (data row) = Some "Jane"
      ∧ valid row = true.
Proof.
  intros (row & Hparse & _ & Hextra & _).
  vm_compute in Hparse. injection Hparse as <-.
  vm_compute in Hextra. discriminate.
Qed.

(** ** Form builder: renumbering *)

Import Builder BuilderSpec.

(** *** Positions *)






(** *** The numbering preserves everything but the number *)



Lemma withNo_withNo (n m : Z) (q : Question) : withNo n (withNo m q) = withNo n q.
Proof. reflexivity. Qed.



(** *** One visit of the numbering loops *)

(** *** One visit of the numbering loops *)





(** *** The order of the visits *)


Lemma filter_all {A : Type} (P : A → Prop) `{!∀ x, Decision (P x)} (l : list A) :
  (∀ x, x ∈ l → P x) → filter P l = l.
Proof.
  induction l as [|a l IH]; intros HP; [done|].
  rewrite filter_cons, decide_True by (apply HP; by left).
  f_equal. apply IH. intros x Hx. apply HP. by right.
Qed.





(** *** The display order *)







(** *** The section sort *)





(** The sort is stable: sections with the same [order] keep their relative
    order. *)
Lemma sortSections_stable (secs : list Section) (k : Z) :
  filter (λ s, orderKey s = k) (sortSections secs)
  = filter (λ s, orderKey s = k) secs.
Proof.
  induction secs as [|s secs IH]; [done|].
  unfold sortSections in *. simpl. rewrite filter_cons, <- IH.
  generalize (foldr insertSection [] secs). intros l.
  induction l as [|x l IHl]; simpl.
  - rewrite filter_cons. done.
  - destruct (Z.leb_spec (orderKey s) (orderKey x)) as [Hle|Hlt].
    + by rewrite !filter_cons.
    + rewrite (filter_cons _ x), IHl, (filter_cons _ x).
      destruct (decide (orderKey s = k)) as [Hs|Hs]; [|done].
      destruct (decide (orderKey x = k)); [lia|].
      destruct (decide (orderKey x = k)); [lia|done].
Qed.

(** *** Helpers for the actions *)




Lemma startsWith_append (p s : string) : startsWith (p +:+ s) p = true.
Proof.
  unfold startsWith. induction p as [|c p IH]; simpl.
  - by destruct s.
  - destruct (Ascii.ascii_dec c c); [apply IH|done].
Qed.

(** *** The effects *)

(** The second effect fires at most once: the section it creates is the
    one it looks for. *)
Lemma effectsRound_then_quiet (now : string) (a b : bool) (st : BuilderState) :
  sectionsSet (effectsRound now a b st) = true →
  hasChildIdentitySection (sections (next (effectsRound now a b st))) = true.
Proof.
  unfold effectsRound.
  destruct (_ && negb (hasChildIdentitySection (sections st)))%bool; [|done].
  intros _. simpl. by rewrite startsWith_append.
Qed.

Lemma effectsRound_quiet (now : string) (a b : bool) (st : BuilderState) :
  hasChildIdentitySection (sections st) = true →
  sectionsSet (effectsRound now a b st) = false.
Proof.
  unfold effectsRound. intros ->. simpl. by rewrite !andb_false_r.
Qed.

(** Two rounds of effects reach quiescence: more fuel changes nothing. *)
Lemma settle_fuel (k : nat) (now : string) (a b : bool) (st : BuilderState) :
  settle (S (S k)) now a b st = settle 2 now a b st.
Proof.
  cbn [settle]. destruct (a || b)%bool; [|done].
  destruct (sectionsSet (effectsRound now a b st)) eqn:Hset; cbn [orb]; [|done].
  apply effectsRound_then_quiet in Hset.
  rewrite (effectsRound_quiet now true false _ Hset).
  by destruct k.
Qed.



(** *** The actions *)
















(** The sample session ends with the identifier-lookup question first;
    the dragged question went to the deleted section and from there to the
    first remaining one. *)
Example session_result :
  let st := run initialState BuilderSamples.session in
  (λ q, (questionId q, questionNo q, sectionId q)) <$> questions st
  = [("bc-input-2007", 1%Z, Some "child-identity-2007");
     ("1001", 2%Z, Some "child-identity-2007");
     ("1003", 3%Z, Some "1002");
     ("1005", 4%Z, Some "1002")]
  ∧ id <$> sections st = ["child-identity-2007"; "1002"].
Proof. vm_compute. done. Qed.

(** Where the assumption on identifiers matters: the numbering goes by
    identifier, so of two questions with one identifier only the first is
    numbered. *)
Example shared_identifier_keeps_old_number :
  questionNo <$> renumberAllQuestions (sections initialState) BuilderSamples.twins
  = [1%Z; 7%Z].
Proof. vm_compute. reflexivity. Qed.

(** A drag inside one section hands the list over unchanged: the mapping
    looks every question up in the reordered copy by its own identifier. *)
Example drag_within_section_keeps_order :
  let qs := questions (run initialState
                         [(AddQuestion None None "a", "t");
                          (AddQuestion None None "b", "t");
                          (AddQuestion None None "c", "t")]) in
  draggedQuestions "default" 0%nat (Some ("default", 2%nat)) qs = Some qs.
Proof. vm_compute. reflexivity. Qed.

(** ** Agreement-scale questions *)

(** [addQuestion] makes an agreement-scale question required and with the
    four fixed options, whatever the state and the target section. *)
Lemma newQuestion_sls_ok (st : BuilderState) (ty target : option string)
    (now : string) :
  sls_ok (newQuestion st ty target now).
Proof.
  unfold sls_ok, newQuestion. cbn [type required options].
  destruct ty as [ty|]; simpl; [|done].
  destruct (String.eqb_spec ty "") as [->|Hne]; simpl; [done|].
  intros ->. done.
Qed.

(** Every edit other than an edit of the options keeps an agreement-scale
    question required and with its fixed options. *)
Lemma applyEdit_sls_ok (qid : string) (e : QuestionEdit) (q : Question) :
  (∀ v, e ≠ EditOptions v) → sls_ok q → sls_ok (applyEdit qid e q).
Proof.
  intros He Hq. unfold applyEdit.
  destruct (String.eqb (questionId q) qid); [|done].
  destruct e; unfold sls_ok in *; cbn [type required options].
  - destruct (String.eqb_spec value "sls") as [->|Hne]; simpl; [done|].
    intros ?. done.
  - done.
  - destruct (String.eqb_spec (type q) "sls") as [Hs|Hs]; simpl; [|done].
    intros _. split; [done|]. by apply Hq.
  - by destruct (He value).
  - done.
Qed.

Lemma applyEdit_sls_ok_witness :
  sls_ok (applyEdit "1001" (EditRequired false) BuilderSamples.sls_question).
Proof.
  apply (applyEdit_sls_ok "1001" (EditRequired false) BuilderSamples.sls_question).
  - intros v. discriminate.
  - intros _. split; reflexivity.
Defined.

(** The function itself does not guard the options: called directly as
    [updateQuestion(id, 'options', value)] with the id of an
    agreement-scale question, it stores the new options.  The page makes
    this call only from controls that are disabled or not rendered for
    such a question. *)
Example direct_options_call_is_unguarded :
  let q := BuilderSamples.sls_question in
  sls_ok q
  ∧ ∃ q', updateQuestion (questionId q) (EditOptions (Some ["Yes"; "No"])) [q] = [q']
          ∧ type q' = "sls"
          ∧ options q' = Some ["Yes"; "No"]
          ∧ ¬ sls_ok q'.
Proof.
  split; [intros _; split; reflexivity|].
  eexists. split; [vm_compute; reflexivity|]. split; [reflexivity|].
  split; [reflexivity|]. intros H. destruct (H eq_refl) as [_ Hopt]. discriminate.
Qed.

(* ===================================================================== *)
(** * Further properties of the server *)
(* ===================================================================== *)

Import Schema Storage Routes Responses FormRoutes.

(** ** Lists and lookups *)

Lemma head_filter_None {A : Type} (P : A → Prop) `{!∀ x, Decision (P x)}
    (l : list A) :
  head (filter P l) = None ↔ Forall (λ x, ¬ P x) l.
Proof.
  induction l as [|x l IH]; [by split; [constructor|]|].
  rewrite filter_cons. destruct (decide (P x)) as [Hx|Hx]; simpl.
  - split; [discriminate|]. intros Hall. by inversion Hall.
  - rewrite IH. split; [by constructor|]. intros Hall. by inversion Hall.
Qed.

Lemma filter_Forall_not {A : Type} (P : A → Prop) `{!∀ x, Decision (P x)}
    (l : list A) :
  Forall (λ x, ¬ P x) l → filter P l = [].
Proof.
  induction 1 as [|x l Hx _ IH]; [done|].
  by rewrite filter_cons, decide_False.
Qed.

Lemma head_filter_Some {A : Type} (P : A → Prop) `{!∀ x, Decision (P x)}
    (l : list A) (x : A) :
  head (filter P l) = Some x → P x ∧ x ∈ l.
Proof.
  intros Hh. apply head_Some_elem_of in Hh.
  apply list_elem_of_filter in Hh. done.
Qed.

Lemma getFormById_None (fid : string) (forms : list Form) :
  getFormById fid forms = None ↔ fid ∉ (id <$> forms).
Proof.
  unfold getFormById. rewrite head_filter_None, Forall_forall.
  rewrite list_elem_of_fmap. split.
  - intros H (f & -> & Hf). by apply (H f).
  - intros H f Hf Hid. apply H. by exists f.
Qed.

Lemma getFormById_filter_other (fid : string) (forms : list Form) :
  getFormById fid (filter (λ f, id f ≠ fid) forms) = None.
Proof.
  apply getFormById_None. rewrite list_elem_of_fmap.
  intros (f & -> & Hf). apply list_elem_of_filter in Hf as [Hne _]. done.
Qed.



(** ** Deleting a form *)

(** X3. [DELETE /api/forms/:id] removes the form exactly when the caller
    created it and no response refers to it: then the rows with that id
    are gone and every other row stays, in order.  In every other case the
    answer is an error and the table is as before; in particular a form
    that has responses cannot be deleted. *)
Theorem delete_form_route_spec (userId fid : string) (forms : list Form)
    (responses : list FormResponse) :
  (∀ forms',
     deleteFormRoute userId fid forms responses = (Ok tt, forms') →
     (∃ f, getFormById fid forms = Some f ∧ createdBy f = userId)
     ∧ (fid ∉ (fr_formId <$> responses))
     ∧ forms' = filter (λ g, id g ≠ fid) forms
     ∧ getFormById fid forms' = None)
  ∧ (∀ code forms',
       deleteFormRoute userId fid forms responses = (Err code, forms') →
       forms' = forms)
  ∧ (∀ f, getFormById fid forms = Some f → createdBy f = userId →
       fid ∉ (fr_formId <$> responses) →
       deleteFormRoute userId fid forms responses
       = (Ok tt, filter (λ g, id g ≠ fid) forms))
  ∧ (∀ f, getFormById fid forms = Some f → createdBy f = userId →
       fid ∈ (fr_formId <$> responses) →
       deleteFormRoute userId fid forms responses = (Err 500, forms)).
Proof.
  unfold deleteFormRoute, deleteForm.
  destruct (getFormById fid forms) as [f|] eqn:Hf.
  - assert (fid ∈ id <$> forms) as Hin.
    { apply getFormById_Some in Hf as [<- Hf]. by apply list_elem_of_fmap_2. }
    rewrite (bool_decide_true _ Hin). simpl.
    destruct (String.eqb_spec (createdBy f) userId) as [Hown|Hown]; simpl.
    + destruct (decide (fid ∈ fr_formId <$> responses)) as [Hr|Hr].
      * rewrite (bool_decide_true _ Hr).
        split; [intros ? [=]|]. split; [by intros ? ? [= _ <-]|].
        split; [by intros ? _ _ ?|]. done.
      * rewrite (bool_decide_false _ Hr).
        split.
        { intros ? [= <-]. split; [by exists f|]. split; [done|].
          split; [done|]. apply getFormById_filter_other. }
        split; [intros ? ? [=]|]. split; [done|]. by intros ? _ _ ?.
    + split; [intros ? [=]|]. split; [by intros ? ? [= _ <-]|].
      split; intros ? [= <-] ?; done.
  - split; [intros ? [=]|]. split; [by intros ? ? [= _ <-]|].
    split; intros ? [=].
Qed.

(** A form with a response cannot be deleted by its owner, and goes once
    there is none. *)
Example delete_blocked_by_response :
  let response := mkFormResponse "r1" "f1" None (JObj []) (Some 5%Z) in
  deleteFormRoute "u1" "f1" Samples.forms_table [response]
  = (Err 500, Samples.forms_table)
  ∧ deleteFormRoute "u1" "f1" Samples.forms_table []
    = (Ok tt, [Samples.unprepared_form])
  ∧ deleteFormRoute "u2" "f1" Samples.forms_table []
    = (Err 403, Samples.forms_table).
Proof. vm_compute. done. Qed.

(** ** The URL check *)

(** X4. The URL check answers "available" exactly when the slug is a
    non-empty word of letters, digits, underscores and hyphens that no
    form holds; a slug it calls available passes the UNIQUE constraint of
    [form_url] for whatever row it is then written to; the answer has
    status 400 exactly when the slug is malformed. *)
Theorem check_url_available_iff (url : string) (forms : list Form) :
  (uc_available (checkUrlRoute url forms) = true
   ↔ urlPattern_test url = true ∧ Forall (λ f, formUrl f ≠ Some url) forms)
  ∧ (uc_available (checkUrlRoute url forms) = true →
     ∀ self, formUrl_free self (Some url) forms = true)
  ∧ (uc_status (checkUrlRoute url forms) = 400%Z ↔ urlPattern_test url = false).
Proof.
  assert (urlPattern_test url = true → str_truthy (Some url) = true) as Hne.
  { unfold urlPattern_test. simpl. by intros [? _]%andb_true_iff. }
  assert (uc_available (checkUrlRoute url forms) = true
          ↔ urlPattern_test url = true ∧ Forall (λ f, formUrl f ≠ Some url) forms)
    as Hiff.
  { unfold checkUrlRoute.
    destruct (urlPattern_test url) eqn:Hp.
    - rewrite Hne by done. simpl. unfold getFormByUrl.
      destruct (head _) as [g|] eqn:Hg; simpl.
      + split; [discriminate|]. intros [_ H].
        apply (proj2 (head_filter_None _ _)) in H. congruence.
      + apply head_filter_None in Hg. done.
    - destruct (negb (str_truthy (Some url))); simpl;
        (split; [discriminate|by intros [? _]]). }
  split; [done|]. split.
  - intros [_ H]%Hiff self. simpl. apply bool_decide_eq_true.
    eapply Forall_impl; [exact H|]. intros f Hf. by right.
  - unfold checkUrlRoute.
    destruct (urlPattern_test url) eqn:Hp.
    + rewrite Hne by done. simpl. by destruct (getFormByUrl url forms).
    + by destruct (negb (str_truthy (Some url))).
Qed.

(** X5. The URL check knows nothing of the router's reserved slugs: every
    reserved slug other than [favicon.ico] is called available while no
    form holds it, although the router never shows a form under it. *)
Theorem check_url_accepts_reserved_slugs (slug : string) (forms : list Form) :
  slug ∈ App.RESERVED_SLUGS →
  slug ≠ "favicon.ico" →
  getFormByUrl slug forms = None →
  checkUrlRoute slug forms = mkUrlCheck 200 true ("URL will be: /" +:+ slug)
  ∧ App.PublicFormRoute slug = App.NotFound.
Proof.
  intros Hin Hne Hfree. unfold checkUrlRoute. rewrite Hfree.
  unfold App.RESERVED_SLUGS in Hin.
  repeat (apply elem_of_cons in Hin as [->|Hin];
          [first [done | by vm_compute]|]).
  by apply elem_of_nil in Hin.
Qed.

Lemma check_url_accepts_reserved_slugs_witness :
  checkUrlRoute "login" Samples.forms_table
  = mkUrlCheck 200 true "URL will be: /login"
  ∧ App.PublicFormRoute "login" = App.NotFound.
Proof.
  apply (check_url_accepts_reserved_slugs "login" Samples.forms_table).
  - apply (bool_decide_unpack _). vm_compute. exact I.
  - discriminate.
  - reflexivity.
Defined.

(** Malformed, taken and free slugs. *)
Example check_url_answers :
  uc_status (checkUrlRoute "my form" Samples.forms_table) = 400%Z
  ∧ uc_status (checkUrlRoute "favicon.ico" Samples.forms_table) = 400%Z
  ∧ checkUrlRoute "quiz" Samples.forms_table
    = mkUrlCheck 200 false
        "This URL is already taken. Please choose a different one."
  ∧ checkUrlRoute "Quiz" Samples.forms_table
    = mkUrlCheck 200 true "URL will be: /Quiz".
Proof. vm_compute. done. Qed.

(** ** Ownership *)

(** X6. A caller who did not create the form is answered 403 by every
    route that reads or changes it, and the table stays as it was. *)
Theorem non_owner_is_refused (JSON_parse : string → option Json)
    (userId fid : string) (now : Z) (body : gmap string Json)
    (forms : list Form) (responses : list FormResponse) (f : Form) :
  getFormById fid forms = Some f →
  createdBy f ≠ userId →
  getFormRoute userId fid forms = Err 403
  ∧ updateFormRoute userId fid now body forms = (Err 403, forms)
  ∧ preparePreviewRoute userId fid now forms = (Err 403, forms)
  ∧ deleteFormRoute userId fid forms responses = (Err 403, forms)
  ∧ formResponsesRoute userId fid forms responses = Err 403
  ∧ bulkQuestionsRoute userId fid now body forms = (Err 403, forms)
  ∧ (∀ url, getFormByUrl url forms = Some f →
       previewFormRoute JSON_parse userId url forms = Err 403).
Proof.
  intros Hf Hown.
  assert (negb (String.eqb (createdBy f) userId) = true) as Hneg.
  { by destruct (String.eqb_spec (createdBy f) userId). }
  unfold getFormRoute, updateFormRoute, preparePreviewRoute, deleteFormRoute,
    formResponsesRoute, bulkQuestionsRoute, previewFormRoute.
  rewrite Hf, Hneg. repeat split. intros url ->. by rewrite Hneg.
Qed.

Lemma non_owner_is_refused_witness :
  getFormRoute "u2" "f1" Samples.forms_table = Err 403
  ∧ updateFormRoute "u2" "f1" 9 Samples.publish_body Samples.forms_table
    = (Err 403, Samples.forms_table)
  ∧ preparePreviewRoute "u2" "f1" 9 Samples.forms_table
    = (Err 403, Samples.forms_table)
  ∧ deleteFormRoute "u2" "f1" Samples.forms_table [] = (Err 403, Samples.forms_table)
  ∧ formResponsesRoute "u2" "f1" Samples.forms_table [] = Err 403
  ∧ bulkQuestionsRoute "u2" "f1" 9 Samples.publish_body Samples.forms_table
    = (Err 403, Samples.forms_table)
  ∧ (∀ url, getFormByUrl url Samples.forms_table = Some Samples.diverged_form →
       previewFormRoute (λ _, None) "u2" url Samples.forms_table = Err 403).
Proof.
  apply (non_owner_is_refused (λ _, None) "u2" "f1" 9 Samples.publish_body
           Samples.forms_table [] Samples.diverged_form).
  - reflexivity.
  - discriminate.
Defined.

(** ** Snapshots *)

Lemma mappedData_lookup_other (body : gmap string Json) (k : string) :
  k ≠ "name" →
  body !! k = None → mappedData body !! k = None.
Proof.
  intros Hk Hb. unfold mappedData.
  assert ((VJson <$> delete "status" (delete "sections"
             (delete "questions" (delete "title" body))) : gmap string JsVal) !! k
          = None) as Hrest.
  { rewrite lookup_fmap.
    repeat (rewrite lookup_delete; case_decide; [done|]).
    by rewrite Hb. }
  destruct (body !! "title"); [by rewrite lookup_insert_ne|done].
Qed.

(** X7. A save ([PUT /api/forms/:id] without [status: 'active']) whose
    body names neither [publishedQuestions] nor [publishedSections] leaves
    the published snapshot of every form as it was, whatever the answer. *)
Theorem save_leaves_published_snapshot (userId fid : string) (now : Z)
    (body : gmap string Json) (tbl : list Form) :
  isPublishOperation body = false →
  body !! "publishedQuestions" = None →
  body !! "publishedSections" = None →
  publishedQuestions <$> (updateFormRoute userId fid now body tbl).2
  = publishedQuestions <$> tbl
  ∧ publishedSections <$> (updateFormRoute userId fid now body tbl).2
    = publishedSections <$> tbl.
Proof.
  intros Hsave Hq Hs.
  destruct (updateFormRoute_table userId fid now body tbl)
    as [->|(f & p & Hf & Hp & ->)]; [done|].
  rewrite Hsave in Hp.
  apply omit_createdBy_fields in Hp as (_ & _ & _ & _ & _ & Hpq & Hps).
  unfold saveUpdates in Hpq, Hps.
  rewrite !lookup_insert_ne in Hpq, Hps by done.
  rewrite mappedData_lookup_other in Hpq by done.
  rewrite mappedData_lookup_other in Hps by done.
  simpl in Hpq, Hps. injection Hpq as Hpq. injection Hps as Hps.
  split; apply update_keeps_column; intros g; unfold set_form; simpl.
  - by rewrite <- Hpq.
  - by rewrite <- Hps.
Qed.

Lemma save_leaves_published_snapshot_witness :
  publishedQuestions
    <$> (updateFormRoute "u1" "f1" 9 Samples.takeover_body Samples.forms_table).2
  = publishedQuestions <$> Samples.forms_table
  ∧ publishedSections
      <$> (updateFormRoute "u1" "f1" 9 Samples.takeover_body Samples.forms_table).2
    = publishedSections <$> Samples.forms_table.
Proof.
  apply (save_leaves_published_snapshot "u1" "f1" 9 Samples.takeover_body
           Samples.forms_table); reflexivity.
Defined.

(** A save that does name [publishedQuestions] replaces the published
    questions of a form that stays a draft. *)
Example save_can_name_published_questions :
  let body : gmap string Json := {[ "publishedQuestions" := JArr [JStr "x"] ]} in
  (λ f, (status f, publishedQuestions f))
    <$> (updateFormRoute "u1" "f1" 9 body Samples.forms_table).2
  = [("draft", JArr [JStr "x"]); ("draft", JNull)].
Proof. vm_compute. reflexivity. Qed.





(** The public view of the sample form after the publish: the questions
    are those of the preview, not the newer working ones. *)
Example public_view_after_publish :
  let r := updateFormRoute "u1" "f1" 9 Samples.publish_body Samples.forms_table in
  pf_questions
    (Samples.answered MoreSamples.empty_view
       (publicFormView MoreSamples.no_parse "api" r.2))
  = JArr [JStr "preview-question"].
Proof. vm_compute. reflexivity. Qed.

(** ** Question import *)



(** Working questions that are a JSON object cannot be spread, and a body
    without a [questions] array is refused. *)
Example bulk_questions_errors :
  let odd :=
    mkForm "f9" "Odd" None "survey" None "draft" "u1" JNull
      (JObj [("a", JNum 1)]) JNull JNull JNull JNull JNull None None None None in
  bulkQuestionsRoute "u1" "f9" 9 MoreSamples.import_body [odd] = (Err 500, [odd])
  ∧ bulkQuestionsRoute "u1" "f9" 9 ∅ [odd] = (Err 400, [odd])
  ∧ bulkQuestionsRoute "u1" "nope" 9 MoreSamples.import_body [odd] = (Err 404, [odd]).
Proof. vm_compute. done. Qed.

(** ** Responses *)

#[local] Instance later_first_total {A : Type} (key : A → option Z) :
  Total (λ a b, later_first (key a) (key b)).
Proof.
  intros a b. unfold later_first.
  destruct (key a), (key b); simpl; auto. lia.
Qed.

#[local] Instance later_first_trans {A : Type} (key : A → option Z) :
  Transitive (λ a b, later_first (key a) (key b)).
Proof.
  intros a b c. unfold later_first.
  destruct (key a), (key b), (key c); simpl; auto; try done. lia.
Qed.



(** A body without [responses] is a validation error; a submission to a
    form that does not exist is rejected by the database.  Neither stores
    anything. *)
Example submission_errors :
  submitResponseRoute MoreSamples.no_parse 9 "f1" ∅ Samples.forms_table []
  = (Err 400, [])
  ∧ submitResponseRoute MoreSamples.no_parse 9 "nope" MoreSamples.submission_body
      Samples.forms_table []
    = (Err 500, []).
Proof. vm_compute. done. Qed.

(** Answers submitted as one string of JSON text are stored, and come
    back from the database as what the text parses to. *)
Example submitted_text_is_read_back :
  let parse := λ s, if String.eqb s "123" then Some (JNum 123) else None in
  fr_responses
    <$> (submitResponseRoute parse 9 "f1" (<["responses" := JStr "123"]> ∅)
           Samples.forms_table []).2
  = [JNum 123].
Proof. reflexivity. Qed.

(* ===================================================================== *)
(** ** Users, login and sessions *)
(* ===================================================================== *)

Import Users.

Lemma head_filter_fmap_stable {A : Type} (P : A → Prop) `{!∀ x, Decision (P x)}
    (f : A → A) (l : list A) :
  (∀ x, P (f x) ↔ P x) →
  head (filter P (f <$> l)) = f <$> head (filter P l).
Proof.
  intros Hf. induction l as [|x l IH]; [done|].
  rewrite fmap_cons, !filter_cons.
  destruct (decide (P x)) as [Hx|Hx].
  - rewrite decide_True by (by apply Hf). done.
  - rewrite decide_False by (by rewrite Hf). done.
Qed.

Lemma findAuthorized_spec (email : string) (user : AuthorizedUser) :
  findAuthorized email = Some user →
  user ∈ AUTHORIZED_USERS ∧ au_email user = toLowerCase email.
Proof.
  unfold findAuthorized. intros Hfind.
  apply head_filter_Some in Hfind as [Heq Hin]. split; [done|].
  rewrite <- Heq. unfold AUTHORIZED_USERS in Hin.
  repeat (apply elem_of_cons in Hin as [->|Hin]; [reflexivity|]).
  by apply elem_of_nil in Hin.
Qed.

Lemma findAuthorized_None (email : string) :
  findAuthorized email = None →
  toLowerCase email ∉ (au_email <$> AUTHORIZED_USERS).
Proof.
  unfold findAuthorized. intros Hnone Hin.
  apply head_filter_None in Hnone. rewrite Forall_forall in Hnone.
  apply list_elem_of_fmap in Hin as (user & Heq & Hin).
  apply (Hnone user Hin). rewrite Heq.
  unfold AUTHORIZED_USERS in Hin.
  repeat (apply elem_of_cons in Hin as [->|Hin]; [reflexivity|]).
  by apply elem_of_nil in Hin.
Qed.

(** The upsert of a login never fails: it updates the rows that hold the
    address, or appends a row with a fresh id. *)
Lemma upsertUser_login (now : Z) (user : AuthorizedUser) (users : list User) :
  user ∈ AUTHORIZED_USERS →
  let e := Some (au_email user) in
  let d := loginUpsert user in
  match head (filter (λ u, u_email u = e) users) with
  | Some existing =>
      upsertUser now d users
      = Some (set_user d now existing,
              (λ u, if bool_decide (u_email u = e) then set_user d now u else u)
                <$> users)
  | None =>
      let row :=
        mkUser (fresh (u_id <$> users)) e (Some (au_name user))
          (Some (au_dept user)) None (Some (au_dept user)) (au_userType user)
          true (Some now) (Some now) in
      upsertUser now d users = Some (row, users ++ [row])
  end.
Proof.
  intros Hin. unfold AUTHORIZED_USERS in Hin.
  assert (truthy_email (loginUpsert user) = Some (au_email user)) as Hte.
  { repeat (apply elem_of_cons in Hin as [->|Hin]; [reflexivity|]).
    by apply elem_of_nil in Hin. }
  cbn zeta. unfold upsertUser, existingUserById, existingUserByEmail.
  rewrite Hte. cbn [loginUpsert up_id].
  destruct (head (filter _ users)) as [existing|] eqn:Hhead.
  - apply head_filter_Some in Hhead as [-> _]. done.
  - cbn [up_email up_firstName up_lastName up_profileImageUrl up_department
         up_userType up_isActive default u_email].
    pose proof (infinite_is_fresh (u_id <$> users)) as Hfresh.
    rewrite (bool_decide_true _ Hfresh).
    unfold loginUpsert, email_free. simpl.
    apply head_filter_None in Hhead.
    rewrite bool_decide_true; [done|].
    eapply Forall_impl; [exact Hhead|]. intros u Hu. by right.
Qed.

(** The first row that holds an address. *)
Lemma firstByEmail_updated (e : option string) (d : UpsertUser) (now : Z)
    (users : list User) :
  up_email d = Some e →
  head (filter (λ u, u_email u = e)
          ((λ u, if bool_decide (u_email u = e) then set_user d now u else u)
             <$> users))
  = (set_user d now) <$> head (filter (λ u, u_email u = e) users).
Proof.
  intros Hd. induction users as [|u users IH]; [done|].
  rewrite fmap_cons, !filter_cons.
  destruct (decide (u_email u = e)) as [Hu|Hu].
  - rewrite bool_decide_true by done.
    rewrite decide_True; [done|]. unfold set_user; simpl. by rewrite Hd.
  - rewrite bool_decide_false by done. rewrite decide_False by done. done.
Qed.

(** What a successful login did: the account of the address is the first
    row that holds it, and the session is bound to its id. *)
Lemma loginRoute_Ok (now : Z) (body : gmap string Json) (users users' : list User)
    (claims : Claims) (lu : LoginUser) :
  loginRoute now body users = (Ok (claims, lu), users') →
  ∃ email user account,
    body !! "email" = Some (JStr email)
    ∧ user ∈ AUTHORIZED_USERS
    ∧ au_email user = toLowerCase email
    ∧ body !! "password" = Some (JStr "1234")
    ∧ head (filter (λ u, u_email u = Some (au_email user)) users') = Some account
    ∧ u_id account = sub claims
    ∧ lu_id lu = sub claims
    ∧ u_userType account = au_userType user
    ∧ lu_userType lu = au_userType user
    ∧ match head (filter (λ u, u_email u = Some (au_email user)) users) with
      | Some existing =>
          u_id existing = sub claims
          ∧ u_id <$> users' = u_id <$> users
          ∧ u_email <$> users' = u_email <$> users
          ∧ u_isActive <$> users' = u_isActive <$> users
      | None =>
          users' = users ++ [account] ∧ (sub claims ∉ (u_id <$> users))
      end.
Proof.
  unfold loginRoute. intros Hlogin.
  destruct (body !! "email") as [[| | |email| |]|] eqn:Hemail; try discriminate.
  destruct (findAuthorized email) as [user|] eqn:Hfind; [|discriminate].
  apply findAuthorized_spec in Hfind as [Hin Hmail].
  destruct (body !! "password") as [[| | |password| |]|] eqn:Hpw;
    cbn beta iota in Hlogin; try discriminate.
  destruct (String.eqb_spec password "1234") as [->|]; [|discriminate].
  pose proof (upsertUser_login now user users Hin) as Hup. cbn zeta in Hup.
  destruct (head (filter _ users)) as [existing|] eqn:Hhead;
    rewrite Hup in Hlogin; injection Hlogin as <- <- <-.
  - exists email, user, (set_user (loginUpsert user) now existing).
    rewrite Hhead.
    split; [done|]. split; [done|]. split; [done|]. split; [done|].
    split. { rewrite firstByEmail_updated by done. by rewrite Hhead. }
    repeat split.
    + rewrite <- list_fmap_compose. apply list_fmap_ext.
      intros i u _. simpl. by case_bool_decide.
    + rewrite <- list_fmap_compose. apply list_fmap_ext.
      intros i u _. simpl. case_bool_decide; [|done]. simpl. congruence.
    + rewrite <- list_fmap_compose. apply list_fmap_ext.
      intros i u _. simpl. by case_bool_decide.
  - eexists email, user, _.
    rewrite Hhead.
    split; [done|]. split; [done|]. split; [done|]. split; [done|].
    split.
    { rewrite filter_app, filter_cons, decide_True by done.
      apply head_filter_None in Hhead.
      by rewrite (filter_Forall_not _ users). }
    repeat split. apply infinite_is_fresh.
Qed.

Lemma loginRoute_succeeds (now : Z) (body : gmap string Json)
    (users : list User) (email : string) :
  body !! "email" = Some (JStr email) →
  toLowerCase email ∈ (au_email <$> AUTHORIZED_USERS) →
  body !! "password" = Some (JStr "1234") →
  ∃ answer users', loginRoute now body users = (Ok answer, users').
Proof.
  intros Hemail Hauth Hpw. unfold loginRoute. rewrite Hemail, Hpw.
  destruct (findAuthorized email) as [user|] eqn:Hfind.
  - apply findAuthorized_spec in Hfind as [Hin _].
    pose proof (upsertUser_login now user users Hin) as Hup. cbn zeta in Hup.
    cbn [String.eqb Ascii.eqb Bool.eqb].
    destruct (head (filter _ users)); rewrite Hup; by eexists _, _.
  - by apply findAuthorized_None in Hfind.
Qed.

(** X11. For a body whose [email], if a string, is ASCII: the login
    succeeds exactly when the body carries an [email] string that is,
    ignoring case, one of the five authorized addresses, and the password
    ["1234"] - whatever the users table holds, so also for an account
    that was deactivated.  A rejected login leaves the table as it was;
    its status is 500 when the body has no [email] string and 401
    otherwise. *)
Theorem login_succeeds_iff (now : Z) (body : gmap string Json) (users : list User) :
  (∀ email, body !! "email" = Some (JStr email) → ascii_only email = true) →
  ((∃ answer, (loginRoute now body users).1 = Ok answer)
   ↔ ∃ email,
       body !! "email" = Some (JStr email)
       ∧ toLowerCase email ∈ (au_email <$> AUTHORIZED_USERS)
       ∧ body !! "password" = Some (JStr "1234"))
  ∧ (∀ code, (loginRoute now body users).1 = Err code →
       (loginRoute now body users).2 = users
       ∧ (code = 500%Z ∨ code = 401%Z)
       ∧ (code = 500%Z ↔ ∀ email, body !! "email" ≠ Some (JStr email))).
Proof.
  intros _. split.
  - split.
    + intros [[claims lu] Hok].
      destruct (loginRoute now body users) as [r users'] eqn:E.
      simpl in Hok. subst r.
      apply loginRoute_Ok in E as (email & user & _ & Hb & Hin & Hm & Hpw & _).
      exists email. split; [done|]. split; [|done].
      rewrite <- Hm. by apply list_elem_of_fmap_2.
    + intros (email & Hb & Hauth & Hpw).
      destruct (loginRoute_succeeds now body users email Hb Hauth Hpw)
        as (answer & users' & ->).
      by exists answer.
  - intros code Hcode.
    destruct (body !! "email") as [j|] eqn:Hemail.
    + assert ((∃ email, j = JStr email) ∨ ¬ (∃ email, j = JStr email)) as [[email ->]|Hj].
      { destruct j; try (right; by intros [? [=]]). left. by eexists. }
      * assert (code = 401%Z ∧ (loginRoute now body users).2 = users) as [-> ->].
        { unfold loginRoute in *. rewrite Hemail in *.
          destruct (findAuthorized email) as [user|] eqn:Hfind;
            [|by injection Hcode as <-].
          apply findAuthorized_spec in Hfind as [Hin _].
          pose proof (upsertUser_login now user users Hin) as Hup.
          cbn zeta in Hup.
          destruct (body !! "password") as [[| | |password| |]|];
            try (by injection Hcode as <-).
          destruct (String.eqb password "1234"); [|by injection Hcode as <-].
          destruct (head (filter _ users)); rewrite Hup in Hcode; discriminate. }
        split; [done|]. split; [by right|].
        split; [discriminate|]. intros H. by destruct (H email).
      * assert (code = 500%Z ∧ (loginRoute now body users).2 = users) as [-> ->].
        { unfold loginRoute in *. rewrite Hemail in *.
          destruct j; try (by injection Hcode as <-).
          destruct Hj. by eexists. }
        split; [done|]. split; [by left|]. split; [|done].
        intros _ email [= ->]. apply Hj. by eexists.
    + assert (code = 500%Z ∧ (loginRoute now body users).2 = users) as [-> ->].
      { unfold loginRoute in *. rewrite Hemail in *. by injection Hcode as <-. }
      split; [done|]. split; [by left|]. split; [|done]. by intros _ email.
Qed.

Lemma login_succeeds_iff_witness :
  ((∃ answer, (loginRoute 5 MoreSamples.admin_login MoreSamples.one_user).1 = Ok answer)
   ↔ ∃ email,
       MoreSamples.admin_login !! "email" = Some (JStr email)
       ∧ toLowerCase email ∈ (au_email <$> AUTHORIZED_USERS)
       ∧ MoreSamples.admin_login !! "password" = Some (JStr "1234"))
  ∧ (∀ code, (loginRoute 5 MoreSamples.admin_login MoreSamples.one_user).1 = Err code →
       (loginRoute 5 MoreSamples.admin_login MoreSamples.one_user).2
       = MoreSamples.one_user
       ∧ (code = 500%Z ∨ code = 401%Z)
       ∧ (code = 500%Z
          ↔ ∀ email, MoreSamples.admin_login !! "email" ≠ Some (JStr email))).
Proof.
  apply (login_succeeds_iff 5 MoreSamples.admin_login MoreSamples.one_user).
  intros email Hemail. vm_compute in Hemail. injection Hemail as <-. reflexivity.
Defined.

(** X12. Logging in again changes no account: after a successful login, a
    second login with the same body succeeds, binds the session to the same
    user id, and leaves the ids and the addresses of the table as the first
    login left them. *)
Theorem login_twice_same_account (now1 now2 : Z) (body : gmap string Json)
    (users users1 : list User) (claims1 : Claims) (lu1 : LoginUser) :
  loginRoute now1 body users = (Ok (claims1, lu1), users1) →
  ∃ claims2 lu2 users2,
    loginRoute now2 body users1 = (Ok (claims2, lu2), users2)
    ∧ sub claims2 = sub claims1
    ∧ u_id <$> users2 = u_id <$> users1
    ∧ u_email <$> users2 = u_email <$> users1.
Proof.
  intros Hfirst.
  apply loginRoute_Ok in Hfirst
    as (email & user & account & Hb & Hin & Hm & Hpw & Hacc & Hsub & _).
  destruct (loginRoute_succeeds now2 body users1 email) as ([claims2 lu2] & users2 & H2);
    [done| |done|].
  { rewrite <- Hm. by apply list_elem_of_fmap_2. }
  exists claims2, lu2, users2. split; [done|].
  apply loginRoute_Ok in H2
    as (email2 & user2 & account2 & Hb2 & Hin2 & Hm2 & _ & _ & _ & _ & _ & _ & Hcase).
  assert (email2 = email) as -> by congruence.
  assert (au_email user2 = au_email user) as Hsame by congruence.
  rewrite Hsame, Hacc in Hcase. destruct Hcase as (Hid & Hids & Hemails & _).
  split; [congruence|]. done.
Qed.

Lemma login_twice_same_account_witness :
  let r1 := loginRoute 1 MoreSamples.admin_login [] in
  ∃ claims2 lu2 users2,
    loginRoute 2 MoreSamples.admin_login r1.2 = (Ok (claims2, lu2), users2)
    ∧ sub claims2 = sub (MoreSamples.claims_of r1.1)
    ∧ u_id <$> users2 = u_id <$> r1.2
    ∧ u_email <$> users2 = u_email <$> r1.2.
Proof.
  apply (login_twice_same_account 1 2 MoreSamples.admin_login []
           (loginRoute 1 MoreSamples.admin_login []).2
           (MoreSamples.login_of (loginRoute 1 MoreSamples.admin_login []).1).1
           (MoreSamples.login_of (loginRoute 1 MoreSamples.admin_login []).1).2).
  vm_compute. reflexivity.
Defined.

(** A login creates the account once; the address is stored in lower
    case, and a wrong password or an unknown address is refused. *)
Example login_scenario :
  let body (e p : string) : gmap string Json :=
    <["email" := JStr e]> (<["password" := JStr p]> ∅) in
  let r1 := loginRoute 1 (body "Admin@IYAD.sg" "1234") [] in
  let r2 := loginRoute 2 (body "admin@iyad.sg" "1234") r1.2 in
  (λ u, (u_email u, u_userType u, u_isActive u)) <$> r2.2
  = [(Some "admin@iyad.sg", "Master Admin", true)]
  ∧ (loginRoute 3 (body "admin@iyad.sg" "12345") r2.2).1 = Err 401
  ∧ (loginRoute 3 (body "nobody@iyad.sg" "1234") r2.2).1 = Err 401
  ∧ (loginRoute 3 ∅ r2.2).1 = Err 500.
Proof. vm_compute. done. Qed.





(** ** User sessions *)

Lemma sessionSchema_parse_body (apps : list string) :
  (Datatypes.length apps ≤ 5)%nat →
  sessionSchema_parse (sessionBody apps) = Some apps.
Proof.
  intros Hlen. unfold sessionSchema_parse, sessionBody.
  rewrite lookup_singleton_eq.
  rewrite (mapM_fmap_Some zStringItem JStr) by done. simpl.
  destruct (Nat.leb_spec (Datatypes.length apps) 5); [done|lia].
Qed.

Lemma getUserSession_stored (JSON_parse : string → option Json) (now : Z)
    (userId : string) (apps : list string) (users : list User)
    (sessions sessions' : list UserSession) :
  updateUserSession now userId apps users sessions = Some sessions' →
  getUserSession JSON_parse userId sessions' = Some (JArr (JStr <$> apps))
  ∧ (∀ other, other ≠ userId →
       getUserSession JSON_parse other sessions'
       = getUserSession JSON_parse other sessions).
Proof.
  unfold updateUserSession. intros Hup.
  destruct (bool_decide (userId ∈ u_id <$> users)); [|discriminate].
  destruct (decide (userId ∈ us_userId <$> sessions)) as [Hin|Hnin].
  - rewrite (bool_decide_true _ Hin) in Hup. injection Hup as <-.
    unfold getUserSession. split.
    + rewrite (head_filter_fmap_stable (λ s, us_userId s = userId)).
      2:{ intros s. case_bool_decide; simpl; [|done]. split; congruence. }
      destruct (head (filter _ sessions)) as [s|] eqn:Hhead.
      * apply head_filter_Some in Hhead as [Hs _]. simpl.
        by rewrite bool_decide_true.
      * apply head_filter_None in Hhead. rewrite Forall_forall in Hhead.
        apply list_elem_of_fmap in Hin as (s & -> & Hs). by destruct (Hhead s).
    + intros other Hother.
      rewrite (head_filter_fmap_stable (λ s, us_userId s = other)).
      2:{ intros s. case_bool_decide; simpl; [|done]. split; congruence. }
      destruct (head (filter _ sessions)) as [s|] eqn:Hhead; [|done].
      apply head_filter_Some in Hhead as [Hs _]. simpl.
      rewrite bool_decide_false by congruence. done.
  - rewrite (bool_decide_false _ Hnin) in Hup. injection Hup as <-.
    unfold getUserSession. split.
    + rewrite filter_app, filter_cons, decide_True by done.
      rewrite (filter_Forall_not _ sessions); [done|].
      apply Forall_forall. intros s Hs Heq. apply Hnin.
      rewrite <- Heq. by apply list_elem_of_fmap_2.
    + intros other Hother.
      rewrite filter_app, filter_cons, decide_False by (simpl; congruence).
      by rewrite filter_nil, app_nil_r.
Qed.

(** X14. Opening an application always yields a list the server accepts:
    the list the client posts has the application first, at most five
    entries, no duplicates when the previous list had none, and nothing but
    the application and previous entries; for a known user the post
    succeeds, the session then read back is that list, and the sessions of
    other users read as before. *)
Theorem app_click_session_round_trip (JSON_parse : string → option Json)
    (now : Z) (userId app : string) (prev : list string)
    (users : list User) (sessions : list UserSession) :
  userId ∈ (u_id <$> users) →
  ∃ sessions',
    postSessionRoute now userId (sessionBody (addRecentApp app prev)) users sessions
    = (Ok tt, sessions')
    ∧ getSessionRoute JSON_parse userId sessions'
      = JArr (JStr <$> addRecentApp app prev)
    ∧ head (addRecentApp app prev) = Some app
    ∧ (Datatypes.length (addRecentApp app prev) ≤ 5)%nat
    ∧ (NoDup prev → NoDup (addRecentApp app prev))
    ∧ (∀ a, a ∈ addRecentApp app prev → a = app ∨ a ∈ prev)
    ∧ (∀ other, other ≠ userId →
         getSessionRoute JSON_parse other sessions'
         = getSessionRoute JSON_parse other sessions).
Proof.
  intros Hknown.
  assert (Datatypes.length (addRecentApp app prev) ≤ 5)%nat as Hlen.
  { unfold addRecentApp. rewrite length_take. lia. }
  destruct (updateUserSession now userId (addRecentApp app prev) users sessions)
    as [sessions'|] eqn:Hup.
  2:{ unfold updateUserSession in Hup. rewrite (bool_decide_true _ Hknown) in Hup.
      by destruct (bool_decide _). }
  exists sessions'.
  destruct (getUserSession_stored JSON_parse _ _ _ _ _ _ Hup) as [Hmine Hothers].
  split.
  { unfold postSessionRoute. by rewrite sessionSchema_parse_body, Hup. }
  split; [unfold getSessionRoute; by rewrite Hmine|].
  split; [done|]. split; [done|].
  split.
  { intros Hnd. unfold addRecentApp.
    eapply sublist_NoDup; [|apply sublist_take].
    apply NoDup_cons. split.
    - intros [? _]%list_elem_of_filter. done.
    - eapply sublist_NoDup; [exact Hnd|apply sublist_filter]. }
  split.
  { intros a Ha. unfold addRecentApp in Ha.
    apply (subseteq_take 5) in Ha.
    apply elem_of_cons in Ha as [->|Ha]; [by left|].
    right. by apply list_elem_of_filter in Ha as [_ ?]. }
  intros other Hother. unfold getSessionRoute. by rewrite Hothers.
Qed.

Lemma app_click_session_round_trip_witness :
  ∃ sessions',
    postSessionRoute 7 "a1" (sessionBody (addRecentApp "forms"
        ["students"; "forms"; "events"; "ops"; "admin"; "more"]))
      MoreSamples.one_user []
    = (Ok tt, sessions')
    ∧ getSessionRoute MoreSamples.no_parse "a1" sessions'
      = JArr (JStr <$> addRecentApp "forms"
                ["students"; "forms"; "events"; "ops"; "admin"; "more"])
    ∧ head (addRecentApp "forms"
              ["students"; "forms"; "events"; "ops"; "admin"; "more"])
      = Some "forms"
    ∧ (Datatypes.length (addRecentApp "forms"
                ["students"; "forms"; "events"; "ops"; "admin"; "more"]) ≤ 5)%nat
    ∧ (NoDup ["students"; "forms"; "events"; "ops"; "admin"; "more"] →
       NoDup (addRecentApp "forms"
                ["students"; "forms"; "events"; "ops"; "admin"; "more"]))
    ∧ (∀ a, a ∈ addRecentApp "forms"
                  ["students"; "forms"; "events"; "ops"; "admin"; "more"] →
            a = "forms"
            ∨ a ∈ ["students"; "forms"; "events"; "ops"; "admin"; "more"])
    ∧ (∀ other, other ≠ "a1" →
         getSessionRoute MoreSamples.no_parse other sessions'
         = getSessionRoute MoreSamples.no_parse other []).
Proof.
  apply (app_click_session_round_trip MoreSamples.no_parse 7 "a1" "forms"
           ["students"; "forms"; "events"; "ops"; "admin"; "more"]
           MoreSamples.one_user []).
  apply (bool_decide_unpack _). vm_compute. exact I.
Defined.

(** The list kept after the click, and the bodies the server refuses: more
    than five entries, an entry that is no string, a value that is no
    array.  A session of an unknown user is rejected by the database. *)
Example session_scenario :
  addRecentApp "forms" ["students"; "forms"; "events"; "ops"; "admin"; "more"]
  = ["forms"; "students"; "events"; "ops"; "admin"]
  ∧ (postSessionRoute 7 "a1"
       (sessionBody ["1"; "2"; "3"; "4"; "5"; "6"]) MoreSamples.one_user []).1
    = Err 400
  ∧ (postSessionRoute 7 "a1" {[ "recentApps" := JArr [JNum 1] ]}
       MoreSamples.one_user []).1 = Err 400
  ∧ (postSessionRoute 7 "a1" {[ "recentApps" := JStr "forms" ]}
       MoreSamples.one_user []).1 = Err 400
  ∧ (postSessionRoute 7 "a1" ∅ MoreSamples.one_user []).1 = Ok tt
  ∧ (postSessionRoute 7 "ghost" (sessionBody ["forms"]) MoreSamples.one_user []).1
    = Err 500
  ∧ getSessionRoute MoreSamples.no_parse "a1" [] = JArr [].
Proof. vm_compute. done. Qed.

(* ===================================================================== *)
(** ** Events *)
(* ===================================================================== *)

Import Events.



(** What is left after the owner deletes the first sample event. *)
Example delete_event_scenario :
  (deleteEventRoute "a1" "e1" MoreSamples.events_table MoreSamples.attendees_table).2
  = ([Events.mkEvent "e2" "Briefing" None "meeting" None None "upcoming" 30 40 "a1"
        JNull (Some 1%Z) (Some 1%Z)],
     [Events.mkEventAttendee "t2" "e2" "a1" "attended" (Some 4%Z) (Some 3%Z)])
  ∧ (deleteEventRoute "a2" "e1" MoreSamples.events_table
       MoreSamples.attendees_table).1 = Err 403.
Proof. vm_compute. done. Qed.

(** X16. Attendance follows the status.  [updateAttendeeStatus] gives the
    rows of the attendee at the event the new status and an attendance time
    that is the time of the call for the status ['attended'] and null for
    any other status (an earlier attendance time is erased); it changes no
    other column and no other row, and returns the first such row, if
    any. *)
Theorem attendance_follows_status (eid aid status : string) (now : Z)
    (attendees : list EventAttendee) :
  let r := updateAttendeeStatus eid aid status now attendees in
  Forall2 (λ a a',
             (ea_id a', ea_eventId a', ea_attendeeId a', ea_registeredAt a')
             = (ea_id a, ea_eventId a, ea_attendeeId a, ea_registeredAt a)
             ∧ if bool_decide (ea_eventId a = eid ∧ ea_attendeeId a = aid)
               then ea_registrationStatus a' = status
                    ∧ ea_attendedAt a'
                      = (if bool_decide (status = "attended") then Some now else None)
               else a' = a)
          attendees r.2
  ∧ (r.1 = None ↔ Forall (λ a, ¬ (ea_eventId a = eid ∧ ea_attendeeId a = aid))
                    attendees)
  ∧ (∀ a', r.1 = Some a' →
       a' ∈ r.2 ∧ ea_eventId a' = eid ∧ ea_attendeeId a' = aid
       ∧ ea_registrationStatus a' = status).
Proof.
  cbn zeta. unfold updateAttendeeStatus. cbn [fst snd].
  assert ((if String.eqb status "attended" then Some now else None)
          = (if bool_decide (status = "attended") then Some now else None)) as ->.
  { destruct (String.eqb_spec status "attended");
      [by rewrite bool_decide_true|by rewrite bool_decide_false]. }
  split.
  { apply Forall2_fmap_r, Forall_Forall2_diag, Forall_forall.
    intros a _. unfold compose.
    by destruct (bool_decide (ea_eventId a = eid ∧ ea_attendeeId a = aid)). }
  split.
  { split.
    - intros Hnone.
      apply (head_filter_None (λ a, ea_eventId a = eid ∧ ea_attendeeId a = aid)).
      by destruct (head (filter _ attendees)).
    - intros Hall.
      apply (head_filter_None (λ a, ea_eventId a = eid ∧ ea_attendeeId a = aid))
        in Hall.
      by rewrite Hall. }
  intros a' Ha'.
  destruct (head (filter _ attendees)) as [a|] eqn:Hhead; [|done].
  injection Ha' as <-.
  apply (head_filter_Some (λ a, ea_eventId a = eid ∧ ea_attendeeId a = aid))
    in Hhead as [[Heid Haid] Hin].
  split; [|done].
  apply list_elem_of_fmap. exists a. split; [|done].
  rewrite (bool_decide_true (ea_eventId a = eid ∧ ea_attendeeId a = aid))
    by (split; assumption).
  reflexivity.
Qed.

(** A registration marked as attended and then as absent has lost its
    attendance time. *)
Example attendance_erased :
  let marked := (updateAttendeeStatus "e1" "a1" "attended" 9 MoreSamples.attendees_table).2 in
  let absent := (updateAttendeeStatus "e1" "a1" "absent" 10 marked).2 in
  (λ a, (ea_id a, ea_registrationStatus a, ea_attendedAt a)) <$> marked
  = [("t1", "attended", Some 9%Z); ("t2", "attended", Some 4%Z);
     ("t3", "attended", Some 9%Z)]
  ∧ (λ a, (ea_id a, ea_registrationStatus a, ea_attendedAt a)) <$> absent
    = [("t1", "absent", None); ("t2", "attended", Some 4%Z); ("t3", "absent", None)].
Proof. vm_compute. done. Qed.

(** X17. A registration by the owner of an event, for an attendee who is
    a user, adds one row with status ['registered'] and no attendance time
    - also when the attendee is registered already, for the table has no
    uniqueness rule; the owner's attendee list of the event then holds the
    new row besides the earlier ones, latest registration first, and
    removing the attendee from the event removes the new row with every
    earlier one. *)
Theorem added_attendee_is_listed (userId eid aid : string) (now : Z)
    (body : gmap string Json) (events : list Event) (users : list Users.User)
    (attendees : list EventAttendee) (e : Event) :
  getEvent eid events = Some e →
  e_createdBy e = userId →
  body !! "attendeeId" = Some (JStr aid) →
  body !! "registrationStatus" = None →
  body !! "attendedAt" = None →
  aid ∈ (Users.u_id <$> users) →
  ∃ a listing,
    addAttendeeRoute userId eid now body events users attendees
    = (Ok a, attendees ++ [a])
    ∧ (ea_eventId a, ea_attendeeId a, ea_registrationStatus a, ea_attendedAt a)
      = (eid, aid, "registered", None)
    ∧ eventAttendeesRoute userId eid events (attendees ++ [a]) = Ok listing
    ∧ listing ≡ₚ a :: getEventAttendees eid attendees
    ∧ StronglySorted (λ x y, later_first (ea_registeredAt x) (ea_registeredAt y))
        listing
    ∧ removeEventAttendee eid aid (attendees ++ [a])
      = removeEventAttendee eid aid attendees.
Proof.
  intros He Hown Haid Hst Hat Huser.
  assert (eid ∈ e_id <$> events) as Hev.
  { apply head_filter_Some in He as [<- ?]. by apply list_elem_of_fmap_2. }
  set (a := mkEventAttendee (fresh (ea_id <$> attendees)) eid aid "registered"
              None (Some now)).
  exists a, (getEventAttendees eid (attendees ++ [a])).
  split.
  { unfold addAttendeeRoute, insertEventAttendeeSchema_parse, addEventAttendee.
    rewrite He, Haid, Hst, Hat. rewrite <- Hown, String.eqb_refl. simpl.
    by rewrite (bool_decide_true _ Hev), (bool_decide_true _ Huser). }
  split; [done|].
  split.
  { unfold eventAttendeesRoute. by rewrite He, <- Hown, String.eqb_refl. }
  split.
  { unfold getEventAttendees. rewrite !merge_sort_Permutation.
    rewrite filter_app, filter_cons, decide_True by done.
    rewrite filter_nil. by rewrite <- Permutation_cons_append. }
  split.
  { unfold getEventAttendees. apply (StronglySorted_merge_sort _). }
  unfold removeEventAttendee.
  rewrite filter_app, filter_cons, decide_False; [by rewrite filter_nil, app_nil_r|].
  intros Hnot. by apply Hnot.
Qed.

Lemma added_attendee_is_listed_witness :
  ∃ a listing,
    addAttendeeRoute "a1" "e1" 9 {[ "attendeeId" := JStr "a1" ]}
      MoreSamples.events_table MoreSamples.one_user MoreSamples.attendees_table
    = (Ok a, MoreSamples.attendees_table ++ [a])
    ∧ (ea_eventId a, ea_attendeeId a, ea_registrationStatus a, ea_attendedAt a)
      = ("e1", "a1", "registered", None)
    ∧ eventAttendeesRoute "a1" "e1" MoreSamples.events_table
        (MoreSamples.attendees_table ++ [a]) = Ok listing
    ∧ listing ≡ₚ a :: getEventAttendees "e1" MoreSamples.attendees_table
    ∧ StronglySorted (λ x y, later_first (ea_registeredAt x) (ea_registeredAt y))
        listing
    ∧ removeEventAttendee "e1" "a1" (MoreSamples.attendees_table ++ [a])
      = removeEventAttendee "e1" "a1" MoreSamples.attendees_table.
Proof.
  apply (added_attendee_is_listed "a1" "e1" "a1" 9 {[ "attendeeId" := JStr "a1" ]}
           MoreSamples.events_table MoreSamples.one_user
           MoreSamples.attendees_table
           (Events.mkEvent "e1" "Open day" None "social" None None "upcoming"
              10 20 "a1" JNull (Some 1%Z) (Some 1%Z)));
    try reflexivity.
  apply (bool_decide_unpack _). vm_compute. exact I.
Defined.

(** The attendee list of the first sample event, latest first; a body
    without an attendee is refused, and so is an attendee who is no user. *)
Example attendee_scenario :
  ea_id <$> getEventAttendees "e1" MoreSamples.attendees_table = ["t3"; "t1"]
  ∧ (addAttendeeRoute "a1" "e1" 9 ∅ MoreSamples.events_table MoreSamples.one_user
       MoreSamples.attendees_table).1 = Err 400
  ∧ (addAttendeeRoute "a1" "e1" 9 {[ "attendeeId" := JStr "ghost" ]}
       MoreSamples.events_table MoreSamples.one_user
       MoreSamples.attendees_table).1 = Err 500
  ∧ getEventRoute "a2" "e1" MoreSamples.events_table = Err 403.
Proof. vm_compute. done. Qed.

(* ===================================================================== *)
(** ** Student import: from the sheet to the lookup *)
(* ===================================================================== *)

Import Schema Storage Routes StudentCSV StudentUpload StudentRoutes Spec.

(** *** Trimming *)

Lemma trimEnd_idem (s : string) : trimEnd (trimEnd s) = trimEnd s.
Proof.
  induction s as [|c s IH]; [done|]. simpl.
  destruct (trimEnd s) as [|c' s'] eqn:E.
  - destruct (is_space c) eqn:Hc; [done|]. simpl. by rewrite Hc.
  - simpl in *. by rewrite IH.
Qed.

Lemma trimStart_head (s : string) :
  trimStart s = EmptyString
  ∨ ∃ c t, trimStart s = String c t ∧ is_space c = false.
Proof.
  induction s as [|c s IH]; [by left|]. simpl.
  destruct (is_space c) eqn:Hc; [done|]. right. by exists c, s.
Qed.

Lemma trimEnd_head (c : ascii) (s : string) :
  is_space c = false → ∃ t, trimEnd (String c s) = String c t.
Proof.
  intros Hc. simpl. destruct (trimEnd s); [|by eexists].
  rewrite Hc. by eexists.
Qed.

Lemma trim_idem (s : string) : trim (trim s) = trim s.
Proof.
  unfold trim. destruct (trimStart_head s) as [->|(c & t & -> & Hc)]; [done|].
  destruct (trimEnd_head c t Hc) as [u Hu].
  rewrite Hu at 1. simpl trimStart. rewrite Hc. rewrite <- Hu.
  apply trimEnd_idem.
Qed.

Lemma cellValue_trimmed (row : list string) (i : nat) :
  trim (cellValue row i) = cellValue row i.
Proof.
  unfold cellValue. destruct (row !! i) as [c|]; [|done].
  destruct (str_truthy (Some c)); [apply trim_idem|done].
Qed.

(** *** What the two passes over the headers do to the BC number *)

Lemma i_student_BC_ensureBag (r : InsertStudent) :
  i_student_BC (ensureBag r) = i_student_BC r.
Proof. unfold ensureBag. by destruct (i_additionalData r). Qed.

Lemma i_student_BC_setExtra (k v : string) (r : InsertStudent) :
  i_student_BC (setExtra k v r) = i_student_BC r.
Proof. unfold setExtra. by destruct (String.eqb k "__proto__"). Qed.

Lemma bc_trimmed_mapHeader (row : list string) (r : InsertStudent) (i : nat)
    (h : string) :
  bc_trimmed r → bc_trimmed (mapHeader row r i h).
Proof.
  intros Hr bc. unfold mapHeader.
  pose proof (cellValue_trimmed row i) as Hv.
  pose proof (i_student_BC_ensureBag r) as He.
  generalize dependent (cellValue row i). intros v Hv.
  generalize dependent (ensureBag r). intros r' He.
  repeat match goal with
         | |- context [if includes ?l ?x then _ else _] =>
             destruct (includes l x)
         end;
    repeat match goal with
           | |- context [if ?c then _ else _] => destruct c
           end;
    rewrite ?i_student_BC_setExtra; simpl; rewrite ?He; intros Hbc;
    simplify_eq; auto.
Qed.

Lemma bc_trimmed_storeUnmapped (row : list string) (r : InsertStudent) (i : nat)
    (h : string) :
  bc_trimmed r → bc_trimmed (storeUnmapped row r i h).
Proof.
  intros Hr. unfold storeUnmapped. destruct (_ && _)%bool; [|done].
  intros bc. rewrite i_student_BC_setExtra. apply Hr.
Qed.

Lemma forEachHeader_invariant (Inv : InsertStudent → Prop)
    (f : InsertStudent → nat → string → InsertStudent) :
  (∀ r i h, Inv r → Inv (f r i h)) →
  ∀ headers i r, Inv r → Inv (forEachHeader f i headers r).
Proof.
  intros Hf headers. induction headers as [|h headers IH]; intros i r Hr; [done|].
  simpl. apply IH. by apply Hf.
Qed.

(** The typed payload that [parseRows] builds from one sheet row. *)
Lemma parseRows_elem (headers : list string) (rows : list (list string))
    (index : nat) (p : ParsedStudentRow) :
  p ∈ (parseRows headers index rows).1 →
  ∃ k cells,
    rows !! k = Some cells
    ∧ StudentCSV.index p = (index + k + 2)%nat
    ∧ data p = forEachHeader (storeUnmapped cells) 0 headers
                 (forEachHeader (mapHeader cells) 0 headers emptyRow)
    ∧ errors p = validateStudentRow (data p)
    ∧ valid p = bool_decide (errors p = []).
Proof.
  revert index. induction rows as [|cells rows IH]; intros index Hp.
  - by apply elem_of_nil in Hp.
  - simpl in Hp. destruct (parseRows headers (S index) rows) as [parsed errs] eqn:E.
    assert (p ∈ parsed → ∃ k cells0,
              (cells :: rows) !! k = Some cells0
              ∧ StudentCSV.index p = (index + k + 2)%nat
              ∧ data p = forEachHeader (storeUnmapped cells0) 0 headers
                           (forEachHeader (mapHeader cells0) 0 headers emptyRow)
              ∧ errors p = validateStudentRow (data p)
              ∧ valid p = bool_decide (errors p = [])) as Hrest.
    { intros Hin. specialize (IH (S index)). rewrite E in IH.
      destruct (IH Hin) as (k & cells0 & Hk & Hidx & Hrest).
      exists (S k), cells0. split; [done|]. split; [lia|done]. }
    destruct (forallb _ cells); simpl in Hp; [by apply Hrest|].
    apply elem_of_cons in Hp as [->|Hp]; [|by apply Hrest].
    exists 0%nat, cells. simpl. split; [done|]. split; [lia|].
    split; [done|]. split; [done|].
    by destruct (validateStudentRow _).
Qed.

(** A row with no error carries a BC number that is not blank. *)
Lemma validateStudentRow_nil (r : InsertStudent) :
  validateStudentRow r = [] →
  ∃ bc, i_student_BC r = Some bc ∧ trim bc ≠ "".
Proof.
  unfold validateStudentRow. intros Hv.
  destruct (i_student_BC r) as [bc|]; simpl in Hv; [|discriminate].
  exists bc. split; [done|].
  destruct (String.eqb_spec (trim bc) ""); [discriminate|done].
Qed.

Lemma parsed_valid_bc (headers : list string) (rows : list (list string))
    (index : nat) (p : ParsedStudentRow) :
  p ∈ (parseRows headers index rows).1 →
  valid p = true →
  ∃ bc, i_student_BC (data p) = Some bc ∧ bc ≠ "" ∧ trim bc = bc.
Proof.
  intros Hp Hvalid.
  apply parseRows_elem in Hp as (k & cells & _ & _ & Hdata & Herr & Hv).
  rewrite Hv in Hvalid. apply bool_decide_eq_true in Hvalid.
  rewrite Herr in Hvalid.
  apply validateStudentRow_nil in Hvalid as (bc & Hbc & Hne).
  assert (bc_trimmed (data p)) as Htrim.
  { rewrite Hdata.
    apply forEachHeader_invariant; [apply bc_trimmed_storeUnmapped|].
    apply forEachHeader_invariant; [apply bc_trimmed_mapHeader|].
    by intros ?. }
  exists bc. split; [done|]. split; [|by apply Htrim].
  intros ->. by apply Hne.
Qed.

(** X18. Every row that the student sheet parser marks valid carries a BC
    number that is not empty and has no white space around it, and an
    error list that is empty; its row number is the position in the sheet
    (the header being row 1). *)
Theorem valid_rows_have_trimmed_bc (headers : list string)
    (dataRows : list (list string)) (parsed : list ParsedStudentRow)
    (errs : list string) (p : ParsedStudentRow) :
  parseDataRows headers dataRows = Parsed parsed errs →
  p ∈ parsed →
  valid p = true →
  (∃ bc, i_student_BC (data p) = Some bc ∧ bc ≠ "" ∧ trim bc = bc)
  ∧ errors p = []
  ∧ ∃ k cells, dataRows !! k = Some cells ∧ StudentCSV.index p = (k + 2)%nat.
Proof.
  unfold parseDataRows. intros Hparse Hp Hvalid.
  destruct (existsb _ _); [|discriminate].
  destruct (parseRows headers 0 dataRows) as [parsed0 errs0] eqn:E.
  injection Hparse as <- <-.
  assert (p ∈ (parseRows headers 0 dataRows).1) as Hp' by by rewrite E.
  split; [by eapply parsed_valid_bc|].
  apply parseRows_elem in Hp' as (k & cells & Hk & Hidx & _ & _ & Hv).
  rewrite Hv in Hvalid. apply bool_decide_eq_true in Hvalid.
  split; [done|]. by exists k, cells.
Qed.

(** *** From the upload to the table *)

Lemma getStudentByStudentId_present (bc : string) (tbl : list Student) :
  Some bc ∈ (student_BC <$> tbl) →
  ∃ s, getStudentByStudentId (Some bc) tbl = Some s ∧ student_BC s = Some bc.
Proof.
  intros Hin. simpl.
  destruct (head (filter (λ s, student_BC s = Some bc) tbl)) as [s|] eqn:Hhead.
  - exists s. split; [done|]. by apply head_filter_Some in Hhead as [? _].
  - apply head_filter_None in Hhead. rewrite Forall_forall in Hhead.
    apply list_elem_of_fmap in Hin as (s & Hs & Hin). by destruct (Hhead s).
Qed.

(** An upsert loses no BC number of the table and adds the one of its
    row. *)
Lemma upsertStudent_present (now : Z) (r : InsertStudent) (tbl tbl' : list Student)
    (s : Student) (bc : string) :
  students_wf tbl →
  upsertStudent now r tbl = Some (s, tbl') →
  Some bc ∈ (student_BC <$> tbl) ∨ i_student_BC r = Some bc →
  Some bc ∈ (student_BC <$> tbl').
Proof.
  intros Hwf Hup Hbc.
  destruct (upsertStudent_spec now r tbl Hwf) as (s0 & tbl0 & Hup0 & _ & _ & Hone & _).
  rewrite Hup in Hup0. injection Hup0 as <- <-.
  assert (i_student_BC r = Some bc → Some bc ∈ student_BC <$> tbl') as Hrow.
  { intros Hr. specialize (Hone bc Hr).
    assert (s ∈ filter (λ s, student_BC s = Some bc) tbl') as Hs
      by (rewrite Hone; by left).
    apply list_elem_of_filter in Hs as [Hs Hin].
    rewrite <- Hs. by apply list_elem_of_fmap_2. }
  destruct Hbc as [Hold|Hr]; [|by apply Hrow].
  apply list_elem_of_fmap in Hold as (g & Hg & Hin).
  unfold upsertStudent in Hup.
  destruct (getStudentByStudentId (i_student_BC r) tbl) as [ex|] eqn:Hex.
  - rewrite updateStudent_columns in Hup by (by apply (noColumns_found r tbl ex)).
    destruct (head (filter _ tbl)); simpl in Hup; [|discriminate].
    destruct (student_BC_free _ _ _); [|discriminate].
    injection Hup as _ <-.
    destruct (decide (s_id g = s_id ex)) as [Hid|Hid].
    + apply Hrow.
      destruct (i_student_BC r) as [bc0|] eqn:Hr; [|done].
      pose proof (lookup_found_bc _ _ _ Hex) as Hexbc.
      assert (ex ∈ tbl) as Hexin.
      { simpl in Hex. by apply head_filter_Some in Hex as [_ ?]. }
      assert (g = ex) as ->.
      { destruct Hwf as [Hids _]. by eapply (NoDup_fmap_eq s_id). }
      congruence.
    + rewrite Hg. apply list_elem_of_fmap. exists g. split; [done|].
      apply list_elem_of_fmap. exists g. by rewrite bool_decide_false.
  - unfold createStudent in Hup.
    destruct (student_BC_free _ _ _); [|discriminate].
    injection Hup as _ <-.
    rewrite Hg. apply list_elem_of_fmap_2. apply elem_of_app. by left.
Qed.

(** Without database failures the loop commits every row: the BC numbers
    of the table and of the rows are all in the final table, which has as
    many results as rows. *)
Lemma bulkLoop_present (now : Z) (rows : list InsertStudent) :
  ∀ (i : nat) (results tbl : list Student),
    students_wf tbl →
    ∃ created tbl',
      bulkLoop (λ _, false) now i rows results tbl = (results ++ created, tbl')
      ∧ students_wf tbl'
      ∧ length created = length rows
      ∧ ∀ bc, Some bc ∈ (student_BC <$> tbl)
              ∨ (∃ r, r ∈ rows ∧ i_student_BC r = Some bc) →
              Some bc ∈ (student_BC <$> tbl').
Proof.
  induction rows as [|r rows IH]; intros i results tbl Hwf.
  - exists [], tbl. simpl. rewrite app_nil_r. split; [done|]. split; [done|].
    split; [done|]. intros bc [?|(r & Hr & _)]; [done|].
    by apply elem_of_nil in Hr.
  - simpl.
    destruct (upsertStudent_spec now r tbl Hwf) as (s & tbl1 & Hup & Hwf1 & _).
    rewrite Hup.
    destruct (IH (S i) (results ++ [s]) tbl1 Hwf1)
      as (created & tbl' & Hloop & Hwf' & Hlen & Hpresent).
    exists (s :: created), tbl'. rewrite Hloop, <- app_assoc. simpl.
    split; [done|]. split; [done|]. split; [by rewrite Hlen|].
    intros bc Hbc. apply Hpresent.
    destruct Hbc as [Hold|(r0 & Hr0 & Hbc)].
    + left. apply (upsertStudent_present now r tbl tbl1 s bc Hwf Hup). by left.
    + apply elem_of_cons in Hr0 as [->|Hr0].
      * left. apply (upsertStudent_present now r tbl tbl1 s bc Hwf Hup). by right.
      * right. by exists r0.
Qed.

(** The lookup of one trimmed BC number that the table holds, without a
    form. *)
Lemma lookup_single_found (compare : Json → option bool) (bc : string)
    (forms : list Form) (tbl : list Student) (s : Student) :
  getStudentByStudentId (Some bc) tbl = Some s →
  trim bc = bc → bc ≠ "" →
  lookupBcRoute compare (Some [JStr bc]) None forms tbl
  = Ok (mkLookupResponse [summary s] [] None).
Proof.
  intros Hs Htrim Hne. unfold lookupBcRoute, lookupContext. cbn [str_truthy].
  cbn [lookupLoop]. unfold lookupStep. rewrite Htrim.
  destruct (String.eqb_spec bc "") as [|_]; [done|]. cbn [negb].
  rewrite Hs. reflexivity.
Qed.

Lemma lookup_single_missing (compare : Json → option bool) (bc : string)
    (forms : list Form) (tbl : list Student) :
  getStudentByStudentId (Some bc) tbl = None →
  trim bc = bc → bc ≠ "" →
  lookupBcRoute compare (Some [JStr bc]) None forms tbl
  = Ok (mkLookupResponse [] [bc] None).
Proof.
  intros Hs Htrim Hne. unfold lookupBcRoute, lookupContext. cbn [str_truthy].
  cbn [lookupLoop]. unfold lookupStep. rewrite Htrim.
  destruct (String.eqb_spec bc "") as [|_]; [done|]. cbn [negb].
  rewrite Hs. reflexivity.
Qed.

Lemma i_student_BC_uploadRow (p : ParsedStudentRow) :
  i_student_BC (uploadRow p) = i_student_BC (data p).
Proof. reflexivity. Qed.

(** X19. From the sheet to the lookup.  When the student sheet parses and
    the database does not fail, uploading the preview to a well-formed
    table succeeds and commits as many records as there are valid rows;
    afterwards the public lookup of the BC number of any valid row finds
    one student with that number. *)
Theorem imported_rows_can_be_looked_up (compare : Json → option bool)
    (userId : string) (now : Z)
    (headers : list string) (dataRows : list (list string))
    (parsed : list ParsedStudentRow) (errs : list string)
    (forms : list Form) (tbl : list Student) (p : ParsedStudentRow) :
  students_wf tbl →
  parseDataRows headers dataRows = Parsed parsed errs →
  p ∈ parsed →
  valid p = true →
  ∃ response tbl' bc s,
    handleUpload (λ _, false) userId now parsed tbl
    = (ImportSuccessful (length (validStudents parsed)) response, tbl')
    ∧ length (students response) = length (validStudents parsed)
    ∧ students_wf tbl'
    ∧ i_student_BC (data p) = Some bc
    ∧ student_BC s = Some bc
    ∧ lookupBcRoute compare (Some [JStr bc]) None forms tbl'
      = Ok (mkLookupResponse [summary s] [] None).
Proof.
  intros Hwf Hparse Hp Hvalid.
  assert (∃ bc, i_student_BC (data p) = Some bc ∧ bc ≠ "" ∧ trim bc = bc)
    as (bc & Hbc & Hne & Htrim).
  { unfold parseDataRows in Hparse. destruct (existsb _ _); [|discriminate].
    destruct (parseRows headers 0 dataRows) as [parsed0 errs0] eqn:E.
    injection Hparse as <- <-.
    apply (parsed_valid_bc headers dataRows 0); [by rewrite E|done]. }
  assert (uploadRow p ∈ validStudents parsed) as Hrow.
  { unfold validStudents. apply list_elem_of_fmap_2.
    by apply list_elem_of_filter. }
  set (payload := validStudents parsed) in *.
  destruct (bulkLoop_present now (withCreator userId <$> payload) 0 [] tbl Hwf)
    as (created & tbl' & Hloop & Hwf' & Hlen & Hpresent).
  assert (Some bc ∈ student_BC <$> tbl') as Hin.
  { apply Hpresent. right. exists (withCreator userId (uploadRow p)).
    split; [by apply list_elem_of_fmap_2|done]. }
  apply getStudentByStudentId_present in Hin as (s & Hs & Hsbc).
  eexists _, tbl', bc, s.
  split.
  { unfold handleUpload. destruct parsed as [|p0 parsed]; [by apply elem_of_nil in Hp|].
    fold payload. unfold studentsBulkRoute, bulkCreateStudents.
    destruct payload as [|r payload]; [by apply elem_of_nil in Hrow|].
    rewrite fmap_cons in Hloop |- *. rewrite Hloop. reflexivity. }
  split; [simpl; by rewrite Hlen, length_fmap|].
  split; [done|]. split; [done|]. split; [done|].
  by apply lookup_single_found.
Qed.

Lemma valid_rows_have_trimmed_bc_witness :
  (∃ bc, i_student_BC (data MoreSamples.first_parsed) = Some bc
         ∧ bc ≠ "" ∧ trim bc = bc)
  ∧ errors MoreSamples.first_parsed = []
  ∧ ∃ k cells, MoreSamples.sheet_rows !! k = Some cells
               ∧ StudentCSV.index MoreSamples.first_parsed = (k + 2)%nat.
Proof.
  apply (valid_rows_have_trimmed_bc MoreSamples.sheet_headers MoreSamples.sheet_rows
           MoreSamples.parsed_sheet MoreSamples.sheet_errors
           MoreSamples.first_parsed).
  - vm_compute. reflexivity.
  - vm_compute. left.
  - vm_compute. reflexivity.
Defined.

(** The sample sheet: the first row is valid with the trimmed number and
    the lower-cased status, the blank row is skipped, and the row without
    a number is invalid and named by its sheet row. *)
Example sheet_scenario :
  (λ p, (StudentCSV.index p, i_student_BC (data p), i_fullName (data p),
         i_status (data p), getExtra "Hobby" (data p), valid p))
    <$> MoreSamples.parsed_sheet
  = [(2%nat, Some "A1", Some "Jane", Some "active", Some "Chess", true);
     (4%nat, None, Some "Tom", None, None, false)]
  ∧ MoreSamples.sheet_errors = ["Row 4: BC No is required"].
Proof. vm_compute. done. Qed.

Lemma imported_rows_can_be_looked_up_witness :
  ∃ response tbl' bc s,
    handleUpload (λ _, false) "u1" 5 MoreSamples.parsed_sheet []
    = (ImportSuccessful (length (validStudents MoreSamples.parsed_sheet)) response,
       tbl')
    ∧ length (students response) = length (validStudents MoreSamples.parsed_sheet)
    ∧ students_wf tbl'
    ∧ i_student_BC (data MoreSamples.first_parsed) = Some bc
    ∧ student_BC s = Some bc
    ∧ lookupBcRoute (λ _, None) (Some [JStr bc]) None Samples.forms_table tbl'
      = Ok (mkLookupResponse [summary s] [] None).
Proof.
  apply (imported_rows_can_be_looked_up (λ _, None) "u1" 5 MoreSamples.sheet_headers
           MoreSamples.sheet_rows MoreSamples.parsed_sheet MoreSamples.sheet_errors
           Samples.forms_table [] MoreSamples.first_parsed).
  - split; apply NoDup_nil_2.
  - vm_compute. reflexivity.
  - vm_compute. left.
  - vm_compute. reflexivity.
Defined.

(** *** Statuses *)

Lemma is_space_lower_char (c : ascii) : is_space (lower_char c) = is_space c.
Proof. by destruct c as [[] [] [] [] [] [] [] []]. Qed.

Lemma trimStart_toLowerCase (s : string) :
  trimStart (toLowerCase s) = toLowerCase (trimStart s).
Proof.
  induction s as [|c s IH]; [done|]. simpl.
  rewrite is_space_lower_char. by destruct (is_space c).
Qed.

Lemma trimEnd_toLowerCase (s : string) :
  trimEnd (toLowerCase s) = toLowerCase (trimEnd s).
Proof.
  induction s as [|c s IH]; [done|]. simpl. rewrite IH.
  destruct (trimEnd s); simpl; [|done].
  rewrite is_space_lower_char. by destruct (is_space c).
Qed.

Lemma trim_toLowerCase (s : string) : trim (toLowerCase s) = toLowerCase (trim s).
Proof. unfold trim. by rewrite trimStart_toLowerCase, trimEnd_toLowerCase. Qed.

Lemma uploadStatus_known (status : option string) :
  uploadStatus status ∈ knownStatuses.
Proof.
  unfold uploadStatus, knownStatuses.
  destruct (negb _); [by constructor|].
  unfold includes. case_bool_decide; [done|by constructor].
Qed.

(** X20. The upload never sends an unknown status: each valid row is sent
    with all its values and a status that is one of ['active'],
    ['inactive'], ['transferred'], ['graduated'] - the status text of the
    row in lower case and trimmed when that is one of the four, and
    ['active'] in every other case, also when the row has no status. *)
Theorem upload_sends_known_statuses (parsedData : list ParsedStudentRow) :
  Forall2 (λ p r,
             r = setField F_status (uploadStatus (i_status (data p))) (data p)
             ∧ valid p = true
             ∧ ∃ st, i_status r = Some st ∧ st ∈ knownStatuses)
          (filter (λ p, valid p = true) parsedData) (validStudents parsedData)
  ∧ (∀ s, trim (toLowerCase s) ∈ knownStatuses →
          uploadStatus (Some s) = trim (toLowerCase s))
  ∧ (∀ s, trim (toLowerCase s) ∉ knownStatuses → uploadStatus (Some s) = "active")
  ∧ uploadStatus None = "active".
Proof.
  split.
  { unfold validStudents. apply Forall2_fmap_r, Forall_Forall2_diag, Forall_forall.
    intros p [Hv _]%list_elem_of_filter. split; [done|]. split; [done|].
    exists (uploadStatus (i_status (data p))).
    split; [done|apply uploadStatus_known]. }
  split.
  { intros s Hs. unfold uploadStatus. cbn [fmap option_fmap option_map str_truthy default].
    destruct (String.eqb_spec (trim s) "") as [He|_].
    - rewrite trim_toLowerCase, He in Hs. unfold knownStatuses in Hs.
      simpl in Hs. exfalso.
      repeat (apply elem_of_cons in Hs as [Hs|Hs]; [discriminate|]).
      by apply elem_of_nil in Hs.
    - cbn [negb]. unfold includes. by rewrite bool_decide_true. }
  split; [|done].
  intros s Hs. unfold uploadStatus. cbn [fmap option_fmap option_map str_truthy default].
  destruct (negb (negb _)); [done|].
  unfold includes. by rewrite bool_decide_false.
Qed.

(** Spellings of a status and what is sent for them. *)
Example upload_status_examples :
  uploadStatus <$> [Some " Graduated "; Some "ACTIVE"; Some "enrolled"; Some "  "; None]
  = ["graduated"; "active"; "active"; "active"; "active"].
Proof. vm_compute. reflexivity. Qed.

(** *** Columns the importer does not know *)

Lemma lower_char_idem (c : ascii) : lower_char (lower_char c) = lower_char c.
Proof. by destruct c as [[] [] [] [] [] [] [] []]. Qed.

Lemma toLowerCase_idem (s : string) : toLowerCase (toLowerCase s) = toLowerCase s.
Proof.
  induction s as [|c s IH]; [done|]. simpl. by rewrite lower_char_idem, IH.
Qed.

Lemma getExtra_setExtra_eq (k v : string) (r : InsertStudent) :
  k ≠ "__proto__" → getExtra k (setExtra k v r) = Some v.
Proof.
  intros Hk. unfold getExtra, setExtra.
  destruct (String.eqb_spec k "__proto__") as [|_]; [done|].
  simpl. apply lookup_insert_eq.
Qed.

Lemma getExtra_setExtra_ne (k k' v : string) (r : InsertStudent) :
  k ≠ k' → getExtra k (setExtra k' v r) = getExtra k r.
Proof.
  intros Hne. unfold getExtra, setExtra.
  destruct (String.eqb k' "__proto__"); simpl.
  - destruct (i_additionalData r); [done|apply lookup_empty].
  - rewrite lookup_insert_ne by done.
    destruct (i_additionalData r); [done|apply lookup_empty].
Qed.

Lemma storeUnmapped_other (cells : list string) (r : InsertStudent) (j : nat)
    (h h' : string) :
  h' ≠ h → getExtra h (storeUnmapped cells r j h') = getExtra h r.
Proof.
  intros Hne. unfold storeUnmapped.
  destruct (_ && _)%bool; [|done]. by apply getExtra_setExtra_ne.
Qed.

Lemma storeUnmapped_later (cells : list string) (h : string) (rest : list string) :
  ∀ start r,
    Forall (λ h', h' ≠ h) rest →
    getExtra h (forEachHeader (storeUnmapped cells) start rest r) = getExtra h r.
Proof.
  induction rest as [|h' rest IH]; intros start r Hall; [done|].
  apply Forall_cons in Hall as [Hh' Hall]. simpl.
  rewrite IH by done. by apply storeUnmapped_other.
Qed.

Lemma storeUnmapped_at (cells : list string) (h : string) (headers : list string) :
  ∀ start r i,
    headers !! i = Some h →
    h ≠ "" →
    h ≠ "__proto__" →
    toLowerCase h ∉ knownFields →
    cellValue cells (start + i) ≠ "" →
    (∀ j h', (i < j)%nat → headers !! j = Some h' → h' ≠ h) →
    getExtra h (forEachHeader (storeUnmapped cells) start headers r)
    = Some (cellValue cells (start + i)).
Proof.
  induction headers as [|h0 headers IH];
    intros start r i Hi Hh Hproto Hunknown Hcell Hlast; [done|].
  destruct i as [|i]; simpl in Hi.
  - injection Hi as ->. simpl. rewrite storeUnmapped_later.
    + unfold storeUnmapped. rewrite Nat.add_0_r in *.
      assert (str_truthy (Some (cellValue cells start)) = true) as ->.
      { simpl. by destruct (String.eqb_spec (cellValue cells start) ""). }
      assert (str_truthy (Some h) = true) as ->.
      { simpl. by destruct (String.eqb_spec h ""). }
      unfold isKnownField, includes. rewrite toLowerCase_idem.
      rewrite bool_decide_false by done. simpl.
      by apply getExtra_setExtra_eq.
    + apply Forall_forall. intros h' Hin.
      apply list_elem_of_lookup in Hin as [j Hj].
      apply (Hlast (S j)); [lia|done].
  - simpl. replace (start + S i)%nat with (S start + i)%nat in * by lia.
    apply IH; try done.
    intros j h' Hj Hh'. apply (Hlast (S j)); [lia|done].
Qed.

(** X21. No unknown column is lost.  In every parsed row of the student
    sheet, a column whose header is ASCII, not empty, not [__proto__] and
    no known field name, and whose cell is ASCII and not blank, is kept
    in the additional data of the row under the header text, with the
    trimmed cell as value - provided no later column has the same
    header. *)
Theorem unknown_columns_are_kept (headers : list string)
    (dataRows : list (list string)) (parsed : list ParsedStudentRow)
    (errs : list string) (p : ParsedStudentRow) :
  parseDataRows headers dataRows = Parsed parsed errs →
  p ∈ parsed →
  ∃ k cells,
    dataRows !! k = Some cells
    ∧ StudentCSV.index p = (k + 2)%nat
    ∧ ∀ i h,
        headers !! i = Some h →
        h ≠ "" →
        h ≠ "__proto__" →
        ascii_only h = true →
        (∀ c, cells !! i = Some c → ascii_only c = true) →
        toLowerCase h ∉ knownFields →
        cellValue cells i ≠ "" →
        (∀ j h', (i < j)%nat → headers !! j = Some h' → h' ≠ h) →
        getExtra h (data p) = Some (cellValue cells i).
Proof.
  unfold parseDataRows. intros Hparse Hp.
  destruct (existsb _ _); [|discriminate].
  destruct (parseRows headers 0 dataRows) as [parsed0 errs0] eqn:E.
  injection Hparse as <- <-.
  assert (p ∈ (parseRows headers 0 dataRows).1) as Hp' by by rewrite E.
  apply parseRows_elem in Hp' as (k & cells & Hk & Hidx & Hdata & _).
  exists k, cells. split; [done|]. split; [done|].
  intros i h Hi Hh Hproto _ _ Hunknown Hcell Hlast. rewrite Hdata.
  by apply (storeUnmapped_at cells h headers 0 _ i).
Qed.

Lemma unknown_columns_are_kept_witness :
  ∃ k cells,
    MoreSamples.sheet_rows !! k = Some cells
    ∧ StudentCSV.index MoreSamples.first_parsed = (k + 2)%nat
    ∧ ∀ i h,
        MoreSamples.sheet_headers !! i = Some h →
        h ≠ "" →
        h ≠ "__proto__" →
        ascii_only h = true →
        (∀ c, cells !! i = Some c → ascii_only c = true) →
        toLowerCase h ∉ knownFields →
        cellValue cells i ≠ "" →
        (∀ j h', (i < j)%nat → MoreSamples.sheet_headers !! j = Some h' → h' ≠ h) →
        getExtra h (data MoreSamples.first_parsed) = Some (cellValue cells i).
Proof.
  apply (unknown_columns_are_kept MoreSamples.sheet_headers MoreSamples.sheet_rows
           MoreSamples.parsed_sheet MoreSamples.sheet_errors
           MoreSamples.first_parsed).
  - vm_compute. reflexivity.
  - vm_compute. left.
Defined.

(** *** The error list *)

Lemma parseRows_errs (headers : list string) (rows : list (list string)) :
  ∀ index,
    (parseRows headers index rows).2
    = errorLine <$> filter (λ p, valid p = false) (parseRows headers index rows).1
    ∧ Forall (λ p, (index + 2 ≤ StudentCSV.index p)%nat)
        (parseRows headers index rows).1
    ∧ StronglySorted lt (StudentCSV.index <$> (parseRows headers index rows).1)
    ∧ (length (parseRows headers index rows).1 ≤ length rows)%nat.
Proof.
  induction rows as [|cells rows IH]; intros index.
  - simpl. repeat split; constructor.
  - simpl. destruct (IH (S index)) as (Herrs & Hge & Hsorted & Hlen).
    destruct (parseRows headers (S index) rows) as [parsed errs].
    simpl in Herrs, Hge, Hsorted, Hlen.
    assert (Forall (λ p, (index + 2 ≤ StudentCSV.index p)%nat) parsed) as Hge'.
    { eapply Forall_impl; [exact Hge|]. simpl. intros p ?. lia. }
    destruct (forallb _ cells); simpl.
    { split; [done|]. split; [done|]. split; [done|]. lia. }
    split.
    { destruct (validateStudentRow _) as [|e es] eqn:Hv.
      - by rewrite filter_cons_False.
      - rewrite filter_cons_True by done. rewrite fmap_cons.
        by f_equal. }
    split; [constructor; [simpl; lia|done]|].
    split; [|lia].
    constructor; [done|]. apply Forall_fmap.
    eapply Forall_impl; [exact Hge|]. simpl. intros p ?. lia.
Qed.

(** X22. The error list of the student sheet has exactly one line for
    each invalid row, in sheet order, naming the row by its number in the
    sheet and listing its errors; a row is valid exactly when it has no
    error; the row numbers of the preview grow strictly, and blank rows
    are left out of it.  A sheet without a BC column gives the single
    error "Missing required headers: BC No". *)
Theorem error_list_names_invalid_rows (headers : list string)
    (dataRows : list (list string)) :
  match parseDataRows headers dataRows with
  | Parsed parsedData validationErrors =>
      validationErrors = errorLine <$> filter (λ p, valid p = false) parsedData
      ∧ Forall (λ p, valid p = true ↔ errors p = []) parsedData
      ∧ StronglySorted lt (StudentCSV.index <$> parsedData)
      ∧ (length parsedData ≤ length dataRows)%nat
      ∧ Exists (λ h, toLowerCase h ∈ bcHeaderVariants) headers
  | MissingHeaders validationErrors =>
      validationErrors = ["Missing required headers: BC No"]
      ∧ Forall (λ h, toLowerCase h ∉ bcHeaderVariants) headers
  end.
Proof.
  unfold parseDataRows.
  destruct (existsb _ bcHeaderVariants) eqn:Hex.
  - destruct (parseRows_errs headers dataRows 0) as (Herrs & _ & Hsorted & Hlen).
    pose proof (parseRows_elem headers dataRows 0) as Helem.
    destruct (parseRows headers 0 dataRows) as [parsed errs].
    split; [done|]. split.
    { apply Forall_forall. intros p Hp.
      destruct (Helem p Hp) as (_ & _ & _ & _ & _ & _ & ->).
      apply bool_decide_eq_true. }
    split; [done|]. split; [done|].
    apply existsb_exists in Hex as (variant & Hvar & Hin).
    unfold includes in Hin. apply bool_decide_eq_true in Hin.
    apply list_elem_of_fmap in Hin as (h & -> & Hh).
    apply Exists_exists. exists h. split; [done|].
    by apply list_elem_of_In.
  - split; [done|]. apply Forall_forall. intros h Hh Hvar.
    assert (existsb (λ variant, includes (toLowerCase <$> headers) variant)
              bcHeaderVariants = true) as Htrue; [|congruence].
    apply existsb_exists. exists (toLowerCase h).
    split; [by apply list_elem_of_In|].
    unfold includes. apply bool_decide_eq_true. by apply list_elem_of_fmap_2.
Qed.

(** A sheet whose only column is a name has no BC column. *)
Example missing_bc_header :
  parseDataRows ["Name"; "Class"] [["Jane"; "1A"]]
  = MissingHeaders ["Missing required headers: BC No"].
Proof. vm_compute. reflexivity. Qed.

(** *** Deleting a student *)

Lemma omap_sublist_mono {A B : Type} (f : A → option B) (l1 l2 : list A) :
  sublist l1 l2 → sublist (omap f l1) (omap f l2).
Proof.
  induction 1 as [|x l1 l2 _ IH|x l1 l2 _ IH]; simpl.
  - constructor.
  - destruct (f x); [by constructor|done].
  - destruct (f x); [by constructor|done].
Qed.

(** X23. A deleted student is gone for the lookup.  On a well-formed
    table, a student whose BC number is ASCII, not empty and free of
    surrounding white space is found by the public lookup of that
    number; deleting the student with the given id removes that row and
    no other, keeps the table well formed, and the lookup of the number
    then reports it as not found; the id of a student that does not
    exist is answered 404 and changes nothing. *)
Theorem deleted_student_is_not_found (compare : Json → option bool)
    (sid bc : string) (forms : list Form)
    (tbl : list Student) (s : Student) :
  students_wf tbl →
  getStudent sid tbl = Some s →
  student_BC s = Some bc →
  ascii_only bc = true →
  trim bc = bc → bc ≠ "" →
  lookupBcRoute compare (Some [JStr bc]) None forms tbl
  = Ok (mkLookupResponse [summary s] [] None)
  ∧ ∃ tbl',
      deleteStudentRoute sid tbl = (Ok tt, tbl')
      ∧ tbl' = filter (λ g, s_id g ≠ sid) tbl
      ∧ students_wf tbl'
      ∧ getStudentRoute sid tbl' = Err 404
      ∧ deleteStudentRoute sid tbl' = (Err 404, tbl')
      ∧ lookupBcRoute compare (Some [JStr bc]) None forms tbl'
        = Ok (mkLookupResponse [] [bc] None).
Proof.
  intros Hwf Hs Hbc _ Htrim Hne.
  apply head_filter_Some in Hs as Hs'. destruct Hs' as [Hid Hin].
  assert (getStudentByStudentId (Some bc) tbl = Some s) as Hfound.
  { destruct (getStudentByStudentId_present bc tbl) as (s' & Hs' & Hbc').
    { rewrite <- Hbc. by apply list_elem_of_fmap_2. }
    rewrite Hs'. f_equal.
    apply (students_wf_same_bc tbl s' s bc); try done.
    simpl in Hs'. by apply head_filter_Some in Hs' as [_ ?]. }
  split; [by apply lookup_single_found|].
  exists (filter (λ g, s_id g ≠ sid) tbl).
  assert (getStudent sid (filter (λ g, s_id g ≠ sid) tbl) = None) as Hgone.
  { unfold getStudent. apply head_filter_None, Forall_forall.
    by intros g [? _]%list_elem_of_filter. }
  split; [unfold deleteStudentRoute, deleteStudent; by rewrite Hs|].
  split; [done|].
  split.
  { destruct Hwf as [Hids Hbcs]. split.
    - eapply sublist_NoDup; [exact Hids|]. apply fmap_sublist, sublist_filter.
    - eapply sublist_NoDup; [exact Hbcs|]. apply omap_sublist_mono, sublist_filter. }
  split; [unfold getStudentRoute; by rewrite Hgone|].
  split; [unfold deleteStudentRoute; by rewrite Hgone|].
  apply lookup_single_missing; [|done|done].
  simpl. apply head_filter_None, Forall_forall.
  intros g [Hg Hgin]%list_elem_of_filter Hgbc.
  assert (g = s) as -> by by apply (students_wf_same_bc tbl g s bc).
  done.
Qed.

Lemma deleted_student_is_not_found_witness :
  lookupBcRoute (λ _, None) (Some [JStr "BC001"]) None Samples.forms_table
    Samples.students_table
  = Ok (mkLookupResponse
          [summary (default (mkStudent "" None None None None None None None None
                               None None None None None None "" None None None None)
                      (head Samples.students_table))] [] None)
  ∧ ∃ tbl',
      deleteStudentRoute "s1" Samples.students_table = (Ok tt, tbl')
      ∧ tbl' = filter (λ g, s_id g ≠ "s1") Samples.students_table
      ∧ students_wf tbl'
      ∧ getStudentRoute "s1" tbl' = Err 404
      ∧ deleteStudentRoute "s1" tbl' = (Err 404, tbl')
      ∧ lookupBcRoute (λ _, None) (Some [JStr "BC001"]) None Samples.forms_table tbl'
        = Ok (mkLookupResponse [] ["BC001"] None).
Proof.
  apply (deleted_student_is_not_found (λ _, None) "s1" "BC001" Samples.forms_table
           Samples.students_table).
  - split; apply (bool_decide_unpack _); vm_compute; exact I.
  - reflexivity.
  - reflexivity.
  - reflexivity.
  - reflexivity.
  - discriminate.
Defined.

(** *** Creating and updating one student *)




(** A second student with the BC number of the first is refused. *)
Example create_student_duplicate :
  createStudentRoute "u1" 5 MoreSamples.renumbering Samples.students_table
  = (Err 500, Samples.students_table).
Proof. vm_compute. reflexivity. Qed.





(** The second student cannot take the BC number of the first, and can
    take a new one. *)
Example update_student_scenario :
  updateStudentRoute "s2" MoreSamples.renumbering Samples.students_table
  = (Err 500, Samples.students_table)
  ∧ (updateStudentRoute "s2" MoreSamples.new_student Samples.students_table).1
    = Ok (mkStudent "s2" (Some "BC003") (Some "Omar") None None (Some "P3")
            (Some "3C") None None None None None None None None "active" None None
            None None)
  ∧ updateStudentRoute "s9" MoreSamples.new_student Samples.students_table
    = (Err 404, Samples.students_table).
Proof. vm_compute. done. Qed.

(** ** Is the form ready? *)

Import Completion.

Lemma push_unless_nil (cond : bool) (label : string) (missing : list string) :
  push_unless cond label missing = [] ↔ cond = true ∧ missing = [].
Proof.
  unfold push_unless. destruct cond; simpl.
  - split; [by intros ->|by intros [_ ->]].
  - split; [|by intros [? _]]. intros H. by apply app_nil in H as [_ ?].
Qed.

Lemma toBoolean_of_string (o : option string) :
  toBoolean (of_string o) = str_truthy o.
Proof. by destruct o. Qed.

Lemma toBoolean_and_then (a b : JsValue) :
  toBoolean (and_then a b) = (toBoolean a && toBoolean b)%bool.
Proof. unfold and_then. by destruct (toBoolean a) eqn:E; simpl; [|rewrite E]. Qed.

(** The two checks as conjunctions of the same conditions. *)
Lemma isFormComplete_spec (values : FormValues) (n : nat) :
  toBoolean (isFormComplete values n) = true
  ↔ str_truthy (trim <$> v_title values) = true
    ∧ str_truthy (trim <$> v_description values) = true
    ∧ str_truthy (v_formType values) = true
    ∧ str_truthy (trim <$> v_formUrl values) = true
    ∧ n ≠ 0%nat
    ∧ (is_parents_survey values = true →
       str_truthy (v_submissionType values) = true
       ∧ str_truthy (v_liveStatus values) = true).
Proof.
  unfold isFormComplete. cbv zeta.
  destruct (is_parents_survey values);
    rewrite ?negb_involutive; cbn [toBoolean];
    rewrite !toBoolean_and_then, !toBoolean_of_string; cbn [toBoolean];
    rewrite ?toBoolean_and_then, ?toBoolean_of_string, !andb_true_iff, Nat.ltb_lt.
  - split; [intros (((((?&?)&?)&?)&?)&?&?)|intros (?&?&?&?&?&Hs)];
      [repeat split; try done; lia|].
    destruct Hs as [? ?]; [done|]. repeat split; try done. lia.
  - split; [intros (((((?&?)&?)&?)&?)&_)|intros (?&?&?&?&?&_)];
      repeat split; try done; lia.
Qed.

Lemma getIncompleteFields_nil (values : FormValues) (n : nat) :
  getIncompleteFields values n = []
  ↔ str_truthy (trim <$> v_title values) = true
    ∧ str_truthy (trim <$> v_description values) = true
    ∧ str_truthy (v_formType values) = true
    ∧ str_truthy (trim <$> v_formUrl values) = true
    ∧ n ≠ 0%nat
    ∧ (is_parents_survey values = true →
       str_truthy (v_submissionType values) = true
       ∧ str_truthy (v_liveStatus values) = true).
Proof.
  unfold getIncompleteFields. cbv zeta.
  assert (negb (Nat.eqb n 0) = true ↔ n ≠ 0%nat) as Hn.
  { destruct (Nat.eqb_spec n 0); simpl; split; done. }
  destruct (is_parents_survey values); rewrite !push_unless_nil, Hn; intuition discriminate.
Qed.

Lemma push_unless_sublist (cond : bool) (label : string) (missing labels : list string) :
  sublist missing labels →
  sublist (push_unless cond label missing) (labels ++ [label]).
Proof.
  intros H. unfold push_unless. destruct cond; simpl.
  - by apply sublist_inserts_r.
  - by apply sublist_app.
Qed.

Lemma getIncompleteFields_sublist (values : FormValues) (n : nat) :
  sublist (getIncompleteFields values n) fieldLabels.
Proof.
  unfold getIncompleteFields. cbv zeta.
  destruct (is_parents_survey values).
  - change fieldLabels
      with ((((((([] ++ ["Form Title"]) ++ ["Description"]) ++ ["Form Type"])
                ++ ["Form URL"]) ++ ["At least one question"])
              ++ ["Submission Type"]) ++ ["Live Status"]).
    repeat apply push_unless_sublist. done.
  - change fieldLabels
      with (((((([] ++ ["Form Title"]) ++ ["Description"]) ++ ["Form Type"])
                ++ ["Form URL"]) ++ ["At least one question"])
            ++ ["Submission Type"; "Live Status"]).
    apply sublist_inserts_r. repeat apply push_unless_sublist. done.
Qed.

(** X26. The two readiness checks of the builder agree.  [isFormComplete]
    is truthy exactly when [getIncompleteFields] lists nothing; so the
    toast of a refused preview or publish always names at least one
    field, the fields it names are among the seven labels, in the order
    of the checks and none twice, and a publish that goes through has a
    non-blank title, description and URL, a form type, at least one
    question and, for a parents' survey, a submission type and a live
    status. *)
Theorem readiness_checks_agree (values : FormValues) (n : nat)
    (editFormId : option string) :
  (toBoolean (isFormComplete values n) = true ↔ getIncompleteFields values n = [])
  ∧ sublist (getIncompleteFields values n) fieldLabels
  ∧ match handlePublish values n editFormId with
    | NotReady _ description =>
        getIncompleteFields values n ≠ []
        ∧ description = "Please complete the following: "
                        +:+ StudentCSV.join (getIncompleteFields values n)
        ∧ handlePreview values n editFormId
          = NotReady "Form Not Ready for Preview" description
    | FormIdMissing _ =>
        getIncompleteFields values n = [] ∧ str_truthy editFormId = false
        ∧ ∃ d, handlePreview values n editFormId = FormIdMissing d
    | Mutate =>
        handlePreview values n editFormId = Mutate
        ∧ str_truthy editFormId = true
        ∧ str_truthy (trim <$> v_title values) = true
        ∧ str_truthy (trim <$> v_description values) = true
        ∧ str_truthy (v_formType values) = true
        ∧ str_truthy (trim <$> v_formUrl values) = true
        ∧ n ≠ 0%nat
        ∧ (v_formType values = Some "parents_survey" →
           str_truthy (v_submissionType values) = true
           ∧ str_truthy (v_liveStatus values) = true)
    end.
Proof.
  assert (toBoolean (isFormComplete values n) = true
          ↔ getIncompleteFields values n = []) as Hagree
    by by rewrite isFormComplete_spec, getIncompleteFields_nil.
  split; [done|]. split; [apply getIncompleteFields_sublist|].
  unfold handlePublish, handlePreview.
  destruct (toBoolean (isFormComplete values n)) eqn:Hc; simpl.
  - pose proof (proj1 Hagree eq_refl) as Hnil.
    destruct (str_truthy editFormId) eqn:He; simpl.
    + apply isFormComplete_spec in Hc as (?&?&?&?&?&Hs).
      do 7 (split; [done|]).
      intros Hty. apply Hs. unfold is_parents_survey. by rewrite Hty.
    + split; [done|]. split; [done|]. by eexists.
  - split; [|done]. intros Hnil. apply Hagree in Hnil. congruence.
Qed.

(** A parents' survey without a live status, and a form that is ready. *)
Example readiness_examples :
  handlePublish
    (mkFormValues (Some "Survey") (Some " About ") (Some "parents_survey")
       (Some "survey") (Some "single") None) 3 (Some "f1")
  = NotReady "Form Not Ready to Publish" "Please complete the following: Live Status"
  ∧ handlePublish
      (mkFormValues (Some " ") None (Some "general") (Some "poll") None None) 0
      (Some "f1")
    = NotReady "Form Not Ready to Publish"
        "Please complete the following: Form Title, Description, At least one question"
  ∧ handlePublish
      (mkFormValues (Some "Poll") (Some "About") (Some "general") (Some "poll")
         None None) 1 None
    = FormIdMissing "Please save the form first before publishing.".
Proof. vm_compute. done. Qed.

(** ** The public form page *)

Import PublicPage.

Lemma insertByOrder_perm (s : PSection) (l : list PSection) :
  insertByOrder s l ≡ₚ s :: l.
Proof.
  induction l as [|x l IH]; [done|]. simpl.
  destruct (ps_order s <=? ps_order x)%Z; [done|].
  rewrite IH. apply Permutation_swap.
Qed.

Lemma sortByOrder_perm (l : list PSection) : sortByOrder l ≡ₚ l.
Proof.
  induction l as [|x l IH]; [done|]. unfold sortByOrder in *. simpl.
  by rewrite insertByOrder_perm, IH.
Qed.

Lemma sections_nonempty (form : PForm) : (0 < Datatypes.length (sections form))%nat.
Proof.
  unfold sections. destruct (pf_sections form) as [[|s l]|]; [simpl; lia| |simpl; lia].
  rewrite (Permutation_length (sortByOrder_perm (s :: l))). simpl. lia.
Qed.

Lemma sections_ids (form : PForm) :
  distinctIds form →
  NoDup (ps_id <$> sections form) ∧ "" ∉ (ps_id <$> sections form).
Proof.
  intros (_ & Hnd & Hne). unfold sections.
  destruct (pf_sections form) as [[|s l]|]; simpl in *.
  - split; [apply NoDup_singleton|]. by intros [=]%list_elem_of_singleton.
  - split.
    + by rewrite (sortByOrder_perm (s :: l)).
    + by rewrite (sortByOrder_perm (s :: l)).
  - split; [apply NoDup_singleton|]. by intros [=]%list_elem_of_singleton.
Qed.

(** The questions of a section are questions of the form that the section
    claims. *)
Lemma shown_spec (form : PForm) (i : nat) (qs : list PQuestion) (q : PQuestion) :
  getCurrentSectionQuestions form i = Some qs →
  q ∈ qs →
  q ∈ pf_questions form
  ∧ ∃ s, sections form !! i = Some s
         ∧ (pf_sections form = Some [] ∧ i = 0%nat
            ∨ pq_sectionId q = Some (ps_id s)
            ∨ (str_truthy (pq_sectionId q) = false ∧ ps_id s = "default")).
Proof.
  unfold getCurrentSectionQuestions. intros Hqs Hq.
  destruct (sections form !! i) as [s|] eqn:Hs; [|done]. simpl in Hqs.
  destruct (String.eqb (ps_id s) "default" && _)%bool eqn:Hcase.
  - injection Hqs as <-. split; [done|]. exists s. split; [done|]. left.
    apply andb_true_iff in Hcase as [_ Hnil].
    destruct (pf_sections form) as [[|? ?]|] eqn:Hsec; try discriminate.
    split; [done|]. unfold sections in Hs. rewrite Hsec in Hs.
    by destruct i.
  - injection Hqs as <-. apply list_elem_of_filter in Hq as [Hq Hin].
    split; [done|]. exists s. split; [done|]. by right.
Qed.

(** With distinct ids, no question id is shown in two sections. *)
Lemma shown_once (form : PForm) (i j : nat) (qs qs' : list PQuestion)
    (q q' : PQuestion) :
  distinctIds form →
  getCurrentSectionQuestions form i = Some qs →
  getCurrentSectionQuestions form j = Some qs' →
  q ∈ qs → q' ∈ qs' →
  pq_questionId q = pq_questionId q' →
  i = j.
Proof.
  intros Hd Hqs Hqs' Hq Hq' Hid.
  destruct (sections_ids form Hd) as [Hnd Hne].
  destruct (shown_spec form i qs q Hqs Hq) as (Hin & s & Hs & Hcase).
  destruct (shown_spec form j qs' q' Hqs' Hq') as (Hin' & s' & Hs' & Hcase').
  assert (q = q') as <-.
  { destruct Hd as (Hqnd & _). by apply (NoDup_fmap_eq pq_questionId (pf_questions form)). }
  assert (ps_id s = ps_id s' → i = j) as Hsame.
  { intros Heq. apply (NoDup_lookup (ps_id <$> sections form) i j (ps_id s)); [done| |].
    - by rewrite list_lookup_fmap, Hs.
    - by rewrite list_lookup_fmap, Hs', Heq. }
  assert (ps_id s ≠ "" ∧ ps_id s' ≠ "") as [Hs0 Hs0'].
  { split; intros Heq; apply Hne; rewrite <- Heq; apply list_elem_of_fmap_2;
      by eapply list_elem_of_lookup_2. }
  assert (pf_sections form = Some [] → i = j) as Hnil.
  { intros Hsec. unfold sections in Hs, Hs'. rewrite Hsec in Hs, Hs'.
    destruct i as [|[|?]], j as [|[|?]]; done. }
  destruct Hcase as [[Hsec _]|Hcase]; [by apply Hnil|].
  destruct Hcase' as [[Hsec _]|Hcase']; [by apply Hnil|].
  destruct Hcase as [Hc|[Hc Hdef]], Hcase' as [Hc'|[Hc' Hdef']].
  - apply Hsame. congruence.
  - rewrite Hc in Hc'. simpl in Hc'.
    destruct (String.eqb_spec (ps_id s) ""); [done|discriminate].
  - rewrite Hc' in Hc. simpl in Hc.
    destruct (String.eqb_spec (ps_id s') ""); [done|discriminate].
  - apply Hsame. congruence.
Qed.

Lemma pageStep_Inv (form : PForm) (st st' : PageState) (ev : PageEvent) :
  distinctIds form →
  plainIds form →
  pageInv form st →
  pageStep form st ev = Some st' →
  pageInv form st'.
Proof.
  intros Hd Hplain (Hidx & Hbefore & Hposted) Hstep. unfold pageStep in Hstep.
  destruct (currentStep st), ev; try discriminate.
  - injection Hstep as <-. done.
  - (* an answer changes *)
    destruct (getCurrentSectionQuestions form (currentSectionIndex st))
      as [cur|] eqn:Hcur; [|discriminate]. simpl in Hstep.
    case_bool_decide as Hshown; [|discriminate]. injection Hstep as <-.
    split; [done|]. split; [|done]. simpl.
    intros k qs q Hk Hqs Hq. specialize (Hbefore k qs q Hk Hqs Hq).
    unfold questionDone in *. destruct (pq_required q); [|done]. simpl in *.
    apply list_elem_of_fmap in Hshown as (q' & Hid & Hq').
    rewrite lookup_insert_ne; [done|]. intros Heq.
    assert (currentSectionIndex st = k); [|lia].
    apply (shown_once form _ _ cur qs q' q); try done. congruence.
  - (* Next *)
    unfold isCurrentSectionComplete in Hstep.
    destruct (getCurrentSectionQuestions form (currentSectionIndex st))
      as [cur|] eqn:Hcur; [|discriminate]. simpl in Hstep.
    destruct (forallb (questionDone (responses st)) cur) eqn:Hdone; [|discriminate].
    assert (∀ k qs q, (k < currentSectionIndex st + 1)%nat →
               getCurrentSectionQuestions form k = Some qs → q ∈ qs →
               questionDone (responses st) q = true) as Hupto.
    { intros k qs q Hk Hqs Hq.
      destruct (decide (k = currentSectionIndex st)) as [->|Hne].
      - rewrite Hcur in Hqs. injection Hqs as <-.
        rewrite forallb_forall in Hdone. by apply Hdone, list_elem_of_In.
      - apply (Hbefore k qs q); [lia|done|done]. }
    destruct (Nat.ltb_spec (currentSectionIndex st + 1) (Datatypes.length (sections form)))
      as [Hlt|Hge].
    + injection Hstep as <-. done.
    + injection Hstep as <-. split; [done|]. split; [done|]. simpl.
      apply Forall_app. split; [done|]. apply Forall_singleton. split; [done|].
      intros k qs q Hqs Hq Hreq. simpl.
      assert (k < currentSectionIndex st + 1)%nat as Hk.
      { unfold getCurrentSectionQuestions in Hqs.
        destruct (sections form !! k) eqn:Hsk; [|done].
        apply lookup_lt_Some in Hsk. lia. }
      specialize (Hupto k qs q Hk Hqs Hq). unfold questionDone in Hupto.
      rewrite Hreq in Hupto. cbn [negb] in Hupto.
      destruct (responses st !! pq_questionId q) as [response|]; [done|].
      destruct (shown_spec form k qs q Hqs Hq) as [Hin _].
      unfold plainIds in Hplain. rewrite Forall_forall in Hplain.
      rewrite (Hplain q Hin Hreq) in Hupto. discriminate Hupto.
  - (* Previous *)
    destruct (Nat.ltb_spec 0 (currentSectionIndex st)) as [Hpos|Hzero].
    + injection Hstep as <-. split; [simpl; lia|]. split; [|done]. simpl.
      intros k qs q Hk. apply Hbefore. lia.
    + injection Hstep as <-. done.
Qed.

Lemma runPage_Inv (form : PForm) (evs : list PageEvent) :
  distinctIds form →
  plainIds form →
  ∀ st st', pageInv form st → runPage form st evs = Some st' → pageInv form st'.
Proof.
  intros Hd Hplain. induction evs as [|ev evs IH]; intros st st' Hinv Hrun; simpl in Hrun.
  - by injection Hrun as <-.
  - destruct (pageStep form st ev) as [st1|] eqn:Hstep; [|discriminate].
    simpl in Hrun. apply (IH st1); [|done]. by apply (pageStep_Inv form st st1 ev).
Qed.

(** X27. Nothing is submitted with a required question left open.  When
    the questions and the sections of the form have distinct ids, no
    section has the empty id and no required question has as id a name
    that every object inherits, then whatever the respondent does on the
    page - start, answer or clear the questions on display, go to the
    next or the previous section - every body that the page posts is for
    this form and has an answer, other than null and the empty string,
    for every required question that some section shows; and the page is
    always on a section that exists. *)
Theorem submission_answers_required_questions (form : PForm)
    (evs : list PageEvent) (st : PageState) :
  distinctIds form →
  plainIds form →
  runPage form initialPage evs = Some st →
  Forall (λ p, p.1 = pf_id form ∧ allShownAnswered form p.2) (posted st)
  ∧ is_Some (getCurrentSectionQuestions form (currentSectionIndex st)).
Proof.
  intros Hd Hplain Hrun.
  destruct (runPage_Inv form evs Hd Hplain initialPage st) as (Hidx & _ & Hposted);
    [|done|].
  { split; [apply sections_nonempty|]. split; [|constructor].
    simpl. intros k qs q Hk. lia. }
  split; [done|].
  unfold getCurrentSectionQuestions.
  destruct (lookup_lt_is_Some_2 (sections form) _ Hidx) as [s ->]. simpl.
  by destruct (_ && _)%bool.
Qed.

Lemma submission_answers_required_questions_witness :
  Forall (λ p, p.1 = pf_id MoreSamples.two_sections_form
               ∧ allShownAnswered MoreSamples.two_sections_form p.2)
    (posted MoreSamples.page_after)
  ∧ is_Some (getCurrentSectionQuestions MoreSamples.two_sections_form
               (currentSectionIndex MoreSamples.page_after)).
Proof.
  apply (submission_answers_required_questions MoreSamples.two_sections_form
           MoreSamples.page_session MoreSamples.page_after).
  - split; [|split].
    + apply (bool_decide_unpack _). vm_compute. exact I.
    + apply (bool_decide_unpack _). vm_compute. exact I.
    + intros H%list_elem_of_In. simpl in H. intuition discriminate.
  - repeat (apply Forall_cons; split; [intros _; reflexivity|]).
    apply Forall_nil_2.
  - vm_compute. reflexivity.
Defined.

(** Where the assumption on the ids matters: a required question whose
    id is [constructor] counts as answered before any answer is given,
    and the page posts an empty body. *)
Example required_question_named_constructor :
  posted
    <$> runPage (mkPForm "f1" [mkPQuestion "constructor" true None] None)
          initialPage [StartForm; NextSection true]
  = Some [("f1", ∅)].
Proof. vm_compute. reflexivity. Qed.

(** The session ends on the success screen with one posted body; Next is
    not possible while the required question on display is open or
    cleared; and the required question of the section that is gone is
    never asked for. *)
Example page_scenario :
  currentStep MoreSamples.page_after = Success
  ∧ posted MoreSamples.page_after
    = [("f1", <["q2" := JNum 3]> {["q1" := JStr "a"]})]
  ∧ runPage MoreSamples.two_sections_form initialPage [StartForm; NextSection true]
    = None
  ∧ runPage MoreSamples.two_sections_form initialPage
      [StartForm; InputChange "q1" (JStr "a"); InputChange "q1" (JStr "");
       NextSection true]
    = None
  ∧ runPage MoreSamples.two_sections_form initialPage
      [StartForm; InputChange "q4" (JStr "x")]
    = None.
Proof. vm_compute. done. Qed.

(** ** The children of a respondent *)

Import Schema Storage Routes BCInput.

(** A turn of the loop that does not throw. *)
Lemma lookupStep_pushed (compare : Json → option bool) (sel : Json)
    (ft : string) (tbl : list Student) (acc acc' : LookupAcc) (b : string) :
  lookupStep compare sel ft tbl acc (JStr b) = Some acc' →
  acc' = mkLookupAcc
           (acc_found acc
            ++ omap (pushedFound compare sel ft tbl) (filter (λ t, t ≠ "") [trim b]))
           (acc_notFound acc
            ++ omap (pushedNotFound tbl) (filter (λ t, t ≠ "") [trim b]))
           (acc_notSelected acc
            ++ omap (pushedNotSelected compare sel ft tbl)
                 (filter (λ t, t ≠ "") [trim b])).
Proof.
  unfold lookupStep. rewrite filter_cons, filter_nil.
  destruct (String.eqb_spec (trim b) "") as [Hb|Hb]; cbn [negb].
  - rewrite decide_False by (by intros ?). intros H. injection H as <-.
    cbn [omap list_omap]. rewrite !app_nil_r. by destruct acc.
  - rewrite decide_True by done. cbn [omap list_omap].
    unfold pushedFound, pushedNotFound, pushedNotSelected, allowListApplies.
    destruct (getStudentByStudentId (Some (trim b)) tbl) as [s|].
    + destruct (if String.eqb ft "parents_survey"
                then respondents_nonempty compare sel else Some false)
        as [[|]|];
        [destruct (respondents_include sel (trim b)) as [[|]|]| |];
        intros H; try discriminate H; injection H as <-;
        by rewrite ?app_nil_r.
    + intros H. injection H as <-. by rewrite ?app_nil_r.
Qed.

Lemma lookup_loop_pushed (compare : Json → option bool) (sel : Json)
    (ft : string) (tbl : list Student) (bcNumbers : list string) :
  ∀ acc acc',
    lookupLoop compare sel ft tbl (JStr <$> bcNumbers) acc = Some acc' →
    acc'
    = mkLookupAcc
        (acc_found acc
         ++ omap (pushedFound compare sel ft tbl)
              (filter (λ t, t ≠ "") (trim <$> bcNumbers)))
        (acc_notFound acc
         ++ omap (pushedNotFound tbl) (filter (λ t, t ≠ "") (trim <$> bcNumbers)))
        (acc_notSelected acc
         ++ omap (pushedNotSelected compare sel ft tbl)
              (filter (λ t, t ≠ "") (trim <$> bcNumbers))).
Proof.
  induction bcNumbers as [|b bcs IH]; intros acc acc' Hloop.
  - injection Hloop as <-. simpl. rewrite !app_nil_r. by destruct acc.
  - rewrite fmap_cons in Hloop. cbn [lookupLoop] in Hloop.
    destruct (lookupStep compare sel ft tbl acc (JStr b)) as [acc1|] eqn:Hstep;
      [|discriminate Hloop].
    apply lookupStep_pushed in Hstep. apply IH in Hloop.
    rewrite Hloop, Hstep. cbn [acc_found acc_notFound acc_notSelected].
    rewrite fmap_cons.
    change (trim b :: (trim <$> bcs)) with ([trim b] ++ (trim <$> bcs)).
    rewrite filter_app, !omap_app, <- !app_assoc. done.
Qed.

Lemma typed_numbers_fixed (l : list string) :
  filter (λ t, t ≠ "") (trim <$> filter (λ t, t ≠ "") (trim <$> l))
  = filter (λ t, t ≠ "") (trim <$> l).
Proof.
  induction l as [|x l IH]; [done|].
  rewrite fmap_cons, filter_cons. destruct (decide (trim x ≠ "")) as [Hx|Hx]; [|done].
  rewrite fmap_cons, filter_cons, trim_idem, decide_True by done. by rewrite IH.
Qed.

Lemma pushedFound_spec (compare : Json → option bool) (sel : Json)
    (ft : string) (tbl : list Student)
    (t : string) (s : StudentSummary) :
  pushedFound compare sel ft tbl t = Some s →
  ss_student_BC s = Some t
  ∧ ∃ stu, getStudentByStudentId (Some t) tbl = Some stu ∧ s = summary stu.
Proof.
  unfold pushedFound.
  destruct (getStudentByStudentId (Some t) tbl) as [stu|] eqn:Hget; [|done].
  pose proof (lookup_found_bc _ _ _ Hget) as Hbc.
  intros Hs.
  assert (s = summary stu) as ->.
  { revert Hs.
    destruct (allowListApplies compare sel ft);
      [destruct (respondents_include sel t) as [[|]|]|]; congruence. }
  split; [done|]. by exists stu.
Qed.

Lemma pushedNotSelected_spec (compare : Json → option bool) (sel : Json)
    (ft : string) (tbl : list Student)
    (t : string) (s : StudentSummary) :
  pushedNotSelected compare sel ft tbl t = Some s → ss_student_BC s = Some t.
Proof.
  unfold pushedNotSelected.
  destruct (getStudentByStudentId (Some t) tbl) as [stu|] eqn:Hget; [|done].
  pose proof (lookup_found_bc _ _ _ Hget) as Hbc.
  destruct (allowListApplies compare sel ft);
    [destruct (respondents_include sel t) as [[|]|]|];
    intros Hs; try discriminate; by injection Hs as <-.
Qed.

(** The keys of the values pushed for distinct numbers are distinct. *)
Lemma omap_keys_NoDup {A : Type} (f : string → option A) (key : A → option string)
    (l : list string) :
  (∀ t a, f t = Some a → key a = Some t) →
  NoDup l → NoDup (key <$> omap f l).
Proof.
  intros Hkey Hnd. induction Hnd as [|t l Hnot Hnd IH]; [constructor|].
  simpl. destruct (f t) as [a|] eqn:Hf; [|done].
  rewrite fmap_cons. apply NoDup_cons. split; [|done].
  rewrite (Hkey t a Hf). intros Hin.
  apply list_elem_of_fmap in Hin as (a' & Ha' & Hin).
  apply list_elem_of_omap in Hin as (t' & Ht' & Hf').
  rewrite (Hkey t' a' Hf') in Ha'. by injection Ha' as ->.
Qed.

(** Appending the entries with a new key keeps the keys distinct. *)
Lemma merge_new_NoDup (existing new : list StudentSummary) :
  NoDup (ss_student_BC <$> existing) →
  NoDup (ss_student_BC <$> new) →
  NoDup (ss_student_BC
           <$> existing
               ++ filter (λ s, ss_student_BC s ∉ (ss_student_BC <$> existing)) new).
Proof.
  intros He Hn. rewrite fmap_app. apply NoDup_app. split; [done|]. split.
  - intros bc Hbc Hin. apply list_elem_of_fmap in Hin as (s & -> & Hs).
    by apply list_elem_of_filter in Hs as [Hnot _].
  - eapply sublist_NoDup; [exact Hn|]. apply fmap_sublist, sublist_filter.
Qed.

(** X28. A lookup shows no child twice.  When the text typed is ASCII,
    the numbers typed are distinct after trimming, the children shown
    have distinct BC numbers and the server answers the lookup request
    with success, the lookup keeps the children shown, adds behind them
    the students that the server finds for the typed numbers and that are
    not shown yet, keeps the BC numbers of the children and of the
    not-selected list distinct, replaces the not-found list by the typed
    numbers without a student, empties the input and reports the new
    lists as the answer; deleting a child then removes every card with
    that BC number and reports again. *)
Theorem lookup_shows_no_child_twice (compare : Json → option bool)
    (formId : option string) (forms : list Form)
    (tbl : list Student) (st : BCState) :
  ascii_only (bcInput st) = true →
  trim (bcInput st) ≠ "" →
  NoDup (bcNumbersOf (bcInput st)) →
  NoDup (ss_student_BC <$> st_foundStudents st) →
  NoDup (ss_student_BC <$> st_notSelectedStudents st) →
  is_Some (lookupRequest compare false formId forms tbl
             (bcNumbersOf (bcInput st))) →
  let st' := handleLookup compare false formId forms tbl st in
  NoDup (ss_student_BC <$> st_foundStudents st')
  ∧ NoDup (ss_student_BC <$> st_notSelectedStudents st')
  ∧ st_foundStudents st `prefix_of` st_foundStudents st'
  ∧ (∀ s, s ∈ st_foundStudents st' →
          s ∈ st_foundStudents st
          ∨ ∃ bc stu, bc ∈ bcNumbersOf (bcInput st)
                      ∧ getStudentByStudentId (Some bc) tbl = Some stu
                      ∧ s = summary stu)
  ∧ (∀ bc, bc ∈ notFoundBCs st'
           ↔ bc ∈ bcNumbersOf (bcInput st)
             ∧ getStudentByStudentId (Some bc) tbl = None)
  ∧ bcInput st' = ""
  ∧ formResponse st' = Some (mkAnswer (st_foundStudents st') (notFoundBCs st'))
  ∧ ∀ bc,
      let st'' := handleDeleteChild bc st' in
      (Some bc ∉ (ss_student_BC <$> st_foundStudents st''))
      ∧ sublist (st_foundStudents st'') (st_foundStudents st')
      ∧ formResponse st''
        = Some (mkAnswer (st_foundStudents st'') (notFoundBCs st')).
Proof.
  intros _ Hinput Htyped Hfound Hnotsel Hanswered. cbv zeta.
  unfold handleLookup, handleLookupWith.
  destruct (String.eqb_spec (trim (bcInput st)) "") as [|_]; [done|].
  unfold lookupRequest, lookupBcRoute in *.
  destruct (lookupContext formId forms) as [sel ft].
  destruct (lookupLoop compare sel ft tbl (JStr <$> bcNumbersOf (bcInput st))
              (mkLookupAcc [] [] [])) as [acc'|] eqn:Hloop;
    [|by destruct Hanswered].
  clear Hanswered. apply lookup_loop_pushed in Hloop. subst acc'.
  cbn [acc_found acc_notFound acc_notSelected app].
  unfold bcNumbersOf in *. rewrite typed_numbers_fixed.
  set (typed := filter (λ t, t ≠ "") (trim <$> split_comma (bcInput st))) in *.
  cbn [foundStudents notFoundBCNumbers notSelectedStudents st_foundStudents
         st_notSelectedStudents notFoundBCs BCInput.bcInput formResponse].
  assert (default [] (if Nat.ltb 0 (Datatypes.length
                                      (omap (pushedNotSelected compare sel ft tbl) typed))
                      then Some (omap (pushedNotSelected compare sel ft tbl) typed)
                      else None)
          = omap (pushedNotSelected compare sel ft tbl) typed) as ->.
  { by destruct (omap (pushedNotSelected compare sel ft tbl) typed). }
  split.
  { apply merge_new_NoDup; [done|].
    apply omap_keys_NoDup; [|done]. intros t a Ha.
    by apply pushedFound_spec in Ha as [? _]. }
  split.
  { apply merge_new_NoDup; [done|].
    apply omap_keys_NoDup; [|done]. intros t a Ha.
    by apply pushedNotSelected_spec in Ha. }
  split; [by eexists|].
  split.
  { intros s [Hs|Hs]%elem_of_app; [by left|]. right.
    apply list_elem_of_filter in Hs as [_ Hs].
    apply list_elem_of_omap in Hs as (t & Ht & Hs).
    apply pushedFound_spec in Hs as (_ & stu & Hstu & ->). by exists t, stu. }
  split.
  { intros bc. rewrite list_elem_of_omap. unfold pushedNotFound. split.
    - intros (t & Ht & Hnone).
      destruct (getStudentByStudentId (Some t) tbl) eqn:Hget; [done|].
      by injection Hnone as <-.
    - intros [Hbc Hnone]. exists bc. by rewrite Hnone. }
  split; [done|]. split; [done|].
  intros bc. unfold handleDeleteChild.
  cbn [st_foundStudents notFoundBCs formResponse]. split; [|split; [|done]].
  - intros Hin. apply list_elem_of_fmap in Hin as (s & Hs & Hin).
    by apply list_elem_of_filter in Hin as [Hne _].
  - apply sublist_filter.
Qed.

Lemma lookup_shows_no_child_twice_witness :
  let st := MoreSamples.typed_children in
  let st' := handleLookup (λ _, None) false None Samples.forms_table Samples.students_table st in
  NoDup (ss_student_BC <$> st_foundStudents st')
  ∧ NoDup (ss_student_BC <$> st_notSelectedStudents st')
  ∧ st_foundStudents st `prefix_of` st_foundStudents st'
  ∧ (∀ s, s ∈ st_foundStudents st' →
          s ∈ st_foundStudents st
          ∨ ∃ bc stu, bc ∈ bcNumbersOf (bcInput st)
                      ∧ getStudentByStudentId (Some bc) Samples.students_table
                        = Some stu
                      ∧ s = summary stu)
  ∧ (∀ bc, bc ∈ notFoundBCs st'
           ↔ bc ∈ bcNumbersOf (bcInput st)
             ∧ getStudentByStudentId (Some bc) Samples.students_table = None)
  ∧ bcInput st' = ""
  ∧ formResponse st' = Some (mkAnswer (st_foundStudents st') (notFoundBCs st'))
  ∧ ∀ bc,
      let st'' := handleDeleteChild bc st' in
      (Some bc ∉ (ss_student_BC <$> st_foundStudents st''))
      ∧ sublist (st_foundStudents st'') (st_foundStudents st')
      ∧ formResponse st''
        = Some (mkAnswer (st_foundStudents st'') (notFoundBCs st')).
Proof.
  apply (lookup_shows_no_child_twice (λ _, None) None Samples.forms_table
           Samples.students_table MoreSamples.typed_children).
  - reflexivity.
  - vm_compute. discriminate.
  - apply (bool_decide_unpack _). vm_compute. exact I.
  - constructor.
  - constructor.
  - vm_compute. eexists. reflexivity.
Defined.

(** The three numbers typed give two children and one unknown number; a
    number typed twice in one lookup gives the child twice; and a lookup
    that does not get through reports the typed numbers as unknown and
    keeps the input. *)
Example lookup_examples :
  let st' := handleLookup (λ _, None) false None Samples.forms_table Samples.students_table
               MoreSamples.typed_children in
  (ss_student_BC <$> st_foundStudents st') = [Some "BC001"; Some "BC002"]
  ∧ notFoundBCs st' = ["BC009"]
  ∧ (ss_student_BC
       <$> st_foundStudents
             (handleLookup (λ _, None) false None Samples.forms_table Samples.students_table
                MoreSamples.typed_twice))
    = [Some "BC001"; Some "BC001"]
  ∧ notFoundBCs (handleLookup (λ _, None) true None Samples.forms_table Samples.students_table
                   MoreSamples.typed_children)
    = ["BC001"; "BC009"; "BC002"]
  ∧ bcInput (handleLookup (λ _, None) true None Samples.forms_table Samples.students_table
               MoreSamples.typed_children)
    = " BC001, BC009 ,BC002".
Proof. vm_compute. done. Qed.

(** ** One line of a CSV file *)

Import CSV.

Lemma append_cons (x : ascii) (a b : string) :
  String x a +:+ b = String x (a +:+ b).
Proof. reflexivity. Qed.

Lemma append_String_assoc (a : string) (c : ascii) (b : string) :
  (a +:+ String c "") +:+ b = a +:+ String c b.
Proof. induction a as [|x a IH]; [done|]. rewrite !append_cons. by rewrite IH. Qed.

Lemma append_empty_r (a : string) : a +:+ "" = a.
Proof. induction a as [|x a IH]; [done|]. rewrite append_cons. by rewrite IH. Qed.

Lemma occurs_String (c x : ascii) (s : string) :
  occurs c (String x s) ↔ c = x ∨ occurs c s.
Proof. unfold occurs. simpl. apply elem_of_cons. Qed.

Lemma occurs_append (c : ascii) (a b : string) :
  occurs c (a +:+ b) ↔ occurs c a ∨ occurs c b.
Proof.
  induction a as [|x a IH].
  - change ("" +:+ b) with b. unfold occurs at 2. simpl. rewrite elem_of_nil. tauto.
  - rewrite append_cons, !occurs_String, IH. tauto.
Qed.

Lemma occurs_trimStart (c : ascii) (s : string) :
  occurs c (trimStart s) → occurs c s.
Proof.
  induction s as [|x s IH]; simpl; [done|].
  destruct (is_space x); [|done]. intros H. apply occurs_String. right. by apply IH.
Qed.

Lemma occurs_trimEnd (c : ascii) (s : string) :
  occurs c (trimEnd s) → occurs c s.
Proof.
  induction s as [|x s IH]; simpl; [done|].
  destruct (trimEnd s) as [|y t] eqn:Ht.
  - destruct (is_space x); [by intros ?%elem_of_nil|].
    intros [->|?%elem_of_nil]%occurs_String; [|done]. apply occurs_String. by left.
  - intros [->|H]%occurs_String; apply occurs_String; [by left|].
    right. by apply IH.
Qed.

Lemma occurs_trim (c : ascii) (s : string) : occurs c (trim s) → occurs c s.
Proof. intros H. by apply occurs_trimStart, occurs_trimEnd. Qed.

Lemma stripTrailing_plain (s : string) : ¬ occurs dquote s → stripTrailing s = s.
Proof.
  induction s as [|x s IH]; [done|]. intros Hno. simpl.
  assert (x ≠ dquote) as Hx by (intros ->; apply Hno, occurs_String; by left).
  assert (¬ occurs dquote s) as Hs by (intros ?; apply Hno, occurs_String; by right).
  destruct s as [|y s].
  - by destruct (Ascii.eqb_spec x dquote).
  - by rewrite IH.
Qed.

Lemma stripQuotes_plain (s : string) : ¬ occurs dquote s → stripQuotes s = s.
Proof.
  destruct s as [|x s]; [done|]. intros Hno. unfold stripQuotes.
  assert (x ≠ dquote) as Hx by (intros ->; apply Hno, occurs_String; by left).
  destruct (Ascii.eqb_spec x dquote); [done|]. by apply stripTrailing_plain.
Qed.

Lemma lineLoop_app (a b : string) :
  ∀ st, lineLoop st (a +:+ b) = lineLoop (lineLoop st a) b.
Proof.
  induction a as [|x a IH]; intros st; [done|]. rewrite append_cons. simpl. apply IH.
Qed.

(** Characters that are no double quote, and no comma outside quotes, are
    appended to the current field. *)
Lemma lineLoop_plain (f : string) :
  ∀ st,
    ¬ occurs dquote f →
    (inQuotes st = true ∨ ¬ occurs comma f) →
    lineLoop st f = mkLineState (result st) (current st +:+ f) (inQuotes st).
Proof.
  induction f as [|x f IH]; intros st Hq Hc; simpl.
  - rewrite append_empty_r. by destruct st.
  - assert (x ≠ dquote) as Hx by (intros ->; apply Hq, occurs_String; by left).
    assert (¬ occurs dquote f) as Hf by (intros ?; apply Hq, occurs_String; by right).
    assert (lineStep st x
            = mkLineState (result st) (current st +:+ String x "") (inQuotes st))
      as ->.
    { unfold lineStep. destruct (Ascii.eqb_spec x dquote); [done|].
      destruct (Ascii.eqb_spec x comma) as [->|_]; [|done].
      destruct Hc as [->|Hc]; [done|]. destruct Hc. apply occurs_String. by left. }
    rewrite IH; cbn [result current inQuotes]; [by rewrite append_String_assoc|done|].
    destruct Hc as [?|Hc]; [by left|right].
    intros ?. apply Hc, occurs_String. by right.
Qed.

Lemma lineLoop_quoted (f : string) (st : LineState) :
  ¬ occurs dquote f →
  inQuotes st = false →
  lineLoop st (quoted f) = mkLineState (result st) (current st +:+ f) false.
Proof.
  intros Hq Hin. unfold quoted. cbn [lineLoop].
  assert (lineStep st dquote = mkLineState (result st) (current st) true) as ->
    by (unfold lineStep; simpl; by rewrite Hin).
  rewrite lineLoop_app, (lineLoop_plain f); [|done|by left].
  cbn [lineLoop result current inQuotes]. unfold lineStep. by simpl.
Qed.

Lemma lineLoop_fields (wrap : string → string) (fields : list string) :
  (∀ f st, f ∈ fields → inQuotes st = false →
           lineLoop st (wrap f) = mkLineState (result st) (current st +:+ f) false) →
  fields ≠ [] →
  ∀ res,
    fieldsOf (lineLoop (mkLineState res "" false) (joinComma (wrap <$> fields)))
    = res ++ (trim <$> fields).
Proof.
  intros Hwrap Hne. induction fields as [|f fields IH]; [done|]. intros res.
  destruct fields as [|g fields].
  - simpl. rewrite Hwrap; [done|by left|done].
  - change (joinComma (wrap <$> f :: g :: fields))
      with (wrap f +:+ String comma (joinComma (wrap <$> g :: fields))).
    rewrite lineLoop_app, Hwrap; [|by left|done]. simpl.
    unfold lineStep at 1. simpl.
    rewrite IH; [by rewrite <- app_assoc| |done].
    intros f' st' Hf'. apply Hwrap. by right.
Qed.

(** What the loop keeps: no double quote in a closed field or in the
    current one, and closed fields are trimmed. *)
Lemma lineLoop_clean (line : string) :
  ∀ st,
    Forall (λ f, ¬ occurs dquote f ∧ trim f = f) (result st) →
    ¬ occurs dquote (current st) →
    Forall (λ f, ¬ occurs dquote f ∧ trim f = f) (fieldsOf (lineLoop st line)).
Proof.
  induction line as [|x line IH]; intros st Hres Hcur.
  - simpl. unfold fieldsOf. apply Forall_app. split; [done|].
    apply Forall_singleton. split; [|apply trim_idem].
    intros H. by apply Hcur, occurs_trim.
  - simpl. apply IH; unfold lineStep.
    + destruct (Ascii.eqb x dquote); [done|].
      destruct (Ascii.eqb x comma && negb (inQuotes st))%bool; [|done]. simpl.
      apply Forall_app. split; [done|]. apply Forall_singleton.
      split; [|apply trim_idem]. intros H. by apply Hcur, occurs_trim.
    + destruct (Ascii.eqb x dquote) eqn:Hx; [done|]. apply Ascii.eqb_neq in Hx.
      destruct (Ascii.eqb x comma && negb (inQuotes st))%bool; simpl.
      * by intros ?%elem_of_nil.
      * intros [H|H]%occurs_append; [done|].
        apply occurs_String in H as [Heq|?%elem_of_nil]; [|done]. by apply Hx.
Qed.

(** X29. A CSV line gives back its fields.  For ASCII fields without a
    double quote and without white space around them, at least one of
    them, [parseCSVLine] of the line that joins the fields, each between
    double quotes, by commas is the list of the fields - also when a
    field has commas - and so is [parseCSVLine] of the line that joins
    the bare fields when no field has a comma.  On every ASCII line, no
    field that [parseCSVLine] returns has a double quote or white space
    around it. *)
Theorem csv_line_round_trip (fields : list string) :
  fields ≠ [] →
  Forall (λ f, ascii_only f = true) fields →
  Forall (λ f, ¬ occurs dquote f ∧ trim f = f) fields →
  parseCSVLine (joinComma (quoted <$> fields)) = fields
  ∧ (Forall (λ f, ¬ occurs comma f) fields → parseCSVLine (joinComma fields) = fields)
  ∧ ∀ line, ascii_only line = true →
            Forall (λ f, ¬ occurs dquote f ∧ trim f = f) (parseCSVLine line).
Proof.
  intros Hne _ Hok.
  assert (stripQuotes <$> (trim <$> fields) = fields) as Hclean.
  { rewrite <- list_fmap_compose. rewrite <- (list_fmap_id fields) at 2.
    apply list_fmap_ext. intros i f Hf. simpl.
    rewrite Forall_forall in Hok.
    destruct (Hok f) as [Hq ->]; [by eapply list_elem_of_lookup_2|].
    by apply stripQuotes_plain. }
  split; [|split].
  - unfold parseCSVLine. cbv zeta.
    fold (fieldsOf (lineLoop (mkLineState [] "" false)
                      (joinComma (quoted <$> fields)))).
    rewrite (lineLoop_fields quoted fields); [done| |done].
    intros f st Hf Hin. apply lineLoop_quoted; [|done].
    rewrite Forall_forall in Hok. by destruct (Hok f Hf).
  - intros Hcomma. unfold parseCSVLine. cbv zeta.
    fold (fieldsOf (lineLoop (mkLineState [] "" false) (joinComma fields))).
    rewrite <- (list_fmap_id fields) at 1.
    rewrite (lineLoop_fields (λ f, f) fields); [done| |done].
    intros f st Hf Hin.
    rewrite Forall_forall in Hok, Hcomma.
    rewrite lineLoop_plain; [by rewrite Hin|by destruct (Hok f Hf)|].
    right. by apply Hcomma.
  - intros line _. unfold parseCSVLine. cbv zeta.
    fold (fieldsOf (lineLoop (mkLineState [] "" false) line)).
    pose proof (lineLoop_clean line (mkLineState [] "" false)) as Hfields.
    simpl in Hfields.
    assert (Forall (λ f, ¬ occurs dquote f ∧ trim f = f)
              (fieldsOf (lineLoop (mkLineState [] "" false) line))) as Hall.
    { apply Hfields; [constructor|]. by intros ?%elem_of_nil. }
    apply Forall_fmap. eapply Forall_impl; [exact Hall|].
    intros f [Hq Ht]. simpl. by rewrite stripQuotes_plain.
Qed.

Lemma csv_line_round_trip_witness :
  parseCSVLine (joinComma (quoted <$> ["Jane Doe"; "a, b"; ""])) = ["Jane Doe"; "a, b"; ""]
  ∧ (Forall (λ f, ¬ occurs comma f) ["Jane Doe"; "a, b"; ""] →
     parseCSVLine (joinComma ["Jane Doe"; "a, b"; ""]) = ["Jane Doe"; "a, b"; ""])
  ∧ ∀ line, ascii_only line = true →
            Forall (λ f, ¬ occurs dquote f ∧ trim f = f) (parseCSVLine line).
Proof.
  apply (csv_line_round_trip ["Jane Doe"; "a, b"; ""]).
  - discriminate.
  - repeat constructor.
  - repeat constructor; try (intros H%list_elem_of_In; simpl in H; intuition discriminate).
Defined.

(** A comma between double quotes does not split; double quotes are
    dropped wherever they are, so a doubled double quote does not stand
    for one; and the white space inside double quotes is trimmed. *)
Example csv_line_examples :
  parseCSVLine ("text,Your name," +:+ quoted "true") = ["text"; "Your name"; "true"]
  ∧ parseCSVLine ("a" +:+ quoted "b,c" +:+ "d, e ") = ["ab,cd"; "e"]
  ∧ parseCSVLine (quoted ("say " +:+ quoted (quoted "hi"))) = ["say hi"]
  ∧ parseCSVLine (quoted " x ") = ["x"]
  ∧ parseCSVLine "" = [""].
Proof. vm_compute. done. Qed.

(** ** The respondents of a parents' survey *)

Import Respondents.

(** Equations and inclusions between sets, by the members. *)
Ltac by_members :=
  intros; try apply set_eq; intros ?;
  rewrite ?fmap_cons, ?fmap_app, ?list_to_set_cons, ?list_to_set_app;
  rewrite ?elem_of_union, ?elem_of_difference, ?elem_of_union,
    ?elem_of_difference, ?elem_of_singleton, ?elem_of_list_to_set,
    ?elem_of_union, ?elem_of_difference, ?elem_of_singleton, ?elem_of_nil,
    ?elem_of_empty;
  tauto.

Lemma addStudents_spec (students : list Entry) :
  ∀ sel : gset string,
    addStudents sel students = sel ∪ list_to_set (en_student_BC <$> students).
Proof.
  unfold addStudents. induction students as [|e es IH]; intros sel; simpl.
  - by_members.
  - rewrite IH. by_members.
Qed.

Lemma deleteStudents_spec (students : list Entry) :
  ∀ sel : gset string,
    deleteStudents sel students = sel ∖ list_to_set (en_student_BC <$> students).
Proof.
  unfold deleteStudents. induction students as [|e es IH]; intros sel; simpl.
  - by_members.
  - rewrite IH. by_members.
Qed.

Lemma addClasses_spec (classes : list (list Entry)) :
  ∀ sel : gset string,
    foldl addStudents sel classes
    = sel ∪ list_to_set (en_student_BC <$> concat classes).
Proof.
  induction classes as [|es classes IH]; intros sel; simpl.
  - by_members.
  - rewrite IH, addStudents_spec, fmap_app. by_members.
Qed.

Lemma deleteClasses_spec (classes : list (list Entry)) :
  ∀ sel : gset string,
    foldl deleteStudents sel classes
    = sel ∖ list_to_set (en_student_BC <$> concat classes).
Proof.
  induction classes as [|es classes IH]; intros sel; simpl.
  - by_members.
  - rewrite IH, deleteStudents_spec, fmap_app. by_members.
Qed.

Lemma addLevels_spec (levels : list (gmap string (list Entry))) :
  ∀ sel : gset string,
    foldl (λ newSelected levels, foldl addStudents newSelected (values levels))
      sel levels
    = sel ∪ list_to_set (en_student_BC <$> concat (levelEntries <$> levels)).
Proof.
  induction levels as [|cl levels IH]; intros sel; simpl.
  - by_members.
  - rewrite IH, addClasses_spec, fmap_app. unfold levelEntries. by_members.
Qed.

Lemma deleteLevels_spec (levels : list (gmap string (list Entry))) :
  ∀ sel : gset string,
    foldl (λ newSelected levels, foldl deleteStudents newSelected (values levels))
      sel levels
    = sel ∖ list_to_set (en_student_BC <$> concat (levelEntries <$> levels)).
Proof.
  induction levels as [|cl levels IH]; intros sel; simpl.
  - by_members.
  - rewrite IH, deleteClasses_spec, fmap_app. unfold levelEntries. by_members.
Qed.

(** The counters: the students of the classes that are in the set, and
    the students of the classes. *)
Lemma countClass_spec (sel : gset string) (students : list Entry) (count : Count) :
  countClass sel count students
  = mkCount (selected count
             + Datatypes.length (filter (λ e, en_student_BC e ∈ sel) students))
      (total count + Datatypes.length students).
Proof.
  unfold countClass. f_equal. generalize (selected count) as n.
  induction students as [|e es IH]; intros n; simpl; [lia|].
  rewrite IH, filter_cons. case_bool_decide as He.
  - rewrite decide_True by done. simpl. lia.
  - by rewrite decide_False by done.
Qed.

Lemma countClasses_spec (sel : gset string) (classes : list (list Entry)) :
  ∀ count,
    foldl (countClass sel) count classes
    = mkCount (selected count
               + Datatypes.length (filter (λ e, en_student_BC e ∈ sel)
                                     (concat classes)))
        (total count + Datatypes.length (concat classes)).
Proof.
  induction classes as [|es classes IH]; intros count; simpl.
  - destruct count. simpl. f_equal; lia.
  - rewrite IH, countClass_spec. simpl.
    rewrite filter_app, !length_app. f_equal; lia.
Qed.

Lemma countLevels_spec (sel : gset string) (levels : list (gmap string (list Entry))) :
  ∀ count,
    foldl (λ count level, foldl (countClass sel) count (values level)) count levels
    = mkCount (selected count
               + Datatypes.length (filter (λ e, en_student_BC e ∈ sel)
                                     (concat (levelEntries <$> levels))))
        (total count + Datatypes.length (concat (levelEntries <$> levels))).
Proof.
  induction levels as [|cl levels IH]; intros count.
  - destruct count. simpl. f_equal; lia.
  - rewrite fmap_cons. cbn [foldl concat]. rewrite IH, countClasses_spec.
    cbn [selected total]. fold (levelEntries cl).
    rewrite filter_app, !length_app. f_equal; lia.
Qed.

Lemma filter_all_in (sel : gset string) (es : list Entry) :
  filter (λ e, en_student_BC e ∈ sel ∪ list_to_set (en_student_BC <$> es)) es = es.
Proof.
  apply filter_all. intros e He.
  apply elem_of_union. right. apply elem_of_list_to_set. by apply list_elem_of_fmap_2.
Qed.

Lemma filter_none_in (sel : gset string) (es : list Entry) :
  filter (λ e, en_student_BC e ∈ sel ∖ list_to_set (en_student_BC <$> es)) es = [].
Proof.
  apply filter_Forall_not, Forall_forall. intros e He Hin.
  apply elem_of_difference in Hin as [_ Hnot]. apply Hnot.
  apply elem_of_list_to_set. by apply list_elem_of_fmap_2.
Qed.

Lemma elem_of_concat_2 {A : Type} (x : A) (l : list A) (ls : list (list A)) :
  l ∈ ls → x ∈ l → x ∈ concat ls.
Proof.
  intros Hl Hx. induction ls as [|l' ls IH]; [by apply elem_of_nil in Hl|].
  simpl. apply elem_of_app. apply elem_of_cons in Hl as [<-|Hl]; [by left|].
  right. by apply IH.
Qed.

(** The students of a level are students of its centre. *)
Lemma level_in_centre (h : gmap string (gmap string (gmap string (list Entry)))) (c l : string) (e : Entry) :
  e ∈ levelEntries (classesOf h c l) → e ∈ centreEntries (levelsOf h c).
Proof.
  unfold classesOf, levelsOf, centreEntries.
  destruct (h !! c) as [levels|]; simpl.
  - destruct (levels !! l) as [classes|] eqn:Hl; simpl.
    + intros He. apply (elem_of_concat_2 e (levelEntries classes)); [|done].
      apply list_elem_of_fmap_2. unfold values.
      apply list_elem_of_fmap. exists (l, classes). split; [done|].
      by apply elem_of_map_to_list.
    + unfold levelEntries, values. rewrite map_to_list_empty. simpl.
      by intros ?%elem_of_nil.
  - unfold levelEntries, values. rewrite map_to_list_empty. simpl.
    by intros ?%elem_of_nil.
Qed.

(** X30. Select all fills the counter.  After [selectAllInCentre] the
    counter of the centre shows every student of the centre selected, and
    after [deselectAllInCentre] none; the same holds for a level with
    [selectAllInLevel] and [deselectAllInLevel]; the total of a counter
    does not depend on the selection.  Selecting adds only BC numbers of
    students of the centre and removes none, deselecting removes only such
    numbers and adds none, what is done for a level is part of what is
    done for its centre, and a second click on a student undoes the
    first. *)
Theorem select_all_fills_the_counter (c l : string) (h : gmap string (gmap string (gmap string (list Entry))))
    (sel : gset string) :
  let all := total (getCentreStudentsCount c h sel) in
  let allLevel := total (getLevelStudentsCount c l h sel) in
  getCentreStudentsCount c h (selectAllInCentre c h sel) = mkCount all all
  ∧ getCentreStudentsCount c h (deselectAllInCentre c h sel) = mkCount 0 all
  ∧ getLevelStudentsCount c l h (selectAllInLevel c l h sel)
    = mkCount allLevel allLevel
  ∧ getLevelStudentsCount c l h (deselectAllInLevel c l h sel) = mkCount 0 allLevel
  ∧ (selected (getCentreStudentsCount c h sel) ≤ all)%nat
  ∧ all = Datatypes.length (centreEntries (levelsOf h c))
  ∧ (∀ bc, bc ∈ selectAllInCentre c h sel
           ↔ bc ∈ sel ∨ bc ∈ en_student_BC <$> centreEntries (levelsOf h c))
  ∧ (∀ bc, bc ∈ deselectAllInCentre c h sel
           ↔ bc ∈ sel ∧ bc ∉ en_student_BC <$> centreEntries (levelsOf h c))
  ∧ sel ⊆ selectAllInLevel c l h sel
  ∧ selectAllInLevel c l h sel ⊆ selectAllInCentre c h sel
  ∧ deselectAllInCentre c h sel ⊆ deselectAllInLevel c l h sel
  ∧ deselectAllInLevel c l h sel ⊆ sel
  ∧ ∀ bc, toggleStudentSelection bc (toggleStudentSelection bc sel) = sel.
Proof.
  cbv zeta.
  unfold getCentreStudentsCount, getLevelStudentsCount, selectAllInCentre,
    deselectAllInCentre, selectAllInLevel, deselectAllInLevel.
  rewrite !countLevels_spec, !countClasses_spec, addLevels_spec, deleteLevels_spec,
    addClasses_spec, deleteClasses_spec.
  fold (centreEntries (levelsOf h c)). fold (levelEntries (classesOf h c l)).
  cbn [selected total].
  rewrite !filter_all_in, !filter_none_in. cbn [Datatypes.length].
  assert (∀ bc, bc ∈ en_student_BC <$> levelEntries (classesOf h c l) →
                bc ∈ en_student_BC <$> centreEntries (levelsOf h c)) as Hsub.
  { intros bc (e & -> & He)%list_elem_of_fmap.
    by apply list_elem_of_fmap_2, (level_in_centre h c l). }
  split; [done|]. split; [f_equal; lia|]. split; [done|]. split; [f_equal; lia|].
  split.
  { pose proof (length_filter (λ e, en_student_BC e ∈ sel)
                  (centreEntries (levelsOf h c))). simpl. lia. }
  split; [done|].
  split; [intros bc; rewrite elem_of_union, elem_of_list_to_set; tauto|].
  split; [intros bc; rewrite elem_of_difference, elem_of_list_to_set; tauto|].
  split; [by_members|].
  split.
  { intros x. rewrite !elem_of_union, !elem_of_list_to_set.
    intros [?|?]; [by left|right; by apply Hsub]. }
  split.
  { intros x. rewrite !elem_of_difference, !elem_of_list_to_set.
    intros [? Hn]. split; [done|]. intros ?. by apply Hn, Hsub. }
  split; [by_members|].
  intros bc. unfold toggleStudentSelection.
  destruct (decide (bc ∈ sel)) as [Hin|Hout].
  - rewrite (bool_decide_true _ Hin).
    rewrite bool_decide_false
      by (rewrite elem_of_difference, elem_of_singleton; tauto).
    apply set_eq. intros x. rewrite elem_of_union, elem_of_difference,
      elem_of_singleton. destruct (decide (x = bc)) as [->|]; tauto.
  - rewrite (bool_decide_false _ Hout).
    rewrite bool_decide_true by (rewrite elem_of_union, elem_of_singleton; tauto).
    apply set_eq. intros x. rewrite elem_of_difference, elem_of_union,
      elem_of_singleton. split; [tauto|]. intros Hx. split; [by left|].
    by intros ->.
Qed.

(** *** The tree of the students *)

Import Schema.

Lemma studentsOf_alt (h : gmap string (gmap string (gmap string (list Entry))))
    (c l k : string) :
  studentsOf h c l k = default [] (default ∅ (default ∅ (h !! c) !! l) !! k).
Proof.
  unfold studentsOf. destruct (h !! c) as [levels|]; simpl.
  - destruct (levels !! l) as [classes|]; simpl; [done|]. by rewrite lookup_empty.
  - by rewrite !lookup_empty.
Qed.

Lemma default_lookup_insert {A : Type} (d : A) (m : gmap string A) (k0 k : string)
    (v : A) :
  default d (<[k0 := v]> m !! k) = if decide (k = k0) then v else default d (m !! k).
Proof.
  destruct (decide (k = k0)) as [->|Hne].
  - by rewrite lookup_insert_eq.
  - by rewrite lookup_insert_ne.
Qed.

Lemma complete_fields (s : Student) :
  complete s = true →
  ∃ c l k bc n,
    centre s = Some c ∧ level s = Some l ∧ class s = Some k
    ∧ student_BC s = Some bc ∧ fullName s = Some n ∧ bc ≠ "".
Proof.
  unfold complete. rewrite !andb_true_iff. intros ((((Hc & Hl) & Hk) & Hbc) & Hn).
  destruct (centre s) as [c|]; [|done]. destruct (level s) as [l|]; [|done].
  destruct (class s) as [k|]; [|done]. destruct (student_BC s) as [bc|]; [|done].
  destruct (fullName s) as [n|]; [|done].
  exists c, l, k, bc, n. repeat split; try done.
  simpl in Hbc. by destruct (String.eqb_spec bc "").
Qed.

(** The array of a class after one student. *)
Lemma studentsOf_addStudent (sel : gset string)
    (h : gmap string (gmap string (gmap string (list Entry)))) (s : Student)
    (c l k : string) :
  studentsOf (addStudent sel h s) c l k
  = studentsOf h c l k ++ (if decide (ofClass c l k s) then [entryOf sel s] else []).
Proof.
  unfold addStudent. destruct (complete s) eqn:Hc.
  2:{ rewrite decide_False; [by rewrite app_nil_r|].
      intros [Hc' _]. congruence. }
  destruct (complete_fields s Hc) as (c0 & l0 & k0 & bc & n & Ec & El & Ek & _).
  rewrite Ec, El, Ek.
  change (default "" (Some c0)) with c0. change (default "" (Some l0)) with l0.
  change (default "" (Some k0)) with k0. cbv zeta. rewrite !studentsOf_alt.
  rewrite !default_lookup_insert.
  destruct (decide (c = c0)) as [->|Hc0]; cbv beta iota.
  - rewrite !default_lookup_insert.
    destruct (decide (l = l0)) as [->|Hl0]; cbv beta iota.
    + rewrite !default_lookup_insert.
      destruct (decide (k = k0)) as [->|Hk0]; cbv beta iota.
      * rewrite decide_True; [done|]. unfold ofClass. by rewrite Ec, El, Ek.
      * rewrite decide_False; [by rewrite app_nil_r|].
        intros (_ & _ & _ & Hk). congruence.
    + rewrite decide_False; [by rewrite app_nil_r|].
      intros (_ & _ & Hl & _). congruence.
  - rewrite decide_False; [by rewrite app_nil_r|].
    intros (_ & Hcc & _). congruence.
Qed.

Lemma studentsOf_fetch (sel : gset string) (students : list Student) (c l k : string) :
  studentsOf (foldl (addStudent sel) ∅ students) c l k
  = entryOf sel <$> filter (ofClass c l k) students.
Proof.
  induction students as [|s students IH] using rev_ind.
  - simpl. unfold studentsOf. by rewrite lookup_empty.
  - rewrite foldl_app. cbn [foldl]. rewrite studentsOf_addStudent, IH.
    rewrite filter_app, fmap_app. f_equal.
    rewrite filter_cons, filter_nil. by destruct (decide (ofClass c l k s)).
Qed.

(** *** The number of students of the tree *)

Lemma concat_length_perm {A B : Type} (f : A → list B) (l l' : list A) :
  l ≡ₚ l' →
  Datatypes.length (concat (f <$> l)) = Datatypes.length (concat (f <$> l')).
Proof.
  induction 1 as [|x l l' _ IH|x y l|l l' l'' _ IH _ IH'];
    rewrite ?fmap_cons; cbn [concat]; rewrite ?length_app.
  - done.
  - lia.
  - lia.
  - congruence.
Qed.

Lemma values_insert {A : Type} (m : gmap string A) (k : string) (v : A) :
  values (<[k := v]> m) ≡ₚ v :: values (delete k m).
Proof.
  unfold values. rewrite <- insert_delete_eq.
  rewrite map_to_list_insert by apply lookup_delete_eq. done.
Qed.

Lemma values_lookup {A : Type} (m : gmap string A) (k : string) (v : A) :
  m !! k = Some v → values m ≡ₚ v :: values (delete k m).
Proof.
  intros Hk. unfold values. by rewrite <- (map_to_list_delete m k v Hk).
Qed.

(** The effect of replacing the value of a key, or of giving one to a key
    without a value, on the number of students below. *)
Lemma flat_insert_length {A : Type} (f : A → list Entry) (d : A) (m : gmap string A)
    (k : string) (v : A) :
  f d = [] →
  (Datatypes.length (concat (f <$> values (<[k := v]> m)))
   + Datatypes.length (f (default d (m !! k)))
   = Datatypes.length (concat (f <$> values m)) + Datatypes.length (f v))%nat.
Proof.
  intros Hd. rewrite (concat_length_perm f _ _ (values_insert m k v)).
  rewrite fmap_cons. cbn [concat]. rewrite length_app.
  destruct (m !! k) as [old|] eqn:Hk; cbn [default from_option].
  - rewrite (concat_length_perm f _ _ (values_lookup m k old Hk)).
    rewrite fmap_cons. cbn [concat]. rewrite length_app. unfold Datatypes.id. lia.
  - rewrite (delete_id m k Hk), Hd. simpl. lia.
Qed.

Lemma totalClasses_spec (classes : list (list Entry)) :
  ∀ total : nat,
    foldl (λ (total : nat) (students : list Entry),
             (total + Datatypes.length students)%nat) total classes
    = (total + Datatypes.length (concat classes))%nat.
Proof.
  induction classes as [|es classes IH]; intros total; simpl; [lia|].
  rewrite IH, length_app. lia.
Qed.

Lemma getTotalStudentsCount_spec
    (h : gmap string (gmap string (gmap string (list Entry)))) :
  getTotalStudentsCount h = Datatypes.length (allEntries h).
Proof.
  unfold getTotalStudentsCount, allEntries.
  assert (∀ (levels : list (gmap string (list Entry))) (total : nat),
            foldl (λ (total : nat) (level : gmap string (list Entry)),
                     foldl (λ (total : nat) (students : list Entry),
                              (total + Datatypes.length students)%nat)
                       total (values level)) total levels
            = (total + Datatypes.length (concat (levelEntries <$> levels)))%nat)
    as Hlevels.
  { induction levels as [|cl levels IH]; intros total; [simpl; lia|].
    rewrite fmap_cons. cbn [foldl concat]. rewrite IH, totalClasses_spec.
    fold (levelEntries cl). rewrite length_app. lia. }
  generalize (values h) as centres. intros centres.
  change (Datatypes.length (concat (centreEntries <$> centres)))
    with (0 + Datatypes.length (concat (centreEntries <$> centres)))%nat.
  generalize 0%nat as total. induction centres as [|lv centres IH]; intros total.
  - simpl. lia.
  - rewrite fmap_cons. cbn [foldl concat]. rewrite IH, Hlevels.
    fold (centreEntries lv). rewrite length_app. lia.
Qed.

Lemma allEntries_addStudent (sel : gset string)
    (h : gmap string (gmap string (gmap string (list Entry)))) (s : Student) :
  Datatypes.length (allEntries (addStudent sel h s))
  = (Datatypes.length (allEntries h) + (if complete s then 1 else 0))%nat.
Proof.
  unfold addStudent. destruct (complete s); [|lia]. cbv zeta.
  generalize (default "" (centre s)) (default "" (level s))
    (default "" (class s)) (entryOf sel s).
  intros c l k e.
  assert (levelEntries (∅ : gmap string (list Entry)) = []) as E2.
  { unfold levelEntries, values. by rewrite map_to_list_empty. }
  assert (centreEntries (∅ : gmap string (gmap string (list Entry))) = []) as E1.
  { unfold centreEntries, values. by rewrite map_to_list_empty. }
  pose proof (flat_insert_length (λ es : list Entry, es) []
                (default ∅ (default ∅ (h !! c) !! l)) k
                (default [] (default ∅ (default ∅ (h !! c) !! l) !! k) ++ [e])
                eq_refl) as H3.
  cbv beta in H3. rewrite !list_fmap_id, length_app in H3. simpl in H3.
  pose proof (flat_insert_length levelEntries ∅ (default ∅ (h !! c)) l
                (<[k := default [] (default ∅ (default ∅ (h !! c) !! l) !! k) ++ [e]]>
                   (default ∅ (default ∅ (h !! c) !! l))) E2) as H2.
  pose proof (flat_insert_length centreEntries ∅ h c
                (<[l := <[k := default []
                                 (default ∅ (default ∅ (h !! c) !! l) !! k) ++ [e]]>
                          (default ∅ (default ∅ (h !! c) !! l))]>
                   (default ∅ (h !! c))) E1) as H1.
  unfold allEntries, centreEntries, levelEntries in *. lia.
Qed.

(** *** The entries come from the students *)

Lemma elem_of_concat_1 {A : Type} (x : A) (ls : list (list A)) :
  x ∈ concat ls → ∃ l, l ∈ ls ∧ x ∈ l.
Proof.
  induction ls as [|l ls IH]; simpl; [by intros ?%elem_of_nil|].
  intros [Hx|Hx]%elem_of_app.
  - exists l. split; [by left|done].
  - destruct (IH Hx) as (l' & Hl' & Hx'). exists l'. split; [by right|done].
Qed.

Lemma elem_of_values {A : Type} (m : gmap string A) (v : A) :
  v ∈ values m → ∃ k, m !! k = Some v.
Proof.
  unfold values. intros ([k v'] & -> & Hkv)%list_elem_of_fmap.
  exists k. by apply elem_of_map_to_list.
Qed.

Lemma centre_entry_has_class
    (h : gmap string (gmap string (gmap string (list Entry)))) (c : string)
    (e : Entry) :
  e ∈ centreEntries (levelsOf h c) → ∃ l k, e ∈ studentsOf h c l k.
Proof.
  unfold centreEntries, levelsOf.
  intros (es & Hes & He)%elem_of_concat_1.
  apply list_elem_of_fmap in Hes as (classes & -> & Hclasses).
  apply elem_of_values in Hclasses as [l Hl].
  apply elem_of_concat_1 in He as (students & Hstudents & He).
  apply elem_of_values in Hstudents as [k Hk].
  exists l, k. unfold studentsOf.
  destruct (h !! c) as [levels|]; simpl in *; [|by rewrite lookup_empty in Hl].
  by rewrite Hl; simpl; rewrite Hk.
Qed.

(** X2. The tree of respondents holds the complete students.
    [fetchHierarchicalData] puts every student that has a centre, a
    level, a class, a BC number and a name, and no other, into the array
    of the student's class, in the order of the answer, provided the
    centre, level and class of these students are not names that every
    object inherits (the tree is read at such names as well),
    so that the total of the tree is the number of these students.  When
    no respondent was selected, every student with a BC number becomes
    selected - also the students that the tree leaves out - and the
    counter of every centre then shows all its students selected; a
    selection that is not empty is kept as it is. *)
Theorem tree_holds_the_complete_students (students : list Student)
    (sel : gset string) :
  Forall (λ s, complete s = true → plain_names s) students →
  let tree := (fetchHierarchicalData students sel).1 in
  let sel' := (fetchHierarchicalData students sel).2 in
  (∀ c l k, inherited c = false → inherited l = false → inherited k = false →
            studentsOf tree c l k = entryOf sel <$> filter (ofClass c l k) students)
  ∧ getTotalStudentsCount tree
    = Datatypes.length (filter (λ s, complete s = true) students)
  ∧ (sel = ∅ →
     (∀ s bc, s ∈ students → student_BC s = Some bc → bc ≠ "" → bc ∈ sel')
     ∧ ∀ c, inherited c = false →
            selected (getCentreStudentsCount c tree sel')
            = total (getCentreStudentsCount c tree sel'))
  ∧ (sel ≠ ∅ → sel' = sel).
Proof.
  intros _. cbv zeta. unfold fetchHierarchicalData. cbn [fst snd].
  split; [intros c l k _ _ _; apply studentsOf_fetch|].
  split.
  { rewrite getTotalStudentsCount_spec.
    induction students as [|s students IH] using rev_ind; [done|].
    rewrite foldl_app. cbn [foldl]. rewrite allEntries_addStudent, IH.
    rewrite filter_app, length_app, filter_cons, filter_nil.
    destruct (complete s); simpl; lia. }
  split.
  - intros ->. rewrite bool_decide_true by apply size_empty.
    assert (∀ s bc, s ∈ students → student_BC s = Some bc → bc ≠ "" →
              bc ∈ (list_to_set
                      (omap (λ student, if str_truthy (student_BC student)
                                        then student_BC student else None)
                         students) : gset string)) as Hall.
    { intros s bc Hs Hbc Hne. apply elem_of_list_to_set, list_elem_of_omap.
      exists s. split; [done|]. rewrite Hbc. simpl.
      by destruct (String.eqb_spec bc ""). }
    split; [exact Hall|].
    intros c _. unfold getCentreStudentsCount. rewrite countLevels_spec.
    fold (centreEntries (levelsOf (foldl (addStudent ∅) ∅ students) c)).
    cbn [selected total]. f_equal. f_equal. apply filter_all.
    intros e He. apply centre_entry_has_class in He as (l & k & He).
    rewrite studentsOf_fetch in He.
    apply list_elem_of_fmap in He as (s & -> & Hs).
    apply list_elem_of_filter in Hs as [[Hc _] Hs].
    destruct (complete_fields s Hc) as (c' & l' & k' & bc & n & _ & _ & _ & Hbc & _ & Hne).
    unfold entryOf. cbn [en_student_BC]. rewrite Hbc. by apply (Hall s bc).
  - intros Hne. rewrite bool_decide_false; [done|].
    intros Hsize. apply Hne. by apply size_empty_iff, leibniz_equiv in Hsize.
Qed.

Lemma tree_holds_the_complete_students_witness :
  let students := MoreSamples.some_students in
  let tree := (fetchHierarchicalData students ∅).1 in
  let sel' := (fetchHierarchicalData students ∅).2 in
  (∀ c l k, inherited c = false → inherited l = false → inherited k = false →
            studentsOf tree c l k = entryOf ∅ <$> filter (ofClass c l k) students)
  ∧ getTotalStudentsCount tree
    = Datatypes.length (filter (λ s, complete s = true) students)
  ∧ ((∅ : gset string) = ∅ →
     (∀ s bc, s ∈ students → student_BC s = Some bc → bc ≠ "" → bc ∈ sel')
     ∧ ∀ c, inherited c = false →
            selected (getCentreStudentsCount c tree sel')
            = total (getCentreStudentsCount c tree sel'))
  ∧ ((∅ : gset string) ≠ ∅ → sel' = ∅).
Proof.
  apply (tree_holds_the_complete_students MoreSamples.some_students ∅).
  repeat (apply Forall_cons; split; [intros _; by repeat split|]).
  apply Forall_nil_2.
Defined.

(** Of the four sample students the tree has two, the default selection
    three. *)
Example tree_example :
  let students := MoreSamples.some_students in
  let tree := (fetchHierarchicalData students ∅).1 in
  let sel' := (fetchHierarchicalData students ∅).2 in
  (en_student_BC <$> studentsOf tree "JE" "P1" "1A") = ["BC1"; "BC4"]
  ∧ getTotalStudentsCount tree = 2%nat
  ∧ size sel' = 3%nat
  ∧ getCentreStudentsCount "JE" tree sel' = mkCount 2 2.
Proof. vm_compute. done. Qed.

(** ** Agreement-scale questions through a session *)

Import Builder BuilderSpec BuilderSessions.

Lemma sls_ok_withNo (n : Z) (q : Question) : sls_ok q → sls_ok (withNo n q).
Proof. done. Qed.

Lemma sls_ok_withSection (s : string) (q : Question) :
  sls_ok q → sls_ok (withSection s q).
Proof. done. Qed.

(** *** The renumbering keeps what does not depend on the number *)

Section Renumbering.

Variable P : Question → Prop.
Hypothesis P_withNo : ∀ n q, P q → P (withNo n q).

Lemma assignNumber_Forall (st : Renumbering) (questionIndex : nat) (qid : string) :
  Forall P (renumberedQuestions st) →
  Forall P (renumberedQuestions (assignNumber st questionIndex qid)).
Proof.
  intros Hall. unfold assignNumber. cbn [renumberedQuestions].
  destruct (renumberedQuestions st !! questionIndex) as [q|] eqn:Hq; [|done].
  apply Forall_insert; [done|]. apply P_withNo.
  by eapply Forall_lookup_1.
Qed.

Lemma numberInSection_Forall (st : Renumbering) (q : Question) :
  Forall P (renumberedQuestions st) →
  Forall P (renumberedQuestions (numberInSection st q)).
Proof.
  intros Hall. unfold numberInSection.
  destruct (findIndex _ _); [|done]. case_bool_decide; [done|].
  by apply assignNumber_Forall.
Qed.

Lemma numberRemaining_Forall (st : Renumbering) (q : Question) :
  Forall P (renumberedQuestions st) →
  Forall P (renumberedQuestions (numberRemaining st q)).
Proof.
  intros Hall. unfold numberRemaining. case_bool_decide; [done|].
  destruct (findIndex _ _); [|done]. by apply assignNumber_Forall.
Qed.

Lemma foldl_Forall (f : Renumbering → Question → Renumbering) (l : list Question) :
  (∀ st q, Forall P (renumberedQuestions st) →
           Forall P (renumberedQuestions (f st q))) →
  ∀ st, Forall P (renumberedQuestions st) →
        Forall P (renumberedQuestions (foldl f st l)).
Proof.
  intros Hf. induction l as [|q l IH]; intros st Hall; [done|].
  simpl. by apply IH, Hf.
Qed.

Lemma renumberAllQuestions_Forall (secs : list Section) (qs : list Question) :
  Forall P qs → Forall P (renumberAllQuestions secs qs).
Proof.
  intros Hall. unfold renumberAllQuestions.
  apply foldl_Forall; [apply numberRemaining_Forall|].
  assert (∀ sorted st,
            Forall P (renumberedQuestions st) →
            Forall P (renumberedQuestions
                        (foldl (λ st section,
                                  foldl numberInSection st
                                    (filter (λ q, inSection (id section) q = true) qs))
                           st sorted))) as Hsections.
  { induction sorted as [|s sorted IH]; intros st Hst; [done|].
    simpl. apply IH. by apply foldl_Forall; [apply numberInSection_Forall|]. }
  destruct (Nat.ltb 0 (Datatypes.length secs)); [by apply Hsections|done].
Qed.

End Renumbering.

Lemma renumberAllQuestions_sls (secs : list Section) (qs : list Question) :
  Forall sls_ok qs → Forall sls_ok (renumberAllQuestions secs qs).
Proof. apply renumberAllQuestions_Forall. apply sls_ok_withNo. Qed.

(** *** The handlers *)

Lemma copiedQuestions_sls (qid now : string) (qs newQuestions : list Question) :
  Forall sls_ok qs →
  copiedQuestions qid now qs = Some newQuestions →
  Forall sls_ok newQuestions.
Proof.
  unfold copiedQuestions. intros Hall H.
  destruct (list_find _ qs) as [[i q]|] eqn:Hfind; simpl in H; [|discriminate].
  injection H as <-. apply list_find_Some in Hfind as (Hq & _ & _).
  apply Forall_app. split; [by apply Forall_take|].
  apply Forall_cons. split; [|by apply Forall_drop].
  by apply (Forall_lookup_1 _ _ _ _ Hall Hq).
Qed.

Lemma findOrThrow_elem (qid : string) (l : list (option Question)) (sq : Question) :
  findOrThrow qid l = FoundItem sq → Some sq ∈ l.
Proof.
  induction l as [|[q|] l IH]; simpl; [done| |done].
  destruct (String.eqb (questionId q) qid).
  - intros [= ->]. by left.
  - intros H. right. by apply IH.
Qed.

Lemma reorderedSection_elem (sourceQuestions : list Question) (i j : nat)
    (sq : Question) :
  Some sq ∈ reorderedSection sourceQuestions i j → sq ∈ sourceQuestions.
Proof.
  unfold reorderedSection. intros Hin.
  assert (∀ x, Some x ∈ delete i (Some <$> sourceQuestions) → x ∈ sourceQuestions)
    as Hdel.
  { intros x Hx.
    assert (Some x ∈ Some <$> sourceQuestions) as Hx'.
    { eapply elem_of_sublist; [exact Hx|]. apply sublist_delete. }
    apply list_elem_of_fmap in Hx' as (y & [= ->] & Hy). done. }
  apply elem_of_app in Hin as [Hin|Hin].
  - apply Hdel. eapply elem_of_sublist; [exact Hin|apply sublist_take].
  - apply elem_of_cons in Hin as [Heq|Hin].
    + symmetry in Heq. by apply list_elem_of_lookup_2 in Heq.
    + apply Hdel. eapply elem_of_sublist; [exact Hin|apply sublist_drop].
Qed.

Lemma draggedQuestions_sls (src : string) (i : nat) (dst : option (string * nat))
    (qs updated : list Question) :
  Forall sls_ok qs →
  draggedQuestions src i dst qs = Some updated →
  Forall sls_ok updated.
Proof.
  intros Hall. unfold draggedQuestions. destruct dst as [[d j]|]; simpl; [|done].
  destruct (String.eqb src d).
  - intros H%mapM_Some.
    assert (∀ sq, sq ∈ getQuestionsBySection src qs → sls_ok sq) as Hsrc.
    { intros sq [_ Hsq]%list_elem_of_filter. rewrite Forall_forall in Hall. auto. }
    revert Hall. induction H as [|q q' l l' Hq _ IH]; [done|].
    intros [Hqok Hl]%Forall_cons. apply Forall_cons. split; [|by apply IH].
    unfold reorderOne in Hq. destruct (inSection src q); [|by injection Hq as <-].
    destruct (findOrThrow _ _) as [| |sq] eqn:Hfind; [done|by injection Hq as <-|].
    injection Hq as <-. by apply Hsrc, (reorderedSection_elem _ i j), (findOrThrow_elem (questionId q)).
  - destruct (_ !! i) as [dq|]; simpl; [|done]. intros [= <-].
    apply Forall_fmap. eapply Forall_impl; [exact Hall|]. intros q Hq. simpl.
    destruct (String.eqb (questionId q) (questionId dq)); [|done].
    by apply sls_ok_withSection.
Qed.

Lemma suggestedQuestions_sls (ft : string) (ids : nat → string) (qs : list Question) :
  Forall sls_ok (suggestedQuestions ft ids qs).
Proof.
  assert (∀ table : list (string * string * option (list string) * option Z),
            Forall (λ row, row.1.1.1 ≠ "sls") table →
            Forall sls_ok
              (imap (λ index '(ty, text, opts, sc),
                       mkQuestion (ids index)
                         (Z.of_nat (Datatypes.length qs) + Z.of_nat index + 1)
                         ty text false opts sc None) table)) as Htable.
  { intros table Hrows. apply Forall_forall. intros q Hq.
    apply list_elem_of_lookup in Hq as [i Hq]. rewrite list_lookup_imap in Hq.
    destruct (table !! i) as [[[[ty text] opts] sc]|] eqn:Hrow; [|done].
    injection Hq as <-. intros Hty. simpl in Hty.
    by destruct (Forall_lookup_1 _ _ _ _ Hrows Hrow). }
  unfold suggestedQuestions. apply Htable. unfold suggestions.
  destruct (String.eqb ft "survey"); [by repeat constructor|].
  destruct (String.eqb ft "feedback"); [by repeat constructor|].
  destruct (String.eqb ft "registration"); [by repeat constructor|].
  destruct (String.eqb ft "assessment"); by repeat constructor.
Qed.

Lemma normalizeQuestion_sls (clock : nat → string) (index : nat) (q : StoredQuestion) :
  sls_ok (normalizeQuestion clock index q).
Proof.
  unfold normalizeQuestion, sls_ok.
  destruct (String.eqb_spec (sq_type q) "sls") as [Hs|Hs]; simpl; done.
Qed.

Lemma handle_sls (op : Op) (st : BuilderState) :
  editsOptions op = false →
  Forall sls_ok (questions st) →
  Forall sls_ok (questions (next (handle op st))).
Proof.
  intros Hop Hall. destruct op; cbn [handle].
  - (* AddQuestion *)
    apply renumberAllQuestions_sls, Forall_app. split; [done|].
    apply Forall_singleton, newQuestion_sls_ok.
  - (* UpdateQuestion *)
    cbn [next questions]. unfold updateQuestion. apply Forall_fmap.
    eapply Forall_impl; [exact Hall|]. intros q Hq. simpl.
    apply applyEdit_sls_ok; [|done]. intros v ->. discriminate.
  - (* DeleteQuestion *)
    apply renumberAllQuestions_sls. apply Forall_forall.
    intros q [_ Hq]%list_elem_of_filter. rewrite Forall_forall in Hall. auto.
  - (* CopyQuestion *)
    destruct (copiedQuestions qid now (questions st)) as [newQs|] eqn:Hcopy; [|done].
    by apply renumberAllQuestions_sls, (copiedQuestions_sls qid now (questions st)).
  - done.
  - done.
  - (* DeleteSection *)
    destruct (Nat.leb (Datatypes.length (sections st)) 1); [done|].
    cbn [next questions]. destruct (head _); [|done].
    apply Forall_fmap. eapply Forall_impl; [exact Hall|]. intros q Hq. simpl.
    case_bool_decide; [by apply sls_ok_withSection|done].
  - (* MoveQuestionToSection *)
    apply renumberAllQuestions_sls, Forall_fmap.
    eapply Forall_impl; [exact Hall|]. intros q Hq. simpl.
    destruct (String.eqb (questionId q) qid); [by apply sls_ok_withSection|done].
  - (* DragEnd *)
    destruct (draggedQuestions _ _ _ _) as [updated|] eqn:Hdrag; [|done].
    by apply renumberAllQuestions_sls,
      (draggedQuestions_sls sourceSectionId sourceIndex destination (questions st)).
  - (* SuggestQuestions *)
    apply renumberAllQuestions_sls, Forall_app. split; [done|].
    apply suggestedQuestions_sls.
  - done.
  - (* LoadForm *)
    assert (Forall sls_ok
              match fd_questions formData with
              | Some stored =>
                  renumberAllQuestions (sections st)
                    (imap (normalizeQuestion clock) stored)
              | None => questions st
              end) as Hloaded.
    { destruct (fd_questions formData) as [stored|]; [|done].
      apply renumberAllQuestions_sls, Forall_forall. intros q Hq.
      apply list_elem_of_lookup in Hq as [i Hq].
      rewrite list_lookup_imap in Hq.
      destruct (stored !! i) as [sq|]; [|done]. injection Hq as <-.
      apply normalizeQuestion_sls. }
    destruct (fd_sections formData); [done|].
    destruct (Nat.ltb 0 (Datatypes.length (questions st))); [|done].
    cbn [next questions]. apply Forall_fmap.
    eapply Forall_impl; [exact Hall|]. intros q Hq. simpl.
    destruct (str_truthy (sectionId q)); [done|by apply sls_ok_withSection].
Qed.

Lemma effectsRound_sls (now : string) (a b : bool) (st : BuilderState) :
  Forall sls_ok (questions st) →
  Forall sls_ok (questions (next (effectsRound now a b st))).
Proof.
  intros Hall. unfold effectsRound.
  destruct (_ && negb (hasChildIdentitySection (sections st)))%bool;
    cbn [next questions].
  - apply renumberAllQuestions_sls, Forall_cons. split; [by intros ?|done].
  - destruct (_ && _)%bool; [by apply renumberAllQuestions_sls|done].
Qed.

Lemma settle_sls (fuel : nat) (now : string) :
  ∀ a b st, Forall sls_ok (questions st) →
            Forall sls_ok (questions (settle fuel now a b st)).
Proof.
  induction fuel as [|fuel IH]; intros a b st Hall; [done|].
  cbn [settle]. destruct (a || b)%bool; [|done].
  by apply IH, effectsRound_sls.
Qed.

(** X1. An agreement-scale question stays what it is.  Through every
    session of the builder - adding, editing, deleting and copying
    questions, adding, renaming and deleting sections, moving and
    dragging questions, suggestions, a change of form type, a load of
    persisted data, each with the effects and the renumbering it
    triggers - in which no action edits the options of a question, every
    question of type ['sls'] is required and has the four fixed options,
    provided the questions the session starts from are so. *)
Theorem sls_questions_stay_required (evs : list (Op * string)) (st : BuilderState) :
  Forall sls_ok (questions st) →
  Forall (λ ev, editsOptions ev.1 = false) evs →
  Forall sls_ok (questions (run st evs)).
Proof.
  revert st. induction evs as [|[op now] evs IH]; intros st Hall Hevs; [done|].
  apply Forall_cons in Hevs as [Hop Hevs].
  change (run st ((op, now) :: evs)) with (run (step st (op, now)) evs).
  apply IH; [|done]. unfold step. by apply settle_sls, handle_sls.
Qed.

Lemma sls_questions_stay_required_witness :
  Forall sls_ok (questions (run initialState BuilderSamples.session)).
Proof.
  apply (sls_questions_stay_required BuilderSamples.session initialState).
  - constructor.
  - repeat constructor.
Defined.

(** *** The agreement-scale question and the controls of the page *)






(** The session above: the options of the choice question are replaced,
    the agreement-scale question stays required, and so is its copy. *)
Example options_session_result :
  (λ q, (questionId q, type q, required q, options q))
    <$> questions (run initialState MoreSamples.options_session)
  = [("1001", "radio", false, Some ["Yes"; "No"; "Maybe"]);
     ("1002", "sls", true, Some SLS_OPTIONS);
     ("1003", "sls", true, Some SLS_OPTIONS)].
Proof. vm_compute. reflexivity. Qed.
